(** * repo2pipe: stack analyzer and pipeline synthesizer

    A shallow embedding of
    - [src/core/services/analyzer/core.py]  (the stack analyzer) and
    - [src/core/services/builders/pipeline.py] (the pipeline synthesizer),
    with the data model of [src/core/models.py] and [src/model.py], and of
    the script generators of [src/core/ci_sctipts.py].

    Conventions of the embedding.
    - A Python [str] is a [string] (a sequence of bytes); case mapping and
      white space are the ASCII ones, bytes above 127 are left as they are.
    - A Python [list] is a [list]; a [dict] is an association list in
      insertion order (see [Dict]); a [set] that is only ever sorted before
      use is a duplicate-free list.
    - The functions return the value and the warnings.  The trace written
      with [click.echo] and collected in [logs] is output only: nothing in
      the code reads it back, and it is not part of the embedding. *)

From Stdlib Require Import String Ascii List Bool Arith NArith Lia.
From Stdlib Require Import Permutation Sorted DecimalString.
Import ListNotations.
Open Scope string_scope.
Open Scope list_scope.

Set Implicit Arguments.

(** String concatenation, apart from the [++] of lists. *)
Infix "+++" := String.append (right associativity, at level 60).

(* ===================================================================== *)
(** * Python built-ins used by the code                                   *)
(* ===================================================================== *)

Module Py.

(** [x in xs] for a list of strings. *)
Definition contains (x : string) (xs : list string) : bool :=
  existsb (String.eqb x) xs.

(** The double quote character, as a one-character string. *)
Definition dq : string := String (ascii_of_nat 34) EmptyString.

(** [s.replace(a, b)] for one-character [a] and [b]. *)
Fixpoint replace (a b : ascii) (s : string) : string :=
  match s with
  | EmptyString => EmptyString
  | String c r => String (if Ascii.eqb c a then b else c) (replace a b r)
  end.

(** [sep.join(xs)]. *)
Fixpoint join (sep : string) (xs : list string) : string :=
  match xs with
  | [] => ""
  | [x] => x
  | x :: r => x +++ sep +++ join sep r
  end.

(** Truth value of a string: [""] is falsy. *)
Definition truthy (s : string) : bool :=
  match s with EmptyString => false | _ => true end.

(** [a or b] on strings. *)
Definition or_else (a b : string) : string := if truthy a then a else b.

(** [list(dict.fromkeys(xs))]: duplicates removed, first occurrences kept
    in order. *)
Fixpoint fromkeys_acc (seen xs : list string) : list string :=
  match xs with
  | [] => []
  | x :: r =>
      if contains x seen then fromkeys_acc seen r
      else x :: fromkeys_acc (x :: seen) r
  end.

Definition fromkeys (xs : list string) : list string := fromkeys_acc [] xs.

(** ** Characters *)

Definition code (c : ascii) : nat := nat_of_ascii c.

Definition between (lo hi : nat) (c : ascii) : bool :=
  Nat.leb lo (code c) && Nat.leb (code c) hi.

Definition is_upper (c : ascii) : bool := between 65 90 c.
Definition is_lower (c : ascii) : bool := between 97 122 c.
Definition is_digit (c : ascii) : bool := between 48 57 c.

(** White space, for [str.strip], [str.split] and the class [\s]:
    tab, the line breaks, the separators 28 to 31, and the space. *)
Definition isspace (c : ascii) : bool :=
  between 9 13 c || between 28 31 c || Nat.eqb (code c) 32.

(** The class [\w]. *)
Definition is_word (c : ascii) : bool :=
  is_upper c || is_lower c || is_digit c || Nat.eqb (code c) 95.

Definition lower_char (c : ascii) : ascii :=
  if is_upper c then ascii_of_nat (code c + 32) else c.

Definition upper_char (c : ascii) : ascii :=
  if is_lower c then ascii_of_nat (code c - 32) else c.

(** [c in chars]. *)
Fixpoint char_in (c : ascii) (chars : string) : bool :=
  match chars with
  | EmptyString => false
  | String d r => Ascii.eqb c d || char_in c r
  end.

(** ** Strings *)

(** [s.lower()]. *)
Fixpoint lower (s : string) : string :=
  match s with
  | EmptyString => EmptyString
  | String c r => String (lower_char c) (lower r)
  end.

(** [s.startswith(p)]. *)
Fixpoint startswith (p s : string) : bool :=
  match p, s with
  | EmptyString, _ => true
  | String a p', String b s' => Ascii.eqb a b && startswith p' s'
  | String _ _, EmptyString => false
  end.

(** [s[n:]]. *)
Fixpoint drop (n : nat) (s : string) : string :=
  match n, s with
  | 0, _ => s
  | S n', String _ r => drop n' r
  | S _, EmptyString => EmptyString
  end.

Fixpoint rev_acc (s acc : string) : string :=
  match s with
  | EmptyString => acc
  | String c r => rev_acc r (String c acc)
  end.

(** [s[::-1]]. *)
Definition rev (s : string) : string := rev_acc s EmptyString.

(** [s.endswith(p)]. *)
Definition endswith (p s : string) : bool := startswith (rev p) (rev s).

(** [needle in hay] on strings. *)
Fixpoint str_contains (needle hay : string) : bool :=
  startswith needle hay ||
  match hay with
  | EmptyString => false
  | String _ r => str_contains needle r
  end.

(** [s.lstrip(chars)], the characters to strip given as a predicate. *)
Fixpoint lstrip_by (p : ascii -> bool) (s : string) : string :=
  match s with
  | EmptyString => EmptyString
  | String c r => if p c then lstrip_by p r else s
  end.

Definition rstrip_by (p : ascii -> bool) (s : string) : string :=
  rev (lstrip_by p (rev s)).

Definition strip_by (p : ascii -> bool) (s : string) : string :=
  rstrip_by p (lstrip_by p s).

(** [s.strip()]. *)
Definition strip (s : string) : string := strip_by isspace s.

(** [s.lstrip(chars)] and [s.strip(chars)]. *)
Definition lstrip_chars (chars s : string) : string :=
  lstrip_by (fun c => char_in c chars) s.

Definition strip_chars (chars s : string) : string :=
  strip_by (fun c => char_in c chars) s.

(** [s.split(sep, 1)] for a one-character [sep]: the text before the first
    [sep], and the text after it when there is one. *)
Fixpoint split1 (sep : ascii) (s : string) : string * option string :=
  match s with
  | EmptyString => (EmptyString, None)
  | String c r =>
      if Ascii.eqb c sep then (EmptyString, Some r)
      else let '(a, b) := split1 sep r in (String c a, b)
  end.

(** [s.split()]: the maximal runs of characters that are not white space.
    [cur] is the run being read, reversed. *)
Fixpoint split_ws_acc (s cur : string) : list string :=
  match s with
  | EmptyString =>
      match cur with EmptyString => [] | _ => [rev cur] end
  | String c r =>
      if isspace c then
        match cur with
        | EmptyString => split_ws_acc r EmptyString
        | _ => rev cur :: split_ws_acc r EmptyString
        end
      else split_ws_acc r (String c cur)
  end.

Definition split_ws (s : string) : list string := split_ws_acc s EmptyString.

(** A character that ends a line for [str.splitlines], apart from the
    carriage return. *)
Definition is_linebreak (c : ascii) : bool :=
  between 10 12 c || between 28 30 c.

(** [s.splitlines()]. [cur] is the line being read, reversed. *)
Fixpoint splitlines_acc (s cur : string) : list string :=
  match s with
  | EmptyString =>
      match cur with EmptyString => [] | _ => [rev cur] end
  | String c r =>
      if Nat.eqb (code c) 13 then
        match r with
        | String d r' =>
            if Nat.eqb (code d) 10 then rev cur :: splitlines_acc r' EmptyString
            else rev cur :: splitlines_acc r EmptyString
        | EmptyString => rev cur :: splitlines_acc r EmptyString
        end
      else if is_linebreak c then rev cur :: splitlines_acc r EmptyString
      else splitlines_acc r (String c cur)
  end.

Definition splitlines (s : string) : list string :=
  splitlines_acc s EmptyString.

(** ** Sets and sorting *)

(** [s.add(x)] on a set kept as a duplicate-free list. *)
Definition set_add (x : string) (s : list string) : list string :=
  if contains x s then s else s ++ [x].

Fixpoint insert_sorted (x : string) (l : list string) : list string :=
  match l with
  | [] => [x]
  | y :: r => if String.leb x y then x :: l else y :: insert_sorted x r
  end.

(** [sorted(xs)] for strings, in the order of the character codes. *)
Fixpoint sorted (xs : list string) : list string :=
  match xs with
  | [] => []
  | x :: r => insert_sorted x (sorted r)
  end.

(** [list(set(xs))], in some order: used only under [sorted]. *)
Definition to_set (xs : list string) : list string :=
  fold_left (fun s x => set_add x s) xs [].

End Py.

(* ===================================================================== *)
(** * Regular expressions ([re]) with backtracking                         *)
(* ===================================================================== *)

(** The fragment of Python's [re] that the analyzer's patterns use, matched
    the way [re] does: leftmost, greedy, with backtracking; the groups of a
    match are those set on the path that succeeded. *)
Module Re.

Inductive re : Type :=
  | Eps : re                         (* the empty pattern *)
  | Bol : re                         (* [^] *)
  | Chr : ascii -> re                (* a literal character *)
  | Cls : (ascii -> bool) -> re      (* a character class *)
  | Cat : re -> re -> re             (* [r1 r2] *)
  | Alt : re -> re -> re             (* [r1|r2] *)
  | Star : re -> re                  (* [r*] *)
  | Grp : nat -> re -> re.           (* the capturing group number [n] *)

(** [r+] and [r?]. *)
Definition Plus (r : re) : re := Cat r (Star r).
Definition Opt (r : re) : re := Alt r Eps.

(** A literal text. *)
Fixpoint Lit (s : string) : re :=
  match s with
  | EmptyString => Eps
  | String c r => Cat (Chr c) (Lit r)
  end.

(** The groups set so far, the latest first. *)
Definition groups := list (nat * string).

(** A match: the position where it ends, the text after it, its groups. *)
Definition found : Type := nat * string * groups.

(** [s[:n]]. *)
Fixpoint take (n : nat) (s : string) : string :=
  match n, s with
  | S n', String c r => String c (take n' r)
  | _, _ => EmptyString
  end.

Definition same_char (icase : bool) (a b : ascii) : bool :=
  if icase then Ascii.eqb (Py.lower_char a) (Py.lower_char b)
  else Ascii.eqb a b.

Definition in_class (icase : bool) (p : ascii -> bool) (c : ascii) : bool :=
  if icase then p c || p (Py.lower_char c) || p (Py.upper_char c) else p c.

(** [run icase r pos s gs k]: match [r] at position [pos], where the text
    that remains is [s], then go on with [k]; [None] when every way of
    matching [r] here makes [k] fail.  An iteration of [r*] that reads
    nothing ends the repetition. *)
Fixpoint run (icase : bool) (r : re) (pos : nat) (s : string) (gs : groups)
    (k : nat -> string -> groups -> option found) {struct r} : option found :=
  match r with
  | Eps => k pos s gs
  | Bol => if Nat.eqb pos 0 then k pos s gs else None
  | Chr c =>
      match s with
      | String d s' => if same_char icase c d then k (S pos) s' gs else None
      | EmptyString => None
      end
  | Cls p =>
      match s with
      | String d s' => if in_class icase p d then k (S pos) s' gs else None
      | EmptyString => None
      end
  | Cat r1 r2 =>
      run icase r1 pos s gs (fun pos' s' gs' => run icase r2 pos' s' gs' k)
  | Alt r1 r2 =>
      match run icase r1 pos s gs k with
      | Some m => Some m
      | None => run icase r2 pos s gs k
      end
  | Star r1 =>
      (fix loop (fuel : nat) (pos : nat) (s : string) (gs : groups)
         : option found :=
         match fuel with
         | 0 => k pos s gs
         | S fuel' =>
             match
               run icase r1 pos s gs
                 (fun pos' s' gs' =>
                    if Nat.ltb pos pos' then loop fuel' pos' s' gs' else None)
             with
             | Some m => Some m
             | None => k pos s gs
             end
         end) (String.length s) pos s gs
  | Grp n r1 =>
      run icase r1 pos s gs
        (fun pos' s' gs' => k pos' s' ((n, take (pos' - pos) s) :: gs'))
  end.

(** A match of [r] that starts at position [pos]. *)
Definition match_at (icase : bool) (r : re) (pos : nat) (s : string)
    : option found :=
  run icase r pos s [] (fun pos' s' gs => Some (pos', s', gs)).

(** [re.match(r, s)]. *)
Definition match_ (icase : bool) (r : re) (s : string) : option found :=
  match_at icase r 0 s.

(** The leftmost match that starts at [pos] or after it, with the position
    where it starts. *)
Fixpoint search_from (icase : bool) (r : re) (pos : nat) (s : string)
    : option (nat * found) :=
  match match_at icase r pos s with
  | Some m => Some (pos, m)
  | None =>
      match s with
      | String _ s' => search_from icase r (S pos) s'
      | EmptyString => None
      end
  end.

(** [re.search(r, s)]. *)
Definition search (icase : bool) (r : re) (s : string) : option found :=
  option_map snd (search_from icase r 0 s).

(** [re.finditer(r, s)]: the matches from left to right, each one sought
    from the end of the one before; after a match that reads nothing the
    search goes on one character further. *)
Fixpoint finditer_from (fuel : nat) (icase : bool) (r : re) (pos : nat)
    (s : string) : list found :=
  match fuel with
  | 0 => []
  | S fuel' =>
      match search_from icase r pos s with
      | None => []
      | Some (start, (stop, rest, gs)) =>
          (stop, rest, gs) ::
          (if Nat.ltb start stop then finditer_from fuel' icase r stop rest
           else
             match rest with
             | String _ rest' => finditer_from fuel' icase r (S stop) rest'
             | EmptyString => []
             end)
      end
  end.

Definition finditer (icase : bool) (r : re) (s : string) : list found :=
  finditer_from (S (String.length s)) icase r 0 s.

(** [m.group(n)]: [None] when the group took no part in the match. *)
Fixpoint group (n : nat) (gs : groups) : option string :=
  match gs with
  | [] => None
  | (i, t) :: r => if Nat.eqb i n then Some t else group n r
  end.

Definition group_of (n : nat) (m : found) : option string :=
  group n (snd m).

End Re.

(* ===================================================================== *)
(** * Data model ([core/models.py], [model.py])                            *)
(* ===================================================================== *)

(** [Dict K V]: a Python dict as an association list in insertion order. *)
Module Dict.
Section Ops.
Variable V : Type.

Definition t := list (string * V).

Definition empty : t := [].

Fixpoint get (d : t) (k : string) : option V :=
    match d with
    | [] => None
    | (k', v) :: r => if String.eqb k k' then Some v else get r k
    end.

Definition mem (k : string) (d : t) : bool :=
    match get d k with Some _ => true | None => false end.

(** [d[k] = v]: the value is replaced in place when [k] is a key, and
      appended otherwise. *)
Fixpoint set (d : t) (k : string) (v : V) : t :=
    match d with
    | [] => [(k, v)]
    | (k', v') :: r =>
        if String.eqb k k' then (k', v) :: r else (k', v') :: set r k v
    end.

(** [if k not in d: d[k] = v]. *)
Definition set_if_absent (d : t) (k : string) (v : V) : t :=
    if mem k d then d else set d k v.

(** [d.update(e)]. *)
Definition update (d e : t) : t :=
    fold_left (fun acc kv => set acc (fst kv) (snd kv)) e d.

Definition keys (d : t) : list string := map fst d.

Definition is_empty (d : t) : bool :=
    match d with [] => true | _ => false end.
End Ops.
End Dict.

Record DockerfileInfo := mkDockerfileInfo {
  df_path : string;
  df_context : string;
  df_name : string;
  df_kind : option string
}.

Record StackInfo := mkStackInfo {
  languages : list string;
  frameworks : list string;
  package_managers : list string;
  has_dockerfile : bool;
  has_docker_compose : bool;
  has_k8s_manifests : bool;
  dependencies : Dict.t (Dict.t string);
  language_versions : Dict.t string;
  framework_versions : Dict.t string;
  dockerfiles : list DockerfileInfo
}.

(** [StackInfo()]: every field at its default. *)
Definition StackInfo_default : StackInfo :=
  mkStackInfo [] [] [] false false false [] [] [] [].

Record Job := mkJob {
  job_name : string;
  job_stage : string;
  job_image : option string;
  job_script : list string;
  job_artifacts : option (list string);
  job_only_branches : option (list string);
  job_tags : option (list string);
  job_when : option string;
  job_environment : option string;
  job_dockerfile_path : option string;
  job_docker_context : option string;
  job_image_name : option string
}.

(** [Job(name=.., stage=.., image=.., script=..)], the other fields at their
    default [None]. *)
Definition Job_ (name stage : string) (image : option string)
    (script : list string) : Job :=
  mkJob name stage image script None None None None None None None None.

Record Pipeline := mkPipeline {
  stages : list string;
  jobs : list Job
}.

(* ===================================================================== *)
(** * The pipeline synthesizer ([core/services/builders/pipeline.py])      *)
(* ===================================================================== *)

(** The lists [stages], [jobs] and [warnings] that [build_pipeline] and its
    helper mutate in place. *)
Record Builder := mkBuilder {
  b_stages : list string;
  b_jobs : list Job;
  b_warnings : list string
}.

(** A step of the synthesizer: an in-place update of the three lists. *)
Definition Step := Builder -> Builder.

Definition seq (s1 s2 : Step) : Step := fun b => s2 (s1 b).

Notation "s1 ;; s2" := (seq s1 s2) (at level 61, right associativity).

Definition skip : Step := fun b => b.

(** [if c: body]. *)
Definition when (c : bool) (body : Step) : Step := if c then body else skip.

(** [for x in xs: body(x)]. *)
Fixpoint for_each (A : Type) (xs : list A) (body : A -> Step) : Step :=
  match xs with
  | [] => skip
  | x :: r => body x ;; for_each r body
  end.

(** [_ensure_stage(stages, stage)] on a list. *)
Definition _ensure_stage (stages : list string) (stage : string)
    : list string :=
  if Py.contains stage stages then stages else stages ++ [stage].

Definition ensure_stage (stage : string) : Step := fun b =>
  mkBuilder (_ensure_stage (b_stages b) stage) (b_jobs b) (b_warnings b).

(** [jobs.append(j)]. *)
Definition append_job (j : Job) : Step := fun b =>
  mkBuilder (b_stages b) (b_jobs b ++ [j]) (b_warnings b).

(** [warnings.append(w)]. *)
Definition append_warning (w : string) : Step := fun b =>
  mkBuilder (b_stages b) (b_jobs b) (b_warnings b ++ [w]).

Definition _has_node (stack : StackInfo) : bool :=
  if existsb (fun lang => Py.contains lang ["javascript"; "typescript"])
       (languages stack)
  then true
  else if existsb
            (fun fw =>
               Py.contains fw ["vue"; "react"; "angular"; "express"; "nestjs"])
            (frameworks stack)
  then true
  else false.

Definition _node_pm (stack : StackInfo) : string :=
  if Py.contains "yarn" (package_managers stack) then "yarn"
  else if Py.contains "pnpm" (package_managers stack) then "pnpm"
  else "npm".

Definition java_sonar : Job :=
  Job_ "java_sonar" "quality" (Some "maven:3.9-eclipse-temurin-17")
    [ "if [ -f mvnw ]; then chmod +x mvnw; ./mvnw -B verify sonar:sonar; "
      +++ "else mvn -B verify sonar:sonar; fi || echo 'SonarQube не настроен — "
      +++ "укажите параметры sonar.* и переменные окружения SONAR_*'" ].

Definition node_sonar : Job :=
  Job_ "node_sonar" "quality" (Some "node:20-alpine")
    [ "echo 'TODO: добавьте команду запуска SonarQube для фронтенда "
      +++ "(например, npx sonar-scanner ...)'" ].

Definition quality_warning : string :=
  "В stage quality добавлены SonarQube-заглушки (java_sonar/node_sonar). "
  +++ "Настройте SONAR_HOST_URL / SONAR_TOKEN и конкретные команды анализа.".

Definition _append_quality_jobs (stack : StackInfo) : Step :=
  let has_java :=
    Py.contains "java" (languages stack)
    && Py.contains "maven" (package_managers stack) in
  let has_node := _has_node stack in
  if negb (has_java || has_node) then skip
  else
    ensure_stage "quality" ;;
    when has_java (append_job java_sonar) ;;
    when has_node (append_job node_sonar) ;;
    append_warning quality_warning.

Definition python_tests : Job :=
  Job_ "python_tests" "test" (Some "python:3.11-slim")
    [ "if [ -f requirements.txt ]; then python -m pip install -r requirements.txt; "
      +++ "else echo 'requirements.txt не найден — пропускаем установку зависимостей'; fi";
      "python -m pip install pytest || true";
      "pytest || echo 'pytest не настроен или тесты отсутствуют — отредактируйте команду'" ].

Definition python_lint : Job :=
  Job_ "python_lint" "lint" (Some "python:3.11-slim")
    [ "python -m pip install flake8 || echo 'flake8 не установлен'";
      "flake8 . || echo 'flake8 нашёл замечания или не настроен — отредактируйте команду'" ].

(** The four commands chosen from the Node package manager:
    install, test, build, lint. *)
Definition node_cmds (pm_node : string) : string * string * string * string :=
  if String.eqb pm_node "yarn" then
    ( "corepack enable || npm i -g yarn; "
      +++ "yarn install --frozen-lockfile || yarn install",
      "yarn test || echo 'yarn test не настроен — отредактируйте команду'",
      "yarn build || echo 'yarn build не настроен — отредактируйте команду'",
      "yarn lint || echo 'yarn lint не настроен — отредактируйте команду'" )
  else if String.eqb pm_node "pnpm" then
    ( "corepack enable || npm i -g pnpm; pnpm install",
      "pnpm test || echo 'pnpm test не настроен — отредактируйте команду'",
      "pnpm build || echo 'pnpm build не настроен — отредактируйте команду'",
      "pnpm lint || echo 'pnpm lint не настроен — отредактируйте команду'" )
  else
    ( "npm ci || npm install",
      "npm test || echo 'npm test не настроен — отредактируйте команду'",
      "npm run build || echo 'npm run build не настроен — отредактируйте команду'",
      "npm run lint || echo 'npm run lint не настроен — отредактируйте команду'" ).

Definition install_cmd (pm_node : string) : string :=
  fst (fst (fst (node_cmds pm_node))).
Definition test_cmd (pm_node : string) : string :=
  snd (fst (fst (node_cmds pm_node))).
Definition build_cmd (pm_node : string) : string :=
  snd (fst (node_cmds pm_node)).
Definition lint_cmd (pm_node : string) : string :=
  snd (node_cmds pm_node).

Definition node_lint (pm_node : string) : Job :=
  Job_ "node_lint" "lint" (Some "node:20-alpine")
    [install_cmd pm_node; lint_cmd pm_node].

Definition node_tests (pm_node : string) : Job :=
  Job_ "node_tests" "test" (Some "node:20-alpine")
    [install_cmd pm_node; test_cmd pm_node].

Definition node_build (pm_node : string) : Job :=
  mkJob "node_build" "build" (Some "node:20-alpine")
    [install_cmd pm_node; build_cmd pm_node]
    (Some ["dist"]) None None None None None None None.

Definition go_tests : Job :=
  Job_ "go_tests" "test" (Some "golang:1.22")
    [ "go test ./... || echo 'go test завершился с ошибкой — проверьте тесты'" ].

Definition go_build : Job :=
  Job_ "go_build" "build" (Some "golang:1.22")
    [ "go build ./... || echo 'go build завершился с ошибкой — "
      +++ "проверьте конфигурацию проекта'" ].

Definition java_tests : Job :=
  Job_ "java_tests" "test" (Some "maven:3.9-eclipse-temurin-17")
    [ "if [ -f mvnw ]; then chmod +x mvnw; ./mvnw -B test; "
      +++ "else mvn -B test; fi || echo 'mvn test завершился с ошибкой — "
      +++ "отредактируйте pom.xml/профили'" ].

Definition java_build : Job :=
  Job_ "java_build" "build" (Some "maven:3.9-eclipse-temurin-17")
    [ "if [ -f mvnw ]; then chmod +x mvnw; ./mvnw -B package -DskipTests; "
      +++ "else mvn -B package -DskipTests; fi || echo 'mvn package завершился с ошибкой — "
      +++ "проверьте pom.xml'" ].

(** The name of the job of a Dockerfile:
    [f"docker_build_{df.name.replace('-', '_').replace('.', '_')}"]. *)
Definition docker_job_name (df : DockerfileInfo) : string :=
  "docker_build_" +++ Py.replace "." "_" (Py.replace "-" "_" (df_name df)).

(** [image_ref = f"my-image-{df.name}:latest"]. *)
Definition image_ref (df : DockerfileInfo) : string :=
  "my-image-" +++ df_name df +++ ":latest".

Definition docker_script (df : DockerfileInfo) : list string :=
  [ "echo " +++ Py.dq +++ "Сборка Docker-образа из существующего Dockerfile."
    +++ Py.dq;
    "docker build -f " +++ df_path df +++ " " +++ Py.or_else (df_context df) "."
    +++ " -t " +++ image_ref df +++ " || echo 'Настройте docker daemon / registry'";
    "echo 'При необходимости замените тег " +++ image_ref df
    +++ " на адрес вашего registry.'" ].

Definition docker_job (df : DockerfileInfo) : Job :=
  mkJob (docker_job_name df) "docker" (Some "docker:24") (docker_script df)
    None None None None None
    (Some (df_path df)) (Some (df_context df)) (Some (df_name df)).

Definition docker_jobs_warning : string :=
  "Добавлены docker-задачи для каждого найденного Dockerfile. "
  +++ "При необходимости отредактируйте теги образов и настройки registry.".

(** The generic job of the fallback branch. *)
Definition docker_build : Job :=
  Job_ "docker_build" "docker" (Some "docker:24")
    [ "echo " +++ Py.dq
      +++ "Сборка Docker-образа. Настройте свой registry и docker runner."
      +++ Py.dq;
      "docker build -t my-image:latest . || echo 'Настройте docker daemon / registry'" ].

Definition docker_fallback_warning : string :=
  "Анализатор не вернул конкретные Dockerfile'ы. Пайплайн использует docker build . "
  +++ "Рекомендуется донастроить анализатор, чтобы заполнить StackInfo.dockerfiles.".

Definition deploy_placeholder : Job :=
  Job_ "deploy_placeholder" "deploy" None
    [ "echo " +++ Py.dq
      +++ "TODO: добавьте реальные команды деплоя (kubectl / ssh / helm и т.п.)"
      +++ Py.dq ].

Definition placeholder_warning : string :=
  "Не обнаружены Python/Node/Go/Java-проекты. "
  +++ "Пайплайн содержит только placeholder-задачи. "
  +++ "Отредактируйте команды под ваш стек.".

Definition canonical_order : list string :=
  ["lint"; "test"; "quality"; "build"; "docker"; "deploy"].

(** The two loops that build [ordered_stages] from [unique]. *)
Definition order_stages (unique : list string) : list string :=
  let ordered_stages :=
    fold_left
      (fun acc name => if Py.contains name unique then acc ++ [name] else acc)
      canonical_order [] in
  fold_left
    (fun acc name => if Py.contains name acc then acc else acc ++ [name])
    unique ordered_stages.

(** Lines 383-396: the stages in canonical order. *)
Definition canonical_stages (stages : list string) : list string :=
  match stages with
  | [] => []
  | _ => order_stages (Py.fromkeys stages)
  end.

(** The body of [build_pipeline] up to the canonical ordering: the stages in
    registration order, the jobs and the warnings. *)
Definition build_steps (stack : StackInfo) : Step :=
  let has_python := Py.contains "python" (languages stack) in
  let has_node := _has_node stack in
  let has_go := Py.contains "go" (languages stack) in
  let has_java := Py.contains "java" (languages stack) in
  let pm_node := if has_node then Some (_node_pm stack) else None in
  let dockerfiles := dockerfiles stack in
  when has_python (
    ensure_stage "lint" ;; ensure_stage "test" ;;
    append_job python_tests ;; append_job python_lint) ;;
  match pm_node with
  | Some pm =>
      when (has_node && Py.truthy pm) (
        ensure_stage "lint" ;; ensure_stage "test" ;; ensure_stage "build" ;;
        append_job (node_lint pm) ;; append_job (node_tests pm) ;;
        append_job (node_build pm))
  | None => skip
  end ;;
  when has_go (
    ensure_stage "test" ;; ensure_stage "build" ;;
    append_job go_tests ;; append_job go_build) ;;
  when (has_java && Py.contains "maven" (package_managers stack)) (
    ensure_stage "test" ;; ensure_stage "build" ;;
    append_job java_tests ;; append_job java_build) ;;
  _append_quality_jobs stack ;;
  match dockerfiles with
  | _ :: _ =>
      ensure_stage "docker" ;;
      for_each dockerfiles (fun df => append_job (docker_job df)) ;;
      append_warning docker_jobs_warning
  | [] =>
      when (has_dockerfile stack) (
        ensure_stage "docker" ;;
        append_job docker_build ;;
        append_warning docker_fallback_warning)
  end ;;
  ensure_stage "deploy" ;;
  append_job deploy_placeholder ;;
  when (negb (has_python || has_node || has_go || has_java))
    (append_warning placeholder_warning).

(** The stages registered by [build_pipeline], in registration order, before
    they are put in canonical order. *)
Definition registered_stages (stack : StackInfo) : list string :=
  b_stages (build_steps stack (mkBuilder [] [] [])).

(** [build_pipeline(stack)]: the pipeline and the warnings. *)
Definition build_pipeline (stack : StackInfo) : Pipeline * list string :=
  let b := build_steps stack (mkBuilder [] [] []) in
  (mkPipeline (canonical_stages (b_stages b)) (b_jobs b), b_warnings b).

(* ===================================================================== *)
(** * The repository on disk                                              *)
(* ===================================================================== *)

(** An entry of the tree under [repo_path]: its path relative to
    [repo_path] as the list of its components (the last one is its name),
    whether it is a directory, and what [read_text] gives for it ([None]
    when it raises). *)
Record Entry := mkEntry {
  e_parts : list string;
  e_is_dir : bool;
  e_text : option string
}.

(** The tree that the analyzer is given: the components of [repo_path],
    whether the path exists, and the entries under it in the order in which
    the file system enumerates them.  Every scan of the tree ([os.walk],
    [rglob]) meets the entries in that order. *)
Record Repo := mkRepo {
  repo_parts : list string;
  repo_exists : bool;
  entries : list Entry
}.

(** A file with its text. *)
Definition file (parts : list string) (text : string) : Entry :=
  mkEntry parts false (Some text).

Module Path.

(** [p.name]. *)
Definition name (parts : list string) : string := last parts "".

(** [p.parent]. *)
Definition parent (parts : list string) : list string := removelast parts.

(** [str(p)] for a relative path. *)
Definition str (parts : list string) : string :=
  match parts with
  | [] => "."
  | _ => Py.join "/" parts
  end.

(** [name.rfind(c)], counting from [i]. *)
Fixpoint rfind_from (c : ascii) (s : string) (i : nat) : option nat :=
  match s with
  | EmptyString => None
  | String d r =>
      match rfind_from c r (S i) with
      | Some j => Some j
      | None => if Ascii.eqb d c then Some i else None
      end
  end.

(** [p.suffix]: the name from its last dot on, when that dot is neither
    the first nor the last character of the name. *)
Definition suffix (parts : list string) : string :=
  let n := name parts in
  match rfind_from "." n 0 with
  | Some i =>
      if Nat.ltb 0 i && Nat.ltb i (String.length n - 1) then Py.drop i n
      else ""
  | None => ""
  end.

End Path.

(** A JSON document as [json.loads] returns it.  A number carries the text
    that [str] gives for it and whether it is zero. *)
#[warnings="-register-all"]
Inductive Json : Type :=
  | JNull : Json
  | JBool : bool -> Json
  | JNum : string -> bool -> Json
  | JStr : string -> Json
  | JArr : list Json -> Json
  | JObj : list (string * Json) -> Json.

(* ===================================================================== *)
(** * The stack analyzer ([core/services/analyzer/core.py])                *)
(* ===================================================================== *)

Definition IGNORED_DIRS : list string :=
  [ ".git"; ".hg"; ".svn"; "node_modules"; ".venv"; "venv"; "__pycache__";
    "dist"; "build"; "target"; ".idea"; ".vscode" ].

Definition EXT_TO_LANGUAGE : Dict.t string :=
  [ (".py", "python");
    (".js", "javascript"); (".jsx", "javascript");
    (".ts", "javascript"); (".tsx", "javascript");
    (".java", "java"); (".kt", "java");
    (".go", "go") ].

(** [_iter_files(base_dir)]: the files that [os.walk] yields when the
    directories of [IGNORED_DIRS] are pruned: those none of whose
    directories below [base_dir] is ignored. *)
Definition _iter_files (repo : Repo) : list Entry :=
  filter
    (fun e =>
       negb (e_is_dir e)
       && forallb (fun d => negb (Py.contains d IGNORED_DIRS))
            (Path.parent (e_parts e)))
    (entries repo).

(** The dict that [_group_project_files] returns. *)
Record Grouped := mkGrouped {
  g_requirements : list Entry;
  g_pyproject : list Entry;
  g_pipfile : list Entry;
  g_package_json : list Entry;
  g_pom : list Entry;
  g_gradle : list Entry;
  g_go_mod : list Entry;
  g_tsconfig : list Entry
}.

(** The body of the loop of [_group_project_files]. *)
Definition group_file (g : Grouped) (file_path : Entry) : Grouped :=
  let name := Py.lower (Path.name (e_parts file_path)) in
  let '(mkGrouped req pyp pipf pkg pom gradle gomod tsc) := g in
  if String.eqb name "requirements.txt" then
    mkGrouped (req ++ [file_path]) pyp pipf pkg pom gradle gomod tsc
  else if String.eqb name "pyproject.toml" then
    mkGrouped req (pyp ++ [file_path]) pipf pkg pom gradle gomod tsc
  else if String.eqb name "pipfile" then
    mkGrouped req pyp (pipf ++ [file_path]) pkg pom gradle gomod tsc
  else if String.eqb name "package.json" then
    mkGrouped req pyp pipf (pkg ++ [file_path]) pom gradle gomod tsc
  else if String.eqb name "pom.xml" then
    mkGrouped req pyp pipf pkg (pom ++ [file_path]) gradle gomod tsc
  else if Py.contains name ["build.gradle"; "build.gradle.kts"] then
    mkGrouped req pyp pipf pkg pom (gradle ++ [file_path]) gomod tsc
  else if String.eqb name "go.mod" then
    mkGrouped req pyp pipf pkg pom gradle (gomod ++ [file_path]) tsc
  else if String.eqb name "tsconfig.json" then
    mkGrouped req pyp pipf pkg pom gradle gomod (tsc ++ [file_path])
  else g.

Definition _group_project_files (repo : Repo) : Grouped :=
  fold_left group_file (_iter_files repo) (mkGrouped [] [] [] [] [] [] [] []).

(** [p.exists()] for a path below [repo_path]. *)
Definition path_exists (repo : Repo) (parts : list string) : bool :=
  existsb (fun e => if list_eq_dec string_dec (e_parts e) parts
                    then true else false)
    (entries repo).

(** The logical name that [_detect_dockerfiles] gives to [p]. *)
Definition dockerfile_name (rel : list string) : string :=
  let context_path := Path.parent rel in
  let p_name := Path.name rel in
  if String.eqb p_name "Dockerfile" then
    Py.or_else (Path.name context_path) "app"
  else
    let base := p_name in
    let base :=
      if Py.startswith "Dockerfile" base
      then Py.drop (String.length "Dockerfile") base else base in
    let base := Py.lstrip_chars "._-" base in
    Py.or_else base (Py.or_else (Path.name context_path) "app").

(** The record that [_detect_dockerfiles] builds for [p]. *)
Definition dockerfile_info (rel : list string) : DockerfileInfo :=
  let context_path := Path.parent rel in
  let context_str :=
    if negb (String.eqb (Path.str context_path) ".")
    then Path.str context_path else "." in
  mkDockerfileInfo (Path.str rel) context_str (dockerfile_name rel) None.

(** [repo_path.rglob("Dockerfile*")]: the entries, files or directories,
    whose name starts with [Dockerfile]. *)
Definition rglob_Dockerfile (repo : Repo) : list Entry :=
  filter (fun e => Py.startswith "Dockerfile" (Path.name (e_parts e)))
    (entries repo).

Definition _detect_dockerfiles (repo : Repo) : list DockerfileInfo :=
  map (fun p => dockerfile_info (e_parts p))
    (filter
       (fun p => negb (Py.contains ".git" (repo_parts repo ++ e_parts p)))
       (rglob_Dockerfile repo)).

(** The language of a file: [EXT_TO_LANGUAGE.get(file_path.suffix.lower())]. *)
Definition language_of (f : Entry) : option string :=
  Dict.get EXT_TO_LANGUAGE (Py.lower (Path.suffix (e_parts f))).

(** The body of the loop of [_detect_languages]. *)
Definition count_file (language_counts : Dict.t nat) (file_path : Entry)
    : Dict.t nat :=
  match language_of file_path with
  | None => language_counts
  | Some lang =>
      if negb (Py.truthy lang) then language_counts
      else
        Dict.set language_counts lang
          (match Dict.get language_counts lang with
           | Some n => n
           | None => 0
           end + 1)
  end.

(** [_detect_languages]: the sorted languages and the files per language. *)
Definition _detect_languages (repo : Repo) : list string * Dict.t nat :=
  let language_counts := fold_left count_file (_iter_files repo) [] in
  (Py.sorted (Dict.keys language_counts), language_counts).

(** Whether a list is not empty. *)
Definition nonempty (A : Type) (l : list A) : bool :=
  match l with [] => false | _ => true end.

(** The body of the loop of [_detect_package_managers] over the
    [package.json] files. *)
Definition add_node_pm (repo : Repo) (pm : list string) (pkg : Entry)
    : list string :=
  let parent := Path.parent (e_parts pkg) in
  if path_exists repo (parent ++ ["yarn.lock"])
  then Py.set_add "yarn" pm
  else if path_exists repo (parent ++ ["pnpm-lock.yaml"])
  then Py.set_add "pnpm" pm
  else if path_exists repo (parent ++ ["package-lock.json"])
  then Py.set_add "npm" pm
  else Py.set_add "npm" pm.

Definition _detect_package_managers (repo : Repo) : list string :=
  let grouped := _group_project_files repo in
  let pm : list string := [] in
  let pm := if nonempty (g_requirements grouped)
            then Py.set_add "pip" pm else pm in
  let pm := if nonempty (g_pyproject grouped)
            then Py.set_add "poetry" pm else pm in
  let pm := if nonempty (g_pipfile grouped)
            then Py.set_add "pipenv" pm else pm in
  let pm := fold_left (add_node_pm repo) (g_package_json grouped) pm in
  let pm := if nonempty (g_pom grouped)
            then Py.set_add "maven" pm else pm in
  let pm := if nonempty (g_gradle grouped)
            then Py.set_add "gradle" pm else pm in
  let pm := if nonempty (g_go_mod grouped)
            then Py.set_add "go-mod" pm else pm in
  Py.sorted pm.

(** [_detect_deploy_artifacts]: the three flags
    [(has_dockerfile, has_docker_compose, has_k8s)]. *)
Definition _detect_deploy_artifacts (repo : Repo) : bool * bool * bool :=
  fold_left
    (fun '(has_dockerfile, has_docker_compose, has_k8s) file_path =>
       let name := Py.lower (Path.name (e_parts file_path)) in
       let has_dockerfile :=
         if String.eqb name "dockerfile" || Py.startswith "dockerfile." name
         then true else has_dockerfile in
       let has_docker_compose :=
         if Py.contains name ["docker-compose.yml"; "docker-compose.yaml"]
         then true else has_docker_compose in
       let has_k8s :=
         if (Py.endswith ".yml" name || Py.endswith ".yaml" name)
            && existsb
                 (fun part =>
                    Py.contains part ["k8s"; "kubernetes"; "manifests"])
                 (repo_parts repo ++ e_parts file_path)
         then true else has_k8s in
       (has_dockerfile, has_docker_compose, has_k8s))
    (_iter_files repo) (false, false, false).

(** ** Reading manifests *)

(** [f.read_text(...).splitlines()], [None] when reading raises. *)
Definition read_lines (f : Entry) : option (list string) :=
  option_map Py.splitlines (e_text f).

(** The pattern of a requirement line:
    [^([A-Za-z0-9_.\-]+)(?:\[[^\]]+\])?\s*([<>=!~]+)\s*([^\s]+)]. *)
Definition requirement_re : Re.re :=
  Re.Cat Re.Bol
  (Re.Cat (Re.Grp 1 (Re.Plus (Re.Cls (fun c =>
             Py.is_upper c || Py.is_lower c || Py.is_digit c
             || Py.char_in c "_.-"))))
  (Re.Cat (Re.Opt
             (Re.Cat (Re.Chr "[")
             (Re.Cat (Re.Plus (Re.Cls (fun c => negb (Ascii.eqb c "]"))))
                     (Re.Chr "]"))))
  (Re.Cat (Re.Star (Re.Cls Py.isspace))
  (Re.Cat (Re.Grp 2 (Re.Plus (Re.Cls (fun c => Py.char_in c "<>=!~"))))
  (Re.Cat (Re.Star (Re.Cls Py.isspace))
          (Re.Grp 3 (Re.Plus (Re.Cls (fun c => negb (Py.isspace c)))))))))).

(** What the body of the loop of [_parse_python_requirements_file] reads
    in a line: the name in lower case, the operator and the version, or
    [None] when the line is skipped. *)
Definition parse_requirement (line : string)
    : option (string * string * string) :=
  let line := Py.strip line in
  if negb (Py.truthy line) || Py.startswith "#" line then None
  else
    let line :=
      if Py.str_contains ";" line
      then Py.strip (fst (Py.split1 ";" line)) else line in
    match Re.match_ false requirement_re line with
    | None => None
    | Some m =>
        match Re.group_of 1 m, Re.group_of 2 m, Re.group_of 3 m with
        | Some name, Some op, Some ver => Some (Py.lower name, op, ver)
        | _, _, _ => None
        end
    end.

(** The body of the loop of [_parse_python_requirements_file]. *)
Definition requirement_step (deps : Dict.t string) (line : string)
    : Dict.t string :=
  match parse_requirement line with
  | None => deps
  | Some (name, op, ver) =>
      if String.eqb op "==" || negb (Dict.mem name deps)
      then Dict.set deps name ver
      else deps
  end.

(** The loop of [_parse_python_requirements_file] over the lines. *)
Definition parse_requirement_lines (lines : list string) : Dict.t string :=
  fold_left requirement_step lines [].

Definition _parse_python_requirements_file (path : Entry) : Dict.t string :=
  match read_lines path with
  | None => []
  | Some lines => parse_requirement_lines lines
  end.

(** The first [Some] that [f] gives along [xs]: a loop that returns at its
    first hit. *)
Fixpoint first_some (A B : Type) (f : A -> option B) (xs : list A)
    : option B :=
  match xs with
  | [] => None
  | x :: r =>
      match f x with
      | Some y => Some y
      | None => first_some f r
      end
  end.

(** The text after the first [=] of [s], stripped of white space and then
    of single and double quotes: the right-hand side that
    [_detect_python_version] returns. *)
Definition rhs_of (s : string) : string :=
  match snd (Py.split1 "=" s) with
  | Some r => Py.strip_chars (Py.dq +++ "'") (Py.strip r)
  | None => ""
  end.

(** The version that a line of [pyproject.toml] gives, if it gives one. *)
Definition pyproject_line_version (line : string) : option string :=
  let s := Py.strip line in
  if Py.startswith "requires-python" (Py.lower s) && Py.str_contains "=" s
  then Some (rhs_of s)
  else if Py.startswith "python" (Py.lower s) && Py.str_contains "=" s
  then Some (rhs_of s)
  else None.

(** The pattern [from\s+python:([\w.\-]+)], used with [re.IGNORECASE]. *)
Definition from_python_re : Re.re :=
  Re.Cat (Re.Lit "from")
  (Re.Cat (Re.Plus (Re.Cls Py.isspace))
  (Re.Cat (Re.Lit "python:")
          (Re.Grp 1 (Re.Plus (Re.Cls (fun c =>
             Py.is_word c || Py.char_in c ".-")))))).

Definition _detect_python_version (repo : Repo) : option string :=
  let from_pyver_file :=
    match find (fun e => if list_eq_dec string_dec (e_parts e)
                              [".python-version"] then true else false)
            (entries repo) with
    | Some pyver_file =>
        match e_text pyver_file with
        | Some t => let v := Py.strip t in
                    if Py.truthy v then Some v else None
        | None => None
        end
    | None => None
    end in
  match from_pyver_file with
  | Some v => Some v
  | None =>
      let grouped := _group_project_files repo in
      match
        first_some
          (fun f =>
             match read_lines f with
             | None => None
             | Some lines => first_some pyproject_line_version lines
             end)
          (g_pyproject grouped)
      with
      | Some rhs => Some rhs
      | None =>
          first_some
            (fun file_path =>
               let name := Py.lower (Path.name (e_parts file_path)) in
               if negb (String.eqb name "dockerfile")
                  && negb (Py.startswith "dockerfile." name)
               then None
               else
                 match e_text file_path with
                 | None => None
                 | Some content =>
                     match Re.search true from_python_re content with
                     | Some m => option_map Py.strip (Re.group_of 1 m)
                     | None => None
                     end
                 end)
            (_iter_files repo)
      end
  end.

(** What a collector returns: [(dependencies, language_versions,
    framework_versions)]. *)
Definition Collected : Type :=
  Dict.t (Dict.t string) * Dict.t string * Dict.t string.

Definition _collect_python (repo : Repo) : Collected :=
  let grouped := _group_project_files repo in
  let py_deps :=
    fold_left
      (fun py_deps f =>
         fold_left
           (fun py_deps '(name, ver) => Dict.set_if_absent py_deps name ver)
           (_parse_python_requirements_file f) py_deps)
      (g_requirements grouped) [] in
  let dependencies : Dict.t (Dict.t string) :=
    if nonempty py_deps then Dict.set [] "python" py_deps else [] in
  let language_versions : Dict.t string :=
    match _detect_python_version repo with
    | Some pyver =>
        if Py.truthy pyver then Dict.set [] "python" pyver else []
    | None => []
    end in
  let framework_versions : Dict.t string :=
    match Dict.get dependencies "python" with
    | Some deps =>
        let deps_lower :=
          fold_left (fun d '(k, v) => Dict.set d (Py.lower k) v) deps [] in
        fold_left
          (fun fv fw =>
             match Dict.get deps_lower fw with
             | Some v => Dict.set fv fw v
             | None => fv
             end)
          ["fastapi"; "django"; "flask"] []
    | None => []
    end in
  (dependencies, language_versions, framework_versions).

(** ** Exceptions *)

(** A computation that may raise an exception that nothing catches:
    [None] is the exception. *)
Definition Exc (A : Type) : Type := option A.

Definition bind (A B : Type) (e : Exc A) (k : A -> Exc B) : Exc B :=
  match e with
  | Some x => k x
  | None => None
  end.

Notation "'let*' x ':=' e 'in' k" := (bind e (fun x => k))
  (at level 10, x pattern, e at level 200, k at level 200).

(** A loop whose body may raise. *)
Fixpoint fold_exc (S A : Type) (body : S -> A -> Exc S) (xs : list A) (s : S)
    : Exc S :=
  match xs with
  | [] => Some s
  | x :: r => let* s' := body s x in fold_exc body r s'
  end.

(** ** JSON values in Python *)

Module JsonPy.

(** The truth value of a JSON value. *)
Definition truthy (j : Json) : bool :=
  match j with
  | JNull => false
  | JBool b => b
  | JNum _ zero => negb zero
  | JStr s => Py.truthy s
  | JArr l => nonempty l
  | JObj d => nonempty d
  end.

(** [data.get(key)]: raises when [data] is not a dict; [Some None] is
    Python's [None]. *)
Definition get (data : Json) (key : string) : Exc (option Json) :=
  match data with
  | JObj d => Some (Dict.get d key)
  | _ => None
  end.

(** [v or {}]. *)
Definition or_empty (v : option Json) : Json :=
  match v with
  | Some j => if truthy j then j else JObj []
  | None => JObj []
  end.

(** [d.items()], and the mapping that [{**d}] unpacks: raise when [d] is
    not a dict. *)
Definition items (d : Json) : Exc (list (string * Json)) :=
  match d with
  | JObj l => Some l
  | _ => None
  end.

End JsonPy.

Section Analyzer.

(** [json.loads]: the document that a text denotes, [None] when it raises. *)
Variable json_loads : string -> option Json.

(** [str(v)] for a JSON value that is not a string. *)
Variable str_other : Json -> string.

(** [str(v)]. *)
Definition json_str (v : Json) : string :=
  match v with
  | JStr s => s
  | _ => str_other v
  end.

(** [json.loads(pkg.read_text(...))] under its [try]: [None] when the file
    is skipped. *)
Definition load_package_json (pkg : Entry) : option Json :=
  match e_text pkg with
  | Some t => json_loads t
  | None => None
  end.

(** Whether [content] holds one of the markers of Spring. *)
Definition has_spring_marker (content : string) : bool :=
  Py.str_contains "spring-boot-starter" content
  || Py.str_contains "org.springframework" content.

(** The frameworks that a [package.json] adds in [_detect_frameworks]. *)
Definition node_frameworks (frameworks : list string) (data : Json)
    : Exc (list string) :=
  let* deps0 := JsonPy.get data "dependencies" in
  let deps := JsonPy.or_empty deps0 in
  let* dev_deps0 := JsonPy.get data "devDependencies" in
  let dev_deps := JsonPy.or_empty dev_deps0 in
  let* deps_items := JsonPy.items deps in
  let* dev_items := JsonPy.items dev_deps in
  let all_names :=
    map Py.lower (Dict.keys (Dict.update deps_items dev_items)) in
  let frameworks :=
    if Py.contains "vue" all_names
       || existsb (Py.startswith "@vue/") all_names
    then Py.set_add "vue" frameworks else frameworks in
  let frameworks :=
    if Py.contains "react" all_names
       || existsb (Py.startswith "react-") all_names
    then Py.set_add "react" frameworks else frameworks in
  let frameworks :=
    if Py.contains "@angular/core" all_names
    then Py.set_add "angular" frameworks else frameworks in
  let frameworks :=
    if Py.contains "express" all_names
    then Py.set_add "express" frameworks else frameworks in
  let frameworks :=
    if Py.contains "nestjs" all_names || Py.contains "@nestjs/core" all_names
    then Py.set_add "nestjs" frameworks else frameworks in
  Some frameworks.

Definition _detect_frameworks (repo : Repo) (languages : list string)
    : Exc (list string) :=
  let grouped := _group_project_files repo in
  let frameworks : list string := [] in
  let python_files := g_requirements grouped ++ g_pyproject grouped in
  let frameworks :=
    fold_left
      (fun frameworks f =>
         match e_text f with
         | None => frameworks
         | Some t =>
             let content := Py.lower t in
             let frameworks :=
               if Py.str_contains "fastapi" content
               then Py.set_add "fastapi" frameworks else frameworks in
             let frameworks :=
               if Py.str_contains "flask" content
               then Py.set_add "flask" frameworks else frameworks in
             if Py.str_contains "django" content
             then Py.set_add "django" frameworks else frameworks
         end)
      python_files frameworks in
  let* frameworks :=
    fold_exc
      (fun frameworks pkg =>
         match load_package_json pkg with
         | None => Some frameworks
         | Some data => node_frameworks frameworks data
         end)
      (g_package_json grouped) frameworks in
  let spring_step := fun (frameworks : list string) (f : Entry) =>
    match e_text f with
    | None => frameworks
    | Some t =>
        if has_spring_marker (Py.lower t)
        then Py.set_add "spring" frameworks else frameworks
    end in
  let frameworks := fold_left spring_step (g_pom grouped) frameworks in
  let frameworks := fold_left spring_step (g_gradle grouped) frameworks in
  Some (Py.sorted frameworks).

(** *** Node *)

(** The body of the loop of [_collect_node] over the [package.json]
    files, on [(node_deps, language_versions)]. *)
Definition collect_node_file (st : Dict.t string * Dict.t string)
    (data : Json) : Exc (Dict.t string * Dict.t string) :=
  let '(node_deps, language_versions) := st in
  let* node_deps :=
    fold_exc
      (fun node_deps section =>
         let* v := JsonPy.get data section in
         let* section_deps := JsonPy.items (JsonPy.or_empty v) in
         Some (fold_left
                 (fun node_deps '(name, ver) =>
                    Dict.set_if_absent node_deps (Py.lower name)
                      (json_str ver))
                 section_deps node_deps))
      ["dependencies"; "devDependencies"] node_deps in
  let* engines0 := JsonPy.get data "engines" in
  let* node_engine := JsonPy.get (JsonPy.or_empty engines0) "node" in
  let language_versions :=
    match node_engine with
    | Some e =>
        if JsonPy.truthy e && negb (Dict.mem "node" language_versions)
        then Dict.set language_versions "node" (json_str e)
        else language_versions
    | None => language_versions
    end in
  Some (node_deps, language_versions).

Definition NODE_FRAMEWORK_KEYS : list (string * string) :=
  [ ("vue", "vue"); ("react", "react"); ("@angular/core", "angular");
    ("express", "express"); ("nestjs", "nestjs");
    ("@nestjs/core", "nestjs"); ("typescript", "typescript") ].

Definition _collect_node (repo : Repo) : Exc Collected :=
  let grouped := _group_project_files repo in
  let* (node_deps, language_versions) :=
    fold_exc
      (fun st pkg =>
         match load_package_json pkg with
         | None => Some st
         | Some data => collect_node_file st data
         end)
      (g_package_json grouped) ([], []) in
  if nonempty node_deps then
    let framework_versions :=
      fold_left
        (fun fv '(fw_key, fw_name) =>
           match Dict.get node_deps fw_key with
           | Some v => if negb (Dict.mem fw_name fv)
                       then Dict.set fv fw_name v else fv
           | None => fv
           end)
        NODE_FRAMEWORK_KEYS [] in
    Some (Dict.set [] "node" node_deps, language_versions,
          framework_versions)
  else Some ([], language_versions, []).

(** *** Go *)

(** The body of the loop of [_collect_go] over the lines of a [go.mod], on
    [(language_versions, go_deps, in_block)]. *)
Definition go_line_step (st : Dict.t string * Dict.t string * bool)
    (line : string) : Dict.t string * Dict.t string * bool :=
  let '(language_versions, go_deps, in_block) := st in
  let s := Py.strip line in
  if negb (Py.truthy s) || Py.startswith "//" s then st
  else if Py.startswith "go " s then
    let parts := Py.split_ws s in
    if Nat.leb 2 (length parts) && negb (Dict.mem "go" language_versions)
    then (Dict.set language_versions "go" (nth 1 parts ""), go_deps, in_block)
    else st
  else if Py.startswith "require (" s then
    (language_versions, go_deps, true)
  else if in_block then
    if Py.startswith ")" s then (language_versions, go_deps, false)
    else
      let parts := Py.split_ws s in
      if Nat.leb 2 (length parts)
      then (language_versions,
            Dict.set go_deps (nth 0 parts "") (nth 1 parts ""), in_block)
      else st
  else if Py.startswith "require " s then
    let parts := Py.split_ws s in
    if Nat.leb 3 (length parts)
    then (language_versions,
          Dict.set go_deps (nth 1 parts "") (nth 2 parts ""), in_block)
    else st
  else st.

(** The framework versions that [_collect_go] reads off a module. *)
Definition go_framework_step (fv : Dict.t string) (mv : string * string)
    : Dict.t string :=
  let '(mod_, ver) := mv in
  let lower := Py.lower mod_ in
  let fv := if Py.str_contains "gin-gonic/gin" lower
            then Dict.set_if_absent fv "gin" ver else fv in
  let fv := if Py.str_contains "labstack/echo" lower
            then Dict.set_if_absent fv "echo" ver else fv in
  if Py.str_contains "gofiber/fiber" lower
  then Dict.set_if_absent fv "fiber" ver else fv.

Definition _collect_go (repo : Repo) : Collected :=
  let grouped := _group_project_files repo in
  let go_mod_files := g_go_mod grouped in
  if negb (nonempty go_mod_files) then ([], [], [])
  else
    let '(language_versions, go_deps) :=
      fold_left
        (fun '(language_versions, go_deps) gm =>
           match read_lines gm with
           | None => (language_versions, go_deps)
           | Some lines =>
               let '(language_versions, go_deps, _) :=
                 fold_left go_line_step lines
                   (language_versions, go_deps, false) in
               (language_versions, go_deps)
           end)
        go_mod_files ([], []) in
    if nonempty go_deps then
      (Dict.set [] "go" go_deps, language_versions,
       fold_left go_framework_step go_deps [])
    else ([], language_versions, []).

(** *** Java and Kotlin *)

(** The characters ['] and the double quote. *)
Definition quotes : string := "'" +++ Py.dq.

(** [\s*]. *)
Definition ws_star : Re.re := Re.Star (Re.Cls Py.isspace).

(** [[^<]+]. *)
Definition not_lt_plus : Re.re :=
  Re.Plus (Re.Cls (fun c => negb (Ascii.eqb c "<"))).

(** [<maven\.compiler\.source>\s*([^<]+)</maven\.compiler\.source>]. *)
Definition maven_source_re : Re.re :=
  Re.Cat (Re.Lit "<maven.compiler.source>")
  (Re.Cat ws_star
  (Re.Cat (Re.Grp 1 not_lt_plus)
          (Re.Lit "</maven.compiler.source>"))).

(** The pattern of a dependency of a [pom.xml]: [<dependency>\s*]
    [<groupId>\s*([^<]+)</groupId>\s*]
    [<artifactId>\s*([^<]+)</artifactId>\s*]
    [(?:<version>\s*([^<]+)</version>)?]. *)
Definition pom_dependency_re : Re.re :=
  Re.Cat (Re.Lit "<dependency>") (Re.Cat ws_star
  (Re.Cat (Re.Lit "<groupId>") (Re.Cat ws_star
  (Re.Cat (Re.Grp 1 not_lt_plus) (Re.Cat (Re.Lit "</groupId>")
  (Re.Cat ws_star
  (Re.Cat (Re.Lit "<artifactId>") (Re.Cat ws_star
  (Re.Cat (Re.Grp 2 not_lt_plus) (Re.Cat (Re.Lit "</artifactId>")
  (Re.Cat ws_star
  (Re.Opt
     (Re.Cat (Re.Lit "<version>") (Re.Cat ws_star
     (Re.Cat (Re.Grp 3 not_lt_plus) (Re.Lit "</version>")))))))))))))))).

(** [sourceCompatibility\s*=\s*[quotes]([^quotes]+)[quotes]]. *)
Definition source_compat_re : Re.re :=
  Re.Cat (Re.Lit "sourceCompatibility") (Re.Cat ws_star
  (Re.Cat (Re.Chr "=") (Re.Cat ws_star
  (Re.Cat (Re.Cls (fun c => Py.char_in c quotes))
  (Re.Cat (Re.Grp 1 (Re.Plus (Re.Cls (fun c =>
             negb (Py.char_in c quotes)))))
          (Re.Cls (fun c => Py.char_in c quotes))))))).

(** The pattern of a dependency of a Gradle file:
    [(?:implementation|api|compileOnly|runtimeOnly|testImplementation)\s+]
    [[quotes]([^:quotes]+):([^:quotes]+):([^quotes\n]+)[quotes]]. *)
Definition gradle_dependency_re : Re.re :=
  let not_colon_quote :=
    Re.Plus (Re.Cls (fun c => negb (Py.char_in c (":" +++ quotes)))) in
  Re.Cat
    (Re.Alt (Re.Lit "implementation")
    (Re.Alt (Re.Lit "api")
    (Re.Alt (Re.Lit "compileOnly")
    (Re.Alt (Re.Lit "runtimeOnly") (Re.Lit "testImplementation")))))
  (Re.Cat (Re.Plus (Re.Cls Py.isspace))
  (Re.Cat (Re.Cls (fun c => Py.char_in c quotes))
  (Re.Cat (Re.Grp 1 not_colon_quote) (Re.Cat (Re.Chr ":")
  (Re.Cat (Re.Grp 2 not_colon_quote) (Re.Cat (Re.Chr ":")
  (Re.Cat (Re.Grp 3 (Re.Plus (Re.Cls (fun c =>
             negb (Py.char_in c quotes)
             && negb (Nat.eqb (Py.code c) 10)))))
          (Re.Cls (fun c => Py.char_in c quotes))))))))).

(** [m.group(n).strip()], and [""] for a group that took no part. *)
Definition group_stripped (n : nat) (m : Re.found) : string :=
  match Re.group_of n m with
  | Some t => Py.strip t
  | None => ""
  end.

(** The state of [_collect_java_kotlin]:
    [(java_deps, language_versions, framework_versions)]. *)
Definition JavaState : Type := Dict.t string * Dict.t string * Dict.t string.

(** The body of the loop over the dependencies of a [pom.xml]. *)
Definition pom_dependency_step (st : JavaState) (dep_match : Re.found)
    : JavaState :=
  let '(java_deps, language_versions, framework_versions) := st in
  let group_id := group_stripped 1 dep_match in
  let artifact_id := group_stripped 2 dep_match in
  let version := group_stripped 3 dep_match in
  let key := group_id +++ ":" +++ artifact_id in
  let java_deps := Dict.set_if_absent java_deps key version in
  let framework_versions :=
    if String.eqb group_id "org.springframework.boot"
       && Py.startswith "spring-boot-starter" artifact_id
    then
      if negb (Dict.mem "spring" framework_versions) && Py.truthy version
      then Dict.set framework_versions "spring" version
      else framework_versions
    else framework_versions in
  let framework_versions :=
    if Py.str_contains "junit" (Py.lower group_id)
       || Py.str_contains "junit" (Py.lower artifact_id)
    then
      if negb (Dict.mem "junit" framework_versions) && Py.truthy version
      then Dict.set framework_versions "junit" version
      else framework_versions
    else framework_versions in
  let language_versions :=
    if Py.startswith "org.jetbrains.kotlin" group_id
    then
      if negb (Dict.mem "kotlin" language_versions) && Py.truthy version
      then Dict.set language_versions "kotlin" version
      else language_versions
    else language_versions in
  (java_deps, language_versions, framework_versions).

(** The body of the loop over the dependencies of a Gradle file: that of a
    [pom.xml], and Ktor. *)
Definition gradle_dependency_step (st : JavaState) (dep_match : Re.found)
    : JavaState :=
  let '(java_deps, language_versions, framework_versions) :=
    pom_dependency_step st dep_match in
  let group_id := group_stripped 1 dep_match in
  let version := group_stripped 3 dep_match in
  let framework_versions :=
    if Py.startswith "io.ktor" group_id
    then
      if negb (Dict.mem "ktor" framework_versions) && Py.truthy version
      then Dict.set framework_versions "ktor" version
      else framework_versions
    else framework_versions in
  (java_deps, language_versions, framework_versions).

(** The body of the loops over the files: the Java version from [source_re]
    when none is known yet, then the dependencies. *)
Definition java_file_step (source_re dependency_re : Re.re)
    (dep_step : JavaState -> Re.found -> JavaState)
    (st : JavaState) (f : Entry) : JavaState :=
  match e_text f with
  | None => st
  | Some content =>
      let '(java_deps, language_versions, framework_versions) := st in
      let language_versions :=
        match Re.search false source_re content with
        | Some m =>
            if negb (Dict.mem "java" language_versions)
            then Dict.set language_versions "java" (group_stripped 1 m)
            else language_versions
        | None => language_versions
        end in
      fold_left dep_step (Re.finditer false dependency_re content)
        (java_deps, language_versions, framework_versions)
  end.

Definition _collect_java_kotlin (repo : Repo) : Collected :=
  let grouped := _group_project_files repo in
  let st : JavaState := ([], [], []) in
  let st :=
    fold_left (java_file_step maven_source_re pom_dependency_re
                 pom_dependency_step)
      (g_pom grouped) st in
  let '(java_deps, language_versions, framework_versions) :=
    fold_left (java_file_step source_compat_re gradle_dependency_re
                 gradle_dependency_step)
      (g_gradle grouped) st in
  ((if nonempty java_deps then Dict.set [] "java" java_deps else []),
   language_versions, framework_versions).

(** ** Merging the collectors *)

(** The body of the loop of [_detect_dependencies_and_versions]: the
    output of a collector is merged into what the collectors before it
    gave. *)
Definition merge_collected (all : Collected) (c : Collected) : Collected :=
  let '(deps_all, lang_versions_all, fw_versions_all) := all in
  let '(deps, lang_ver, fw_ver) := c in
  let deps_all :=
    fold_left
      (fun deps_all '(eco, pkgs) =>
         let dst := match Dict.get deps_all eco with
                    | Some d => d
                    | None => []
                    end in
         Dict.set deps_all eco (Dict.update dst pkgs))
      deps deps_all in
  let lang_versions_all :=
    fold_left (fun acc '(k, v) => Dict.set_if_absent acc k v)
      lang_ver lang_versions_all in
  let fw_versions_all :=
    fold_left (fun acc '(k, v) => Dict.set_if_absent acc k v)
      fw_ver fw_versions_all in
  (deps_all, lang_versions_all, fw_versions_all).

(** The collectors in the order in which they are run. *)
Definition collectors : list (Repo -> Exc Collected) :=
  [ fun repo => Some (_collect_python repo);
    _collect_node;
    fun repo => Some (_collect_go repo);
    fun repo => Some (_collect_java_kotlin repo) ].

Definition _detect_dependencies_and_versions (repo : Repo) : Exc Collected :=
  fold_exc
    (fun all collector =>
       let* c := collector repo in Some (merge_collected all c))
    collectors ([], [], []).

(** ** [analyze_stack] *)

Definition ECO_PMS : Dict.t (list string) :=
  [ ("python", ["pip"; "poetry"; "pipenv"]);
    ("javascript", ["npm"; "yarn"; "pnpm"]);
    ("java", ["maven"; "gradle"]);
    ("go", ["go-mod"]) ].

Definition missing_path_warning : string :=
  "Путь к репозиторию не существует, анализ невозможен.".

(** The warning for a language that the noise filter drops. *)
Definition noise_warning (lang : string) : string :=
  "Обнаружен единичный файл языка " +++ lang
  +++ " без конфигурации зависимостей — "
  +++ "считаем его вспомогательным и не включаем в основной стек.".

Definition no_language_warning : string :=
  "Не удалось идентифицировать основной язык проекта. "
  +++ "Пайплайн будет построен по умолчаниям.".

(** [l.remove(x)]: the first occurrence of [x] is removed. *)
Fixpoint remove_first (x : string) (l : list string) : list string :=
  match l with
  | [] => []
  | y :: r => if String.eqb x y then r else y :: remove_first x r
  end.

(** The body of the loop of step 6 of [analyze_stack], on
    [(filtered_languages, warnings)]. *)
Definition noise_step (lang_counts : Dict.t nat)
    (package_managers : list string)
    (st : list string * list string) (lang : string)
    : list string * list string :=
  let '(filtered_languages, warnings) := st in
  match Dict.get ECO_PMS lang with
  | None => st
  | Some pms_for_lang =>
      if negb (nonempty pms_for_lang) then st
      else
        let files_count :=
          match Dict.get lang_counts lang with
          | Some n => n
          | None => 0
          end in
        let has_pm :=
          existsb (fun pm => Py.contains pm pms_for_lang) package_managers in
        if Nat.leb files_count 1 && negb has_pm
        then (remove_first lang filtered_languages,
              warnings ++ [noise_warning lang])
        else st
  end.

(** [analyze_stack(repo_path)]: the stack and the warnings. *)
Definition analyze_stack (repo : Repo) : Exc (StackInfo * list string) :=
  let warnings : list string := [] in
  if negb (repo_exists repo) then
    Some (StackInfo_default, warnings ++ [missing_path_warning])
  else
    let '(languages, lang_counts) := _detect_languages repo in
    let package_managers := _detect_package_managers repo in
    let* frameworks := _detect_frameworks repo languages in
    let '(has_dockerfile, has_docker_compose, has_k8s) :=
      _detect_deploy_artifacts repo in
    let* (dependencies, language_versions, framework_versions) :=
      _detect_dependencies_and_versions repo in
    let filtered_languages := languages in
    let '(filtered_languages, warnings) :=
      fold_left (noise_step lang_counts package_managers)
        filtered_languages (filtered_languages, warnings) in
    let frameworks_all :=
      Py.sorted (Py.to_set (frameworks ++ Dict.keys framework_versions)) in
    let stack :=
      mkStackInfo (Py.sorted filtered_languages) frameworks_all
        package_managers has_dockerfile has_docker_compose has_k8s
        dependencies language_versions framework_versions
        (_detect_dockerfiles repo) in
    let warnings :=
      if negb (nonempty filtered_languages)
      then warnings ++ [no_language_warning] else warnings in
    Some (stack, warnings).

End Analyzer.

(** [core.py]: the stack is analyzed, then the pipeline is built from it;
    the warnings of the two steps are collected in that order. *)
Definition create_pipeline (json_loads : string -> option Json)
    (str_other : Json -> string) (repo : Repo)
    : Exc (StackInfo * Pipeline * list string) :=
  let* (stack, analysis_warnings) :=
    analyze_stack json_loads str_other repo in
  let '(pipeline, pipeline_warnings) := build_pipeline stack in
  Some (stack, pipeline, analysis_warnings ++ pipeline_warnings).


(* ===================================================================== *)
(** * The lists of [build_pipeline] in closed form                        *)
(* ===================================================================== *)

(** Whether the jobs of Java are emitted: line 253 of [pipeline.py], and
    [has_java] of [_append_quality_jobs]. *)
Definition java_with_maven (stack : StackInfo) : bool :=
  Py.contains "java" (languages stack)
  && Py.contains "maven" (package_managers stack).

(** The stages that [build_pipeline] asks [_ensure_stage] for, in the order
    of the calls. *)
Definition requested_stages (stack : StackInfo) : list string :=
  (if Py.contains "python" (languages stack) then ["lint"; "test"] else [])
  ++ (if _has_node stack then ["lint"; "test"; "build"] else [])
  ++ (if Py.contains "go" (languages stack) then ["test"; "build"] else [])
  ++ (if java_with_maven stack then ["test"; "build"] else [])
  ++ (if java_with_maven stack || _has_node stack then ["quality"] else [])
  ++ (if nonempty (dockerfiles stack) || has_dockerfile stack
      then ["docker"] else [])
  ++ ["deploy"].

(** The jobs of the docker stage. *)
Definition docker_stage_jobs (stack : StackInfo) : list Job :=
  match dockerfiles stack with
  | _ :: _ => map docker_job (dockerfiles stack)
  | [] => if has_dockerfile stack then [docker_build] else []
  end.

(** The jobs of the ecosystems and of the quality stage, in order. *)
Definition ecosystem_jobs (stack : StackInfo) : list Job :=
  (if Py.contains "python" (languages stack)
   then [python_tests; python_lint] else [])
  ++ (if _has_node stack
      then [node_lint (_node_pm stack); node_tests (_node_pm stack);
            node_build (_node_pm stack)]
      else [])
  ++ (if Py.contains "go" (languages stack) then [go_tests; go_build] else [])
  ++ (if java_with_maven stack then [java_tests; java_build] else [])
  ++ (if java_with_maven stack then [java_sonar] else [])
  ++ (if _has_node stack then [node_sonar] else []).

(** The jobs that [build_pipeline] appends, in order. *)
Definition emitted_jobs (stack : StackInfo) : list Job :=
  ecosystem_jobs stack ++ docker_stage_jobs stack ++ [deploy_placeholder].

(** The warnings that [build_pipeline] appends, in order. *)
Definition emitted_warnings (stack : StackInfo) : list string :=
  (if java_with_maven stack || _has_node stack then [quality_warning] else [])
  ++ match dockerfiles stack with
     | _ :: _ => [docker_jobs_warning]
     | [] => if has_dockerfile stack then [docker_fallback_warning] else []
     end
  ++ (if negb (Py.contains "python" (languages stack) || _has_node stack
               || Py.contains "go" (languages stack)
               || Py.contains "java" (languages stack))
      then [placeholder_warning] else []).

(** [dependencies[eco][pkg]], [None] when one of the keys is missing. *)
Definition dep_version (deps : Dict.t (Dict.t string)) (eco pkg : string)
    : option string :=
  match Dict.get deps eco with
  | Some pkgs => Dict.get pkgs pkg
  | None => None
  end.

(** A collector reports the packages of one ecosystem: its dependencies
    are empty or have the one key [eco], with a dict that has each key
    once. *)
Definition one_ecosystem (eco : string) (deps : Dict.t (Dict.t string))
    : Prop :=
  deps = [] \/ exists pkgs, deps = [(eco, pkgs)] /\ NoDup (Dict.keys pkgs).

(* ===================================================================== *)
(** * The analyzer in closed form                                         *)
(* ===================================================================== *)

(** Whether the name of [f], in lower case, is [n]. *)
Definition is_named (n : string) (f : Entry) : bool :=
  String.eqb (Py.lower (Path.name (e_parts f))) n.

(** Whether [f] is a file of the language [lang]. *)
Definition has_language (lang : string) (f : Entry) : bool :=
  match language_of f with
  | Some l => String.eqb l lang
  | None => false
  end.

(** The number of files of a language among [files]. *)
Definition count_language (lang : string) (files : list Entry) : nat :=
  length (filter (has_language lang) files).

(** The condition under which the noise filter drops a language. *)
Definition noise_dropped (lang_counts : Dict.t nat)
    (package_managers : list string) (lang : string) : bool :=
  match Dict.get ECO_PMS lang with
  | None => false
  | Some pms_for_lang =>
      nonempty pms_for_lang
      && Nat.leb (match Dict.get lang_counts lang with
                  | Some n => n
                  | None => 0
                  end) 1
      && negb (existsb (fun pm => Py.contains pm pms_for_lang)
                 package_managers)
  end.

(** The package manager that [_detect_package_managers] adds for a
    [package.json]. *)
Definition node_pm_of (repo : Repo) (pkg : Entry) : string :=
  let parent := Path.parent (e_parts pkg) in
  if path_exists repo (parent ++ ["yarn.lock"]) then "yarn"
  else if path_exists repo (parent ++ ["pnpm-lock.yaml"]) then "pnpm"
  else "npm".

(** The package managers that the manifests of the tree stand for, before
    they are made a sorted set. *)
Definition package_manager_signals (repo : Repo) : list string :=
  let grouped := _group_project_files repo in
  (if nonempty (g_requirements grouped) then ["pip"] else [])
  ++ (if nonempty (g_pyproject grouped) then ["poetry"] else [])
  ++ (if nonempty (g_pipfile grouped) then ["pipenv"] else [])
  ++ map (node_pm_of repo) (g_package_json grouped)
  ++ (if nonempty (g_pom grouped) then ["maven"] else [])
  ++ (if nonempty (g_gradle grouped) then ["gradle"] else [])
  ++ (if nonempty (g_go_mod grouped) then ["go-mod"] else []).

(** The names, in lower case, that [_group_project_files] recognizes. *)
Definition MANIFEST_NAMES : list string :=
  [ "requirements.txt"; "pyproject.toml"; "pipfile"; "package.json";
    "pom.xml"; "build.gradle"; "build.gradle.kts"; "go.mod";
    "tsconfig.json" ].

(** Whether the walk meets a recognized manifest. *)
Definition no_manifest (repo : Repo) : Prop :=
  forall f,
    In f (_iter_files repo) ->
    Py.contains (Py.lower (Path.name (e_parts f))) MANIFEST_NAMES = false.



(** A list as [sorted(set(...))] gives it: in the order of [sorted], and
    without duplicates. *)
Definition sorted_set (l : list string) : Prop :=
  StronglySorted (fun a b => String.leb a b = true) l /\ NoDup l.

(* ===================================================================== *)
(** * The summary of a pipeline ([summarize_pipeline])                     *)
(* ===================================================================== *)

(** [str(n)] for a count: its decimal digits. *)
Definition str_nat (n : nat) : string :=
  NilEmpty.string_of_uint (Nat.to_uint n).

(** [PipelineSummary] of [core/models.py]; its field [stages] is
    [summary_stages] here. *)
Record PipelineSummary := mkPipelineSummary {
  stages_count : nat;
  jobs_count : nat;
  summary_stages : list string;
  job_names : list string;
  description : string
}.

Definition empty_pipeline_description : string :=
  "Пайплайн пустой. Отредактируйте конфигурацию.".

Definition summarize_pipeline (pipeline : Pipeline) : PipelineSummary :=
  let stages := stages pipeline in
  let job_names := map job_name (jobs pipeline) in
  let stages_count := length stages in
  let jobs_count := length job_names in
  let description :=
    if Nat.eqb stages_count 0 && Nat.eqb jobs_count 0
    then empty_pipeline_description
    else
      "Сгенерирован пайплайн из " +++ str_nat stages_count
      +++ " стадий и " +++ str_nat jobs_count +++ " задач: "
      +++ "стадии " +++ Py.join ", " stages +++ "." in
  mkPipelineSummary stages_count jobs_count stages job_names description.

(** Whether [build_pipeline] registers the stage [name]: the stage of a job
    that it emits for the stack. *)
Definition stage_wanted (stack : StackInfo) (name : string) : bool :=
  let has_python := Py.contains "python" (languages stack) in
  let has_node := _has_node stack in
  let has_go := Py.contains "go" (languages stack) in
  let has_maven := java_with_maven stack in
  if String.eqb name "lint" then has_python || has_node
  else if String.eqb name "test"
  then has_python || has_node || has_go || has_maven
  else if String.eqb name "quality" then has_maven || has_node
  else if String.eqb name "build" then has_node || has_go || has_maven
  else if String.eqb name "docker"
  then nonempty (dockerfiles stack) || has_dockerfile stack
  else String.eqb name "deploy".

(* ===================================================================== *)
(** * Documents that the analyzer reads without raising                    *)
(* ===================================================================== *)

(** Whether [v or {}] is a dict: [v] is missing, falsy, or a dict. *)
Definition dict_or_falsy (v : option Json) : bool :=
  match JsonPy.or_empty v with
  | JObj _ => true
  | _ => false
  end.

(** A [package.json] document on which neither [_detect_frameworks] nor
    [_collect_node] raises: an object whose [dependencies],
    [devDependencies] and [engines] are missing, falsy or objects. *)
Definition package_json_ok (data : Json) : bool :=
  match data with
  | JObj d =>
      dict_or_falsy (Dict.get d "dependencies")
      && dict_or_falsy (Dict.get d "devDependencies")
      && dict_or_falsy (Dict.get d "engines")
  | _ => false
  end.

(* ===================================================================== *)
(** * The script generators ([core/ci_sctipts.py])                         *)
(* ===================================================================== *)

(** What a generator gives: the commands that it returns, or the
    [ValueError] that it raises, with its message. *)
Inductive Script : Type :=
  | Commands : list string -> Script
  | ValueError : string -> Script.

Definition _normalize_kind (kind : string) : string :=
  if String.eqb kind "tests" then "test" else kind.

Definition make_node_script (kind : string) : Script :=
  let normalized := _normalize_kind kind in
  let job_name := "node_" +++ kind in
  let cmds :=
    [ "echo 'Job: " +++ job_name +++ "'";
      "corepack enable || npm i -g pnpm";
      "pnpm install" ] in
  if String.eqb normalized "lint" then
    Commands
      (cmds ++ ["pnpm lint || echo 'pnpm lint не настроен — отредактируйте команду'"])
  else if String.eqb normalized "test" then
    Commands
      (cmds ++ ["pnpm test || echo 'pnpm test не настроен — отредактируйте команду'"])
  else if String.eqb normalized "build" then
    Commands
      (cmds ++ ["pnpm build || echo 'pnpm build не настроен — отредактируйте команду'"])
  else if String.eqb normalized "sonar" then
    Commands
      (cmds ++ ["echo 'TODO: добавьте команду запуска SonarQube для фронтенда (например, npx sonar-scanner ...)'"])
  else ValueError ("Unsupported node job kind: " +++ kind).

(** The goal of Maven and the hint of the error for a kind of job of
    Java: the first [if] of [make_java_script]. *)
Definition java_goal (normalized : string) : option (string * string) :=
  if String.eqb normalized "test" then
    Some ("test",
          "mvn test завершился с ошибкой — отредактируйте pom.xml/профили")
  else if String.eqb normalized "build" then
    Some ("package -DskipTests",
          "mvn package завершился с ошибкой — проверьте pom.xml")
  else if String.eqb normalized "sonar" then
    Some ("verify sonar:sonar",
          "SonarQube не настроен — укажите параметры sonar.* и переменные окружения SONAR_*")
  else None.

Definition make_java_script (kind : string) : Script :=
  let normalized := _normalize_kind kind in
  let job_name := "java_" +++ kind in
  match java_goal normalized with
  | None => ValueError ("Unsupported java job kind: " +++ kind)
  | Some (goal, error_hint) =>
      Commands
        [ "echo 'Job: " +++ job_name +++ "'";
          "[ -f mvnw ] && chmod +x mvnw || echo 'mvnw не найден, используем mvn из образа'";
          "./mvnw -B " +++ goal +++ " || mvn -B " +++ goal
          +++ " || echo '" +++ error_hint +++ "'" ]
  end.

(** [make_python_script(kind, manager)]; the default of [manager] is
    [pip]. *)
Definition make_python_script (kind manager : string) : Script :=
  let normalized := _normalize_kind kind in
  let job_name := "python_" +++ kind in
  let cmds := ["echo 'Job: " +++ job_name +++ "'"] in
  if String.eqb manager "pip" then
    let install_cmd :=
      "python -m pip install -r requirements.txt "
      +++ "|| echo 'requirements.txt не найден — настройте зависимости для Python-проекта'" in
    if String.eqb normalized "lint" then
      Commands
        (cmds ++
         [ install_cmd;
           "python -m pip install flake8 || true";
           "flake8 . || echo 'flake8 завершился с ошибкой — настройте конфиг или зависимости'" ])
    else if String.eqb normalized "test" then
      Commands
        (cmds ++
         [ install_cmd;
           "python -m pip install pytest || true";
           "pytest || echo 'pytest завершился с ошибкой — проверьте тесты и зависимости'" ])
    else if String.eqb normalized "build" then
      Commands
        (cmds ++
         [ install_cmd;
           "python -m pip install build || true";
           "python -m build || echo 'Команда сборки не настроена — отредактируйте build-конфигурацию'" ])
    else ValueError ("Unsupported python job kind: " +++ kind)
  else if String.eqb manager "poetry" then
    let base_install :=
      "poetry install || echo 'poetry install завершился с ошибкой — проверьте pyproject.toml'" in
    if String.eqb normalized "lint" then
      Commands
        (cmds ++
         [ base_install;
           "poetry run flake8 . || echo 'flake8 завершился с ошибкой — настройте конфиг или зависимости'" ])
    else if String.eqb normalized "test" then
      Commands
        (cmds ++
         [ base_install;
           "poetry run pytest || echo 'pytest завершился с ошибкой — проверьте тесты и зависимости'" ])
    else if String.eqb normalized "build" then
      Commands
        (cmds ++
         [ base_install;
           "poetry build || echo 'poetry build завершился с ошибкой — проверьте pyproject.toml'" ])
    else ValueError ("Unsupported python job kind: " +++ kind)
  else if String.eqb manager "pipenv" then
    let base_install :=
      "pipenv install || echo 'pipenv install завершился с ошибкой — проверьте Pipfile'" in
    if String.eqb normalized "lint" then
      Commands
        (cmds ++
         [ base_install;
           "pipenv run flake8 . || echo 'flake8 завершился с ошибкой — настройте конфиг или зависимости'" ])
    else if String.eqb normalized "test" then
      Commands
        (cmds ++
         [ base_install;
           "pipenv run pytest || echo 'pytest завершился с ошибкой — проверьте тесты и зависимости'" ])
    else if String.eqb normalized "build" then
      Commands
        (cmds ++
         [ base_install;
           "pipenv run python -m build || echo 'Команда сборки не настроена — проверьте конфигурацию'" ])
    else ValueError ("Unsupported python job kind: " +++ kind)
  else ValueError ("Unsupported python manager: " +++ manager).

Definition make_go_script (kind : string) : Script :=
  let normalized := _normalize_kind kind in
  let job_name := "go_" +++ kind in
  let cmds := ["echo 'Job: " +++ job_name +++ "'"] in
  if String.eqb normalized "lint" then
    Commands
      (cmds ++ ["go vet ./... || echo 'go vet завершился с ошибкой — проверьте код/зависимости'"])
  else if String.eqb normalized "test" then
    Commands
      (cmds ++ ["go test ./... || echo 'go test завершился с ошибкой — проверьте тесты/зависимости'"])
  else if String.eqb normalized "build" then
    Commands
      (cmds ++ ["go build ./... || echo 'go build завершился с ошибкой — проверьте main-пакет и зависимости'"])
  else ValueError ("Unsupported go job kind: " +++ kind).

(* ===================================================================== *)
(** * The tree without what is below the ignored directories               *)
(* ===================================================================== *)

(** Whether an entry is below a directory of [IGNORED_DIRS]. *)
Definition below_ignored (e : Entry) : bool :=
  existsb (fun d => Py.contains d IGNORED_DIRS) (Path.parent (e_parts e)).

(** The tree of [repo] without the entries below the directories of
    [IGNORED_DIRS]. *)
Definition pruned (repo : Repo) : Repo :=
  mkRepo (repo_parts repo) (repo_exists repo)
    (filter (fun e => negb (below_ignored e)) (entries repo)).

(** The stack [s] with the Dockerfiles [dfs]. *)
Definition with_dockerfiles (s : StackInfo) (dfs : list DockerfileInfo)
    : StackInfo :=
  mkStackInfo (languages s) (frameworks s) (package_managers s)
    (has_dockerfile s) (has_docker_compose s) (has_k8s_manifests s)
    (dependencies s) (language_versions s) (framework_versions s) dfs.

(* ===================================================================== *)
(** * The loops of the collectors, for what they are given                *)
(* ===================================================================== *)






(* ===================================================================== *)
(** * Properties                                                          *)
(* ===================================================================== *)

(** ** Lists of strings *)

Lemma contains_In (x : string) (xs : list string) :
  Py.contains x xs = true <-> In x xs.
Proof.
  unfold Py.contains. rewrite existsb_exists. split.
  - intros [y [Hy Heq]]. apply String.eqb_eq in Heq. now subst.
  - intros H. exists x. split; [assumption | apply String.eqb_refl].
Qed.

Lemma contains_false (x : string) (xs : list string) :
  Py.contains x xs = false <-> ~ In x xs.
Proof.
  rewrite <- contains_In. destruct (Py.contains x xs); split; congruence.
Qed.

Lemma contains_app (x : string) (xs ys : list string) :
  Py.contains x (xs ++ ys) = Py.contains x xs || Py.contains x ys.
Proof. unfold Py.contains. apply existsb_app. Qed.

Lemma contains_ext (xs ys : list string) :
  (forall x, In x xs <-> In x ys) ->
  forall x, Py.contains x xs = Py.contains x ys.
Proof.
  intros H x. destruct (Py.contains x ys) eqn:E.
  - apply contains_In, H, contains_In, E.
  - apply contains_false. intros Hin. apply H, contains_In in Hin. congruence.
Qed.

(** [list(dict.fromkeys(xs))] keeps the elements and has no duplicates. *)
Lemma fromkeys_acc_In (xs seen : list string) (x : string) :
  In x (Py.fromkeys_acc seen xs) <-> In x xs /\ ~ In x seen.
Proof.
  revert seen. induction xs as [|y r IH]; intros seen; simpl.
  - tauto.
  - destruct (Py.contains y seen) eqn:E.
    + apply contains_In in E. rewrite IH. split.
      * intros [H1 H2]. tauto.
      * intros [[H1 | H1] H2]; [subst; contradiction | tauto].
    + apply contains_false in E. simpl. rewrite IH. simpl. split.
      * intros [H | [H1 H2]]; [subst; tauto | tauto].
      * intros [[H1 | H1] H2]; [tauto |].
        destruct (string_dec y x); [tauto | right; tauto].
Qed.

Lemma fromkeys_In (xs : list string) (x : string) :
  In x (Py.fromkeys xs) <-> In x xs.
Proof. unfold Py.fromkeys. rewrite fromkeys_acc_In. simpl. tauto. Qed.

Lemma fromkeys_acc_NoDup (xs seen : list string) :
  NoDup (Py.fromkeys_acc seen xs).
Proof.
  revert seen. induction xs as [|y r IH]; intros seen; simpl.
  - constructor.
  - destruct (Py.contains y seen); [apply IH |].
    constructor; [| apply IH].
    rewrite fromkeys_acc_In. simpl. tauto.
Qed.

Lemma fromkeys_NoDup (xs : list string) : NoDup (Py.fromkeys xs).
Proof. apply fromkeys_acc_NoDup. Qed.

(** ** The canonical order of the stages *)

Lemma fold_append_if (A : Type) (p : A -> bool) (l acc : list A) :
  fold_left (fun acc x => if p x then acc ++ [x] else acc) l acc
  = acc ++ filter p l.
Proof.
  revert acc. induction l as [|x r IH]; intros acc; simpl.
  - now rewrite app_nil_r.
  - rewrite IH. destruct (p x); [| reflexivity].
    now rewrite <- app_assoc.
Qed.

Lemma fold_append_new (l acc : list string) :
  NoDup l ->
  fold_left
    (fun acc name => if Py.contains name acc then acc else acc ++ [name])
    l acc
  = acc ++ filter (fun name => negb (Py.contains name acc)) l.
Proof.
  revert acc. induction l as [|x r IH]; intros acc Hnd; simpl.
  - now rewrite app_nil_r.
  - inversion Hnd as [|? ? Hx Hr]; subst.
    destruct (Py.contains x acc) eqn:E; simpl.
    + now apply IH.
    + rewrite IH by assumption. rewrite <- app_assoc. simpl.
      do 2 f_equal. apply filter_ext_in. intros y Hy.
      rewrite contains_app. simpl.
      destruct (String.eqb_spec y x) as [-> | _]; [contradiction |].
      now rewrite !orb_false_r.
Qed.


Lemma order_stages_spec (unique : list string) :
  NoDup unique ->
  order_stages unique
  = filter (fun name => Py.contains name unique) canonical_order
    ++ filter (fun name => negb (Py.contains name canonical_order)) unique.
Proof.
  intros Hnd. unfold order_stages.
  rewrite fold_append_if. rewrite app_nil_l.
  rewrite fold_append_new by assumption.
  f_equal. apply filter_ext_in. intros name Hin. f_equal.
  destruct (Py.contains name canonical_order) eqn:E.
  - apply contains_In. apply filter_In. split.
    + now apply contains_In.
    + now apply contains_In.
  - apply contains_false. intros H. apply filter_In in H.
    destruct H as [H _]. apply contains_In in H. congruence.
Qed.

(** The stages in canonical order: those of the table in the order of the
    table, then the others in the order of their first registration. *)
Lemma canonical_stages_spec (raw : list string) :
  canonical_stages raw
  = filter (fun name => Py.contains name raw) canonical_order
    ++ filter (fun name => negb (Py.contains name canonical_order))
         (Py.fromkeys raw).
Proof.
  destruct raw as [|s0 raw0]; [reflexivity |].
  change (canonical_stages (s0 :: raw0))
    with (order_stages (Py.fromkeys (s0 :: raw0))).
  rewrite order_stages_spec by apply fromkeys_NoDup.
  f_equal. apply filter_ext. intros name. apply contains_ext, fromkeys_In.
Qed.


Lemma canonical_stages_In (raw : list string) (x : string) :
  In x (canonical_stages raw) <-> In x raw.
Proof.
  rewrite canonical_stages_spec, in_app_iff, !filter_In, fromkeys_In.
  rewrite contains_In, negb_true_iff, contains_false. split.
  - tauto.
  - intros H. destruct (in_dec string_dec x canonical_order); tauto.
Qed.

(** ** [build_pipeline] in closed form *)

Lemma for_each_docker (dfs : list DockerfileInfo) (b : Builder) :
  for_each dfs (fun df => append_job (docker_job df)) b
  = mkBuilder (b_stages b) (b_jobs b ++ map docker_job dfs) (b_warnings b).
Proof.
  revert b. induction dfs as [|d r IH]; intros b; simpl.
  - unfold skip. rewrite app_nil_r. now destruct b.
  - unfold seq. rewrite IH. unfold append_job. simpl.
    now rewrite <- app_assoc.
Qed.

Lemma node_pm_truthy (stack : StackInfo) :
  Py.truthy (_node_pm stack) = true.
Proof.
  unfold _node_pm.
  destruct (Py.contains "yarn" _); [reflexivity |].
  destruct (Py.contains "pnpm" _); reflexivity.
Qed.

(** The three lists that [build_pipeline] builds. *)
Lemma build_steps_eq (stack : StackInfo) :
  build_steps stack (mkBuilder [] [] [])
  = mkBuilder (Py.fromkeys (requested_stages stack)) (emitted_jobs stack)
      (emitted_warnings stack).
Proof.
  unfold build_steps, _append_quality_jobs, requested_stages, emitted_jobs,
    ecosystem_jobs, emitted_warnings, docker_stage_jobs, java_with_maven.
  cbv zeta. unfold seq.
  destruct (dockerfiles stack) as [|d dfs] eqn:Hdfs;
    rewrite ?for_each_docker;
    destruct (Py.contains "python" (languages stack)),
      (_has_node stack),
      (Py.contains "go" (languages stack)),
      (Py.contains "java" (languages stack)),
      (Py.contains "maven" (package_managers stack)),
      (has_dockerfile stack);
    rewrite ?node_pm_truthy; reflexivity.
Qed.

Lemma build_pipeline_eq (stack : StackInfo) :
  build_pipeline stack
  = (mkPipeline (canonical_stages (Py.fromkeys (requested_stages stack)))
       (emitted_jobs stack),
     emitted_warnings stack).
Proof. unfold build_pipeline. now rewrite build_steps_eq. Qed.

Lemma registered_stages_eq (stack : StackInfo) :
  registered_stages stack = Py.fromkeys (requested_stages stack).
Proof. unfold registered_stages. now rewrite build_steps_eq. Qed.

Lemma filter_none (A : Type) (p : A -> bool) (l : list A) :
  (forall x, In x l -> p x = false) -> filter p l = [].
Proof.
  induction l as [|x r IH]; intros H; simpl; [reflexivity |].
  rewrite (H x (or_introl eq_refl)). apply IH.
  intros y Hy. apply H. now right.
Qed.



(** ** Jobs and their stages *)

Lemma docker_job_name_prefix (df : DockerfileInfo) :
  Py.startswith "docker_build_" (docker_job_name df) = true.
Proof. reflexivity. Qed.

Lemma map_docker_job_name (dfs : list DockerfileInfo) :
  map job_name (map docker_job dfs) = map docker_job_name dfs.
Proof. rewrite map_map. reflexivity. Qed.

(** The jobs of the ecosystems: their names and their stages. *)
Lemma ecosystem_jobs_spec (stack : StackInfo) (j : Job) :
  In j (ecosystem_jobs stack) ->
  Py.startswith "docker_build" (job_name j) = false
  /\ job_name j <> "deploy_placeholder"
  /\ In (job_stage j) (requested_stages stack).
Proof.
  unfold ecosystem_jobs, requested_stages, java_with_maven.
  intros Hj. repeat rewrite in_app_iff in Hj.
  destruct (Py.contains "python" (languages stack)),
    (_has_node stack),
    (Py.contains "go" (languages stack)),
    (Py.contains "java" (languages stack)),
    (Py.contains "maven" (package_managers stack));
    simpl in Hj;
    intuition (subst; repeat split; try reflexivity; try discriminate;
               simpl; auto 20).
Qed.

Lemma docker_stage_jobs_spec (stack : StackInfo) (j : Job) :
  In j (docker_stage_jobs stack) ->
  Py.startswith "docker_build" (job_name j) = true
  /\ job_stage j = "docker"
  /\ In "docker" (requested_stages stack).
Proof.
  unfold docker_stage_jobs, requested_stages. intros Hj.
  assert (Hreq : nonempty (dockerfiles stack) || has_dockerfile stack = true
                 -> In "docker"
                      ((if nonempty (dockerfiles stack)
                           || has_dockerfile stack
                        then ["docker"] else []) ++ ["deploy"])).
  { intros ->. now left. }
  repeat split.
  - destruct (dockerfiles stack) as [|d dfs].
    + destruct (has_dockerfile stack); simpl in Hj; [| contradiction].
      destruct Hj as [<- | []]. reflexivity.
    + apply in_map_iff in Hj. destruct Hj as [df [<- _]]. reflexivity.
  - destruct (dockerfiles stack) as [|d dfs].
    + destruct (has_dockerfile stack); simpl in Hj; [| contradiction].
      destruct Hj as [<- | []]. reflexivity.
    + apply in_map_iff in Hj. destruct Hj as [df [<- _]]. reflexivity.
  - do 5 (apply in_or_app; right). apply Hreq.
    destruct (dockerfiles stack) as [|d dfs]; [| reflexivity].
    destruct (has_dockerfile stack); [reflexivity | contradiction].
Qed.

Lemma deploy_requested (stack : StackInfo) :
  In "deploy" (requested_stages stack).
Proof.
  unfold requested_stages. repeat (apply in_or_app; right). now left.
Qed.

(** Every job is in a stage that was asked for. *)
Lemma emitted_jobs_stage (stack : StackInfo) (j : Job) :
  In j (emitted_jobs stack) -> In (job_stage j) (requested_stages stack).
Proof.
  unfold emitted_jobs. rewrite !in_app_iff. intros [H | [H | H]].
  - now apply ecosystem_jobs_spec.
  - apply docker_stage_jobs_spec in H. destruct H as [_ [-> H]]. exact H.
  - destruct H as [<- | []]. apply deploy_requested.
Qed.

Lemma ecosystem_names_NoDup (stack : StackInfo) :
  NoDup (map job_name (ecosystem_jobs stack)).
Proof.
  unfold ecosystem_jobs, java_with_maven.
  destruct (Py.contains "python" (languages stack)),
    (_has_node stack),
    (Py.contains "go" (languages stack)),
    (Py.contains "java" (languages stack)),
    (Py.contains "maven" (package_managers stack));
    simpl;
    repeat (constructor; [simpl; intuition discriminate |]); constructor.
Qed.

Lemma docker_stage_names (stack : StackInfo) :
  NoDup (map job_name (docker_stage_jobs stack))
  <-> NoDup (map docker_job_name (dockerfiles stack)).
Proof.
  unfold docker_stage_jobs.
  destruct (dockerfiles stack) as [|d dfs] eqn:E.
  - split; intros _; [constructor |].
    destruct (has_dockerfile stack); simpl;
      repeat (constructor; [simpl; tauto |]); constructor.
  - now rewrite map_docker_job_name.
Qed.

(** The names of the jobs are pairwise distinct exactly when those of the
    jobs of the Dockerfile artifacts are. *)
Lemma emitted_names_NoDup (stack : StackInfo) :
  NoDup (map job_name (emitted_jobs stack))
  <-> NoDup (map docker_job_name (dockerfiles stack)).
Proof.
  rewrite <- docker_stage_names.
  unfold emitted_jobs. rewrite !map_app. split.
  - intros H. apply NoDup_app_remove_l in H.
    now apply NoDup_app_remove_r in H.
  - intros H. apply NoDup_app.
    + apply ecosystem_names_NoDup.
    + apply NoDup_app; [assumption | | ].
      * simpl. repeat constructor. simpl. tauto.
      * intros a Ha. apply in_map_iff in Ha. destruct Ha as [j [<- Hj]].
        apply docker_stage_jobs_spec in Hj. destruct Hj as [Hj _].
        simpl. intros [Heq | []]. rewrite <- Heq in Hj. discriminate.
    + intros a Ha Hb. apply in_map_iff in Ha. destruct Ha as [j [<- Hj]].
      apply ecosystem_jobs_spec in Hj. destruct Hj as [Hp [Hd _]].
      apply in_app_iff in Hb. destruct Hb as [Hb | [Hb | []]].
      * apply in_map_iff in Hb. destruct Hb as [j' [Heq Hj']].
        apply docker_stage_jobs_spec in Hj'. destruct Hj' as [Hj' _].
        rewrite Heq in Hj'. congruence.
      * now apply Hd.
Qed.

(** C2 (amended). For every stack, each job of the pipeline is in a stage
    of the pipeline; the names of the jobs are pairwise distinct exactly
    when the names [docker_build_<name>] of the jobs of the Dockerfile
    artifacts are. *)
Theorem C2_jobs_in_stages_names_distinct (stack : StackInfo) :
  let p := fst (build_pipeline stack) in
  (forall j, In j (jobs p) -> In (job_stage j) (stages p))
  /\ (NoDup (map job_name (jobs p))
      <-> NoDup (map docker_job_name (dockerfiles stack))).
Proof.
  rewrite build_pipeline_eq. simpl. split.
  - intros j Hj. apply canonical_stages_In, fromkeys_In.
    now apply emitted_jobs_stage.
  - apply emitted_names_NoDup.
Qed.

Lemma C2_jobs_in_stages_names_distinct_witness :
  NoDup
    (map job_name
       (jobs (fst (build_pipeline
          (mkStackInfo ["python"] [] ["pip"] true false false [] [] []
             [ mkDockerfileInfo "Dockerfile" "." "app" None;
               mkDockerfileInfo "services/api/Dockerfile" "services/api"
                 "api" None ]))))).
Proof.
  apply (proj2 (proj2 (C2_jobs_in_stages_names_distinct
    (mkStackInfo ["python"] [] ["pip"] true false false [] [] []
       [ mkDockerfileInfo "Dockerfile" "." "app" None;
         mkDockerfileInfo "services/api/Dockerfile" "services/api"
           "api" None ])))).
  vm_compute.
  repeat (constructor; [simpl; intuition discriminate |]). constructor.
Defined.

(** C2 as stated fails: two Dockerfiles in directories of the same name,
    [services/api/Dockerfile] and [tools/api/Dockerfile], give two jobs
    named [docker_build_api]. *)
Lemma C2_counterexample :
  let p :=
    fst (build_pipeline
           (mkStackInfo [] [] [] true false false [] [] []
              [ mkDockerfileInfo "services/api/Dockerfile" "services/api"
                  "api" None;
                mkDockerfileInfo "tools/api/Dockerfile" "tools/api"
                  "api" None ])) in
  ~ ((forall j, In j (jobs p) -> In (job_stage j) (stages p))
     /\ NoDup (map job_name (jobs p))).
Proof.
  intros p [_ H]. vm_compute in H.
  inversion H as [|x l Hx _]. apply Hx. now left.
Qed.

(** ** Presence of the ecosystems *)

Lemma existsb_false (A : Type) (p : A -> bool) (l : list A) :
  (forall x, In x l -> p x = false) -> existsb p l = false.
Proof.
  induction l as [|x r IH]; intros H; simpl; [reflexivity |].
  rewrite (H x (or_introl eq_refl)). apply IH.
  intros y Hy. apply H. now right.
Qed.

(** Whether a job is one of the jobs of Java. *)
Lemma java_jobs_emitted (stack : StackInfo) :
  existsb (fun j => Py.startswith "java_" (job_name j)) (emitted_jobs stack)
  = Py.contains "java" (languages stack)
    && Py.contains "maven" (package_managers stack).
Proof.
  unfold emitted_jobs. rewrite !existsb_app.
  rewrite (@existsb_false _ _ (docker_stage_jobs stack)).
  - unfold ecosystem_jobs, java_with_maven.
    destruct (Py.contains "python" (languages stack)),
      (_has_node stack),
      (Py.contains "go" (languages stack)),
      (Py.contains "java" (languages stack)),
      (Py.contains "maven" (package_managers stack)); reflexivity.
  - intros j Hj. unfold docker_stage_jobs in Hj.
    destruct (dockerfiles stack) as [|d dfs].
    + destruct (has_dockerfile stack); simpl in Hj; [| contradiction].
      destruct Hj as [<- | []]. reflexivity.
    + apply in_map_iff in Hj. destruct Hj as [df [<- _]]. reflexivity.
Qed.

Lemma placeholder_warning_emitted (stack : StackInfo) :
  Py.contains placeholder_warning (emitted_warnings stack)
  = negb (Py.contains "python" (languages stack) || _has_node stack
          || Py.contains "go" (languages stack)
          || Py.contains "java" (languages stack)).
Proof.
  unfold emitted_warnings, java_with_maven. rewrite !contains_app.
  destruct (dockerfiles stack) as [|d dfs];
    destruct (Py.contains "python" (languages stack)),
      (_has_node stack),
      (Py.contains "go" (languages stack)),
      (Py.contains "java" (languages stack)),
      (Py.contains "maven" (package_managers stack)),
      (has_dockerfile stack); reflexivity.
Qed.

(** C5 (amended). The jobs of Java are emitted exactly when java is in the
    languages and maven is in the package managers.  The warning that the
    pipeline has only placeholders is appended exactly when python is not
    in the languages, there is no sign of Node, go is not in the languages
    and java is not in the languages.  So for languages = {java},
    package managers = {gradle} and no sign of Node, no job of Java and no
    other job of an ecosystem is emitted, and that warning is not
    appended. *)
Theorem C5_java_needs_maven (stack : StackInfo) :
  let p := fst (build_pipeline stack) in
  let warnings := snd (build_pipeline stack) in
  existsb (fun j => Py.startswith "java_" (job_name j)) (jobs p)
  = Py.contains "java" (languages stack)
    && Py.contains "maven" (package_managers stack)
  /\ Py.contains placeholder_warning warnings
     = negb (Py.contains "python" (languages stack) || _has_node stack
             || Py.contains "go" (languages stack)
             || Py.contains "java" (languages stack))
  /\ (languages stack = ["java"] ->
      package_managers stack = ["gradle"] ->
      _has_node stack = false ->
      existsb (fun j => Py.startswith "java_" (job_name j)) (jobs p) = false
      /\ jobs p = docker_stage_jobs stack ++ [deploy_placeholder]
      /\ Py.contains placeholder_warning warnings = false).
Proof.
  rewrite build_pipeline_eq. simpl.
  split; [apply java_jobs_emitted |].
  split; [apply placeholder_warning_emitted |].
  intros Hl Hp Hn.
  rewrite java_jobs_emitted, placeholder_warning_emitted.
  unfold emitted_jobs, ecosystem_jobs, java_with_maven.
  rewrite Hl, Hp, Hn. repeat split; reflexivity.
Qed.

Lemma C5_java_needs_maven_witness :
  let stack :=
    mkStackInfo ["java"] [] ["gradle"] false false false [] [] [] [] in
  let p := fst (build_pipeline stack) in
  existsb (fun j => Py.startswith "java_" (job_name j)) (jobs p) = false
  /\ jobs p = docker_stage_jobs stack ++ [deploy_placeholder]
  /\ Py.contains placeholder_warning (snd (build_pipeline stack)) = false.
Proof.
  intros stack p.
  apply (proj2 (proj2 (C5_java_needs_maven stack))); reflexivity.
Defined.

(** C5 as stated fails: for languages = {java} and package managers =
    {gradle} no job of Java is emitted, but the warning that the pipeline
    has only placeholders is not appended. *)
Lemma C5_counterexample :
  let stack :=
    mkStackInfo ["java"] [] ["gradle"] false false false [] [] [] [] in
  ~ (existsb (fun j => Py.startswith "java_" (job_name j))
       (jobs (fst (build_pipeline stack))) = false
     /\ In placeholder_warning (snd (build_pipeline stack))).
Proof.
  intros stack [_ H]. vm_compute in H. exact H.
Qed.

(** ** The docker stage *)

Lemma filter_all (A : Type) (p : A -> bool) (l : list A) :
  (forall x, In x l -> p x = true) -> filter p l = l.
Proof.
  induction l as [|x r IH]; intros H; simpl; [reflexivity |].
  rewrite (H x (or_introl eq_refl)). f_equal. apply IH.
  intros y Hy. apply H. now right.
Qed.


Lemma parent_snoc (ctx : list string) (name : string) :
  Path.parent (ctx ++ [name]) = ctx.
Proof. unfold Path.parent. apply removelast_last. Qed.

Lemma name_snoc (ctx : list string) (name : string) :
  Path.name (ctx ++ [name]) = name.
Proof. unfold Path.name. apply last_last. Qed.

(** The logical name of a plain [Dockerfile]: the name of its directory,
    and [app] at the root. *)
Lemma dockerfile_name_plain (ctx : list string) :
  dockerfile_name (ctx ++ ["Dockerfile"]) = Py.or_else (Path.name ctx) "app".
Proof.
  unfold dockerfile_name. rewrite parent_snoc, name_snoc. reflexivity.
Qed.





(** ** The two scans for Dockerfiles *)

Lemma deploy_artifacts_flag (repo_parts_ : list string) (l : list Entry)
    (a b c : bool) :
  fst (fst
    (fold_left
       (fun '(has_dockerfile, has_docker_compose, has_k8s) file_path =>
          let name := Py.lower (Path.name (e_parts file_path)) in
          let has_dockerfile :=
            if String.eqb name "dockerfile"
               || Py.startswith "dockerfile." name
            then true else has_dockerfile in
          let has_docker_compose :=
            if Py.contains name ["docker-compose.yml"; "docker-compose.yaml"]
            then true else has_docker_compose in
          let has_k8s :=
            if (Py.endswith ".yml" name || Py.endswith ".yaml" name)
               && existsb
                    (fun part =>
                       Py.contains part ["k8s"; "kubernetes"; "manifests"])
                    (repo_parts_ ++ e_parts file_path)
            then true else has_k8s in
          (has_dockerfile, has_docker_compose, has_k8s))
       l (a, b, c)))
  = a || existsb
           (fun f =>
              let name := Py.lower (Path.name (e_parts f)) in
              String.eqb name "dockerfile"
              || Py.startswith "dockerfile." name)
           l.
Proof.
  revert a b c. induction l as [|f r IH]; intros a b c.
  - simpl. now rewrite orb_false_r.
  - cbn [fold_left existsb]. rewrite IH. cbv zeta.
    destruct (String.eqb _ "dockerfile" || Py.startswith "dockerfile." _);
      simpl; [now rewrite orb_true_r | reflexivity].
Qed.

Lemma deploy_artifacts_flag_eq (repo : Repo) :
  fst (fst (_detect_deploy_artifacts repo))
  = existsb
      (fun f =>
         let name := Py.lower (Path.name (e_parts f)) in
         String.eqb name "dockerfile" || Py.startswith "dockerfile." name)
      (_iter_files repo).
Proof.
  unfold _detect_deploy_artifacts. rewrite deploy_artifacts_flag.
  reflexivity.
Qed.



(** ** Dicts *)

Lemma get_set_eq (V : Type) (d : Dict.t V) (k : string) (v : V) :
  Dict.get (Dict.set d k v) k = Some v.
Proof.
  induction d as [|[k' v'] r IH]; simpl.
  - now rewrite String.eqb_refl.
  - destruct (String.eqb k k') eqn:E; simpl; rewrite E; [reflexivity | exact IH].
Qed.

Lemma get_set_ne (V : Type) (d : Dict.t V) (k k' : string) (v : V) :
  k <> k' -> Dict.get (Dict.set d k v) k' = Dict.get d k'.
Proof.
  intros Hne. induction d as [|[k0 v0] r IH]; simpl.
  - destruct (String.eqb_spec k' k); [congruence | reflexivity].
  - destruct (String.eqb_spec k k0) as [-> | Hk]; simpl.
    + destruct (String.eqb_spec k' k0); [congruence | reflexivity].
    + destruct (String.eqb k' k0); [reflexivity | exact IH].
Qed.

Lemma mem_get (V : Type) (d : Dict.t V) (k : string) :
  Dict.mem k d = true <-> exists v, Dict.get d k = Some v.
Proof.
  unfold Dict.mem. destruct (Dict.get d k) as [v |]; split.
  - intros _. now exists v.
  - reflexivity.
  - discriminate.
  - intros [v H]. discriminate.
Qed.


Lemma get_set_if_absent (V : Type) (d : Dict.t V) (k k' : string) (v : V) :
  Dict.get (Dict.set_if_absent d k v) k'
  = match Dict.get d k' with
    | Some old => Some old
    | None => if String.eqb k k' then Some v else None
    end.
Proof.
  unfold Dict.set_if_absent, Dict.mem.
  destruct (Dict.get d k) as [old |] eqn:E.
  - destruct (Dict.get d k') eqn:E'; [reflexivity |].
    destruct (String.eqb_spec k k'); [congruence | reflexivity].
  - destruct (String.eqb_spec k k') as [<- | Hne].
    + now rewrite get_set_eq, E.
    + rewrite get_set_ne by assumption. now destruct (Dict.get d k').
Qed.

(** ** Requirements *)


(** ** Invariants of loops *)

Lemma fold_left_inv (S A : Type) (P : S -> Prop) (f : S -> A -> S)
    (l : list A) (s : S) :
  P s -> (forall s x, P s -> P (f s x)) -> P (fold_left f l s).
Proof.
  intros Hs Hf. revert s Hs. induction l as [|x r IH]; intros s Hs; simpl.
  - exact Hs.
  - apply IH, Hf, Hs.
Qed.

Lemma fold_exc_inv (S A : Type) (P : S -> Prop) (f : S -> A -> Exc S)
    (l : list A) (s s' : S) :
  P s -> (forall s x s', P s -> f s x = Some s' -> P s') ->
  fold_exc f l s = Some s' -> P s'.
Proof.
  intros Hs Hf. revert s Hs. induction l as [|x r IH]; intros s Hs; simpl.
  - intros [= <-]. exact Hs.
  - unfold bind. destruct (f s x) as [s1 |] eqn:E; [| discriminate].
    apply IH. exact (Hf _ _ _ Hs E).
Qed.

(** ** Dicts have each key once *)

Lemma mem_In_keys (V : Type) (d : Dict.t V) (k : string) :
  Dict.mem k d = true <-> In k (Dict.keys d).
Proof.
  unfold Dict.mem, Dict.keys. induction d as [|[k' v'] r IH]; simpl.
  - split; [discriminate | contradiction].
  - destruct (String.eqb_spec k k') as [-> | Hne].
    + split; [now left | reflexivity].
    + rewrite IH. split; [now right | intros [H | H]; congruence].
Qed.

Lemma keys_set (V : Type) (d : Dict.t V) (k : string) (v : V) :
  Dict.keys (Dict.set d k v)
  = if Dict.mem k d then Dict.keys d else Dict.keys d ++ [k].
Proof.
  unfold Dict.mem, Dict.keys. induction d as [|[k' v'] r IH]; simpl.
  - reflexivity.
  - destruct (String.eqb k k'); simpl; [reflexivity |].
    rewrite IH. now destruct (Dict.get r k).
Qed.

Lemma wf_set (V : Type) (d : Dict.t V) (k : string) (v : V) :
  NoDup (Dict.keys d) -> NoDup (Dict.keys (Dict.set d k v)).
Proof.
  intros H. rewrite keys_set. destruct (Dict.mem k d) eqn:E; [exact H |].
  apply NoDup_app; [exact H | repeat constructor; simpl; tauto |].
  intros a Ha [<- | []]. apply mem_In_keys in Ha. congruence.
Qed.

Lemma wf_set_if_absent (V : Type) (d : Dict.t V) (k : string) (v : V) :
  NoDup (Dict.keys d) -> NoDup (Dict.keys (Dict.set_if_absent d k v)).
Proof.
  intros H. unfold Dict.set_if_absent.
  destruct (Dict.mem k d); [exact H | now apply wf_set].
Qed.

(** [{}.update(e)] is [e]. *)
Lemma update_app (V : Type) (e acc : Dict.t V) :
  NoDup (Dict.keys (acc ++ e)) -> Dict.update acc e = acc ++ e.
Proof.
  unfold Dict.update. revert acc.
  induction e as [|[k v] r IH]; intros acc H; simpl.
  - now rewrite app_nil_r.
  - assert (Hs : Dict.set acc k v = acc ++ [(k, v)]).
    { unfold Dict.keys in H. rewrite map_app in H. simpl in H.
      apply NoDup_remove_2 in H.
      assert (Hk : ~ In k (Dict.keys acc)).
      { intros Hin. apply H. apply in_or_app. now left. }
      clear -Hk. induction acc as [|[k' v'] a IHa]; simpl; [reflexivity |].
      destruct (String.eqb_spec k k') as [-> | Hne].
      - exfalso. apply Hk. now left.
      - f_equal. apply IHa. intros Hin. apply Hk. now right. }
    rewrite Hs. rewrite IH; rewrite <- app_assoc; [reflexivity | exact H].
Qed.

Lemma update_nil (V : Type) (e : Dict.t V) :
  NoDup (Dict.keys e) -> Dict.update [] e = e.
Proof. intros H. now rewrite update_app. Qed.

(** ** What the collectors report *)

Lemma one_ecosystem_if (eco : string) (pkgs : Dict.t string) :
  NoDup (Dict.keys pkgs) ->
  one_ecosystem eco (if nonempty pkgs then Dict.set [] eco pkgs else []).
Proof.
  intros H. destruct (nonempty pkgs); [right | now left].
  exists pkgs. now split.
Qed.

Lemma collect_python_eco (repo : Repo) :
  one_ecosystem "python" (fst (fst (_collect_python repo))).
Proof.
  unfold _collect_python. cbv zeta. cbn [fst].
  apply one_ecosystem_if.
  apply fold_left_inv; [constructor |].
  intros d f Hd. apply fold_left_inv; [exact Hd |].
  intros d' [name ver] Hd'. now apply wf_set_if_absent.
Qed.

Lemma go_line_step_wf (st : Dict.t string * Dict.t string * bool)
    (line : string) :
  NoDup (Dict.keys (snd (fst st))) ->
  NoDup (Dict.keys (snd (fst (go_line_step st line)))).
Proof.
  destruct st as [[lv d] b]. unfold go_line_step. cbv zeta. cbn [fst snd].
  intros H.
  repeat match goal with
         | |- context [if ?c then _ else _] => destruct c
         end; cbn [fst snd]; try exact H; now apply wf_set.
Qed.

Lemma collect_go_eco (repo : Repo) :
  one_ecosystem "go" (fst (fst (_collect_go repo))).
Proof.
  unfold _collect_go. cbv zeta.
  destruct (negb (nonempty (g_go_mod (_group_project_files repo))));
    [now left |].
  match goal with
  | |- context [fold_left ?f ?l ?s] =>
      assert (Hwf : NoDup (Dict.keys (snd (fold_left f l s))))
  end.
  { apply fold_left_inv; [constructor |].
    intros [lv d] gm Hd. cbn [snd] in *.
    destruct (read_lines gm) as [lines |]; [| exact Hd].
    pose proof (@fold_left_inv _ _
      (fun st => NoDup (Dict.keys (snd (fst st))))
      go_line_step lines (lv, d, false) Hd go_line_step_wf) as H.
    destruct (fold_left go_line_step lines (lv, d, false)) as [[lv' d'] b'].
    exact H. }
  destruct (fold_left _ _ _) as [lv d]. cbn [snd] in Hwf.
  destruct (nonempty d) eqn:E; cbn [fst]; [right | now left].
  exists d. now split.
Qed.

Lemma pom_dependency_step_wf (st : JavaState) (m : Re.found) :
  NoDup (Dict.keys (fst (fst st))) ->
  NoDup (Dict.keys (fst (fst (pom_dependency_step st m)))).
Proof.
  destruct st as [[d lv] fv]. unfold pom_dependency_step. cbv zeta.
  cbn [fst]. apply wf_set_if_absent.
Qed.

Lemma gradle_dependency_step_wf (st : JavaState) (m : Re.found) :
  NoDup (Dict.keys (fst (fst st))) ->
  NoDup (Dict.keys (fst (fst (gradle_dependency_step st m)))).
Proof.
  intros H. unfold gradle_dependency_step.
  pose proof (pom_dependency_step_wf st m H) as H'.
  destruct (pom_dependency_step st m) as [[d lv] fv]. exact H'.
Qed.

Lemma java_file_step_wf (source_re dependency_re : Re.re)
    (dep_step : JavaState -> Re.found -> JavaState) :
  (forall st m,
      NoDup (Dict.keys (fst (fst st))) ->
      NoDup (Dict.keys (fst (fst (dep_step st m))))) ->
  forall st f,
    NoDup (Dict.keys (fst (fst st))) ->
    NoDup (Dict.keys
             (fst (fst (java_file_step source_re dependency_re dep_step
                          st f)))).
Proof.
  intros Hstep st f H. unfold java_file_step.
  destruct (e_text f) as [content |]; [| exact H].
  destruct st as [[d lv] fv].
  apply fold_left_inv with (P := fun st => NoDup (Dict.keys (fst (fst st))));
    [exact H | exact Hstep].
Qed.

Lemma collect_java_eco (repo : Repo) :
  one_ecosystem "java" (fst (fst (_collect_java_kotlin repo))).
Proof.
  unfold _collect_java_kotlin. cbv zeta.
  match goal with
  | |- context [fold_left ?f ?l (fold_left ?g ?l0 ?s)] =>
      assert (Hwf : NoDup (Dict.keys
                (fst (fst (fold_left f l (fold_left g l0 s))))))
  end.
  { apply fold_left_inv with
      (P := fun st : JavaState => NoDup (Dict.keys (fst (fst st)))).
    - apply fold_left_inv with
        (P := fun st : JavaState => NoDup (Dict.keys (fst (fst st)))).
      + constructor.
      + apply java_file_step_wf, pom_dependency_step_wf.
    - apply java_file_step_wf, gradle_dependency_step_wf. }
  destruct (fold_left _ _ _) as [[d lv] fv]. cbn [fst] in *.
  now apply one_ecosystem_if.
Qed.

Lemma collect_node_file_wf (str_other : Json -> string)
    (st st' : Dict.t string * Dict.t string) (data : Json) :
  NoDup (Dict.keys (fst st)) ->
  collect_node_file str_other st data = Some st' ->
  NoDup (Dict.keys (fst st')).
Proof.
  destruct st as [d lv]. unfold collect_node_file. cbn [fst].
  intros Hd H. unfold bind at 1 in H.
  match type of H with
  | match fold_exc ?f ?l ?s with _ => _ end = _ =>
      destruct (fold_exc f l s) as [d1 |] eqn:E; [| discriminate]
  end.
  assert (Hd1 : NoDup (Dict.keys d1)).
  { revert E.
    apply fold_exc_inv with (P := fun s : Dict.t string => NoDup (Dict.keys s));
      [exact Hd |].
    intros s x s' Hs Hx. unfold bind in Hx.
    destruct (JsonPy.get data x) as [v |]; [| discriminate].
    destruct (JsonPy.items (JsonPy.or_empty v)) as [items |];
      [| discriminate].
    injection Hx as <-. apply fold_left_inv; [exact Hs |].
    intros s0 [name ver] Hs0. now apply wf_set_if_absent. }
  unfold bind in H.
  destruct (JsonPy.get data "engines") as [e0 |]; [| discriminate].
  destruct (JsonPy.get (JsonPy.or_empty e0) "node") as [e |];
    [| discriminate].
  injection H as <-. exact Hd1.
Qed.

Lemma collect_node_eco (json_loads : string -> option Json)
    (str_other : Json -> string) (repo : Repo) (c : Collected) :
  _collect_node json_loads str_other repo = Some c ->
  one_ecosystem "node" (fst (fst c)).
Proof.
  unfold _collect_node. cbv zeta. unfold bind. intros H.
  match type of H with
  | match fold_exc ?f ?l ?s with _ => _ end = _ =>
      destruct (fold_exc f l s) as [[d lv] |] eqn:E; [| discriminate]
  end.
  assert (Hd : NoDup (Dict.keys d)).
  { change d with (fst (d, lv)). revert E.
    apply fold_exc_inv with
      (P := fun st : Dict.t string * Dict.t string =>
              NoDup (Dict.keys (fst st))); [constructor |].
    intros s pkg s' Hs Hx.
    destruct (load_package_json json_loads pkg) as [data |].
    - eapply collect_node_file_wf; eassumption.
    - now injection Hx as <-. }
  destruct (nonempty d) eqn:En; injection H as <-; cbn [fst].
  - right. exists d. now split.
  - now left.
Qed.

(** ** Merging the collectors *)

Lemma get_fold_set_if_absent (c acc : Dict.t string) (k : string) :
  Dict.get
    (fold_left (fun acc '(k, v) => Dict.set_if_absent acc k v) c acc) k
  = match Dict.get acc k with
    | Some v => Some v
    | None => Dict.get c k
    end.
Proof.
  revert acc. induction c as [|[k0 v0] r IH]; intros acc; simpl.
  - now destruct (Dict.get acc k).
  - rewrite IH, get_set_if_absent. rewrite (String.eqb_sym k k0).
    destruct (Dict.get acc k); [reflexivity |].
    now destruct (String.eqb k0 k).
Qed.

Lemma merge_language_versions (all c : Collected) (k : string) :
  Dict.get (snd (fst (merge_collected all c))) k
  = match Dict.get (snd (fst all)) k with
    | Some v => Some v
    | None => Dict.get (snd (fst c)) k
    end.
Proof.
  destruct all as [[da la] fa], c as [[dc lc] fc].
  unfold merge_collected. cbn [fst snd]. apply get_fold_set_if_absent.
Qed.


(** The dependencies of a collector whose ecosystem no collector before
    it reported are added as they are. *)
Lemma merge_dependencies (eco : string) (all c : Collected) (e : string) :
  one_ecosystem eco (fst (fst c)) ->
  Dict.get (fst (fst all)) eco = None ->
  Dict.get (fst (fst (merge_collected all c))) e
  = match Dict.get (fst (fst all)) e with
    | Some v => Some v
    | None => Dict.get (fst (fst c)) e
    end.
Proof.
  destruct all as [[da la] fa], c as [[dc lc] fc].
  unfold merge_collected. cbn [fst snd].
  intros [-> | [pkgs [-> Hwf]]] Hnone.
  - cbn [fold_left]. change (Dict.get [] e) with (@None (Dict.t string)).
    now destruct (Dict.get da e).
  - cbn [fold_left]. cbv beta iota zeta. unfold Dict.t in *.
    rewrite Hnone, update_nil by assumption.
    destruct (String.eqb_spec e eco) as [-> | Hne].
    + rewrite get_set_eq, Hnone. cbn [Dict.get].
      now rewrite String.eqb_refl.
    + rewrite get_set_ne by congruence. cbn [Dict.get].
      destruct (String.eqb_spec e eco); [contradiction |].
      now destruct (Dict.get da e).
Qed.

Lemma one_ecosystem_get (eco e : string) (deps : Dict.t (Dict.t string)) :
  one_ecosystem eco deps -> e <> eco -> Dict.get deps e = None.
Proof.
  intros [-> | [pkgs [-> _]]] Hne; simpl; [reflexivity |].
  destruct (String.eqb_spec e eco); [contradiction | reflexivity].
Qed.

Lemma detect_dependencies_unfold (json_loads : string -> option Json)
    (str_other : Json -> string) (repo : Repo) :
  _detect_dependencies_and_versions json_loads str_other repo
  = match _collect_node json_loads str_other repo with
    | Some c_node =>
        Some (merge_collected
                (merge_collected
                   (merge_collected
                      (merge_collected ([], [], []) (_collect_python repo))
                      c_node)
                   (_collect_go repo))
                (_collect_java_kotlin repo))
    | None => None
    end.
Proof.
  unfold _detect_dependencies_and_versions, collectors.
  cbn [fold_exc]. unfold bind.
  now destruct (_collect_node json_loads str_other repo).
Qed.

Lemma some_inj (A : Type) (x y : A) : Some x = Some y -> x = y.
Proof. congruence. Qed.

(** ** Sorting *)

Lemma insert_sorted_perm (x : string) (l : list string) :
  Permutation (Py.insert_sorted x l) (x :: l).
Proof.
  induction l as [|y r IH]; simpl; [reflexivity |].
  destruct (String.leb x y); [reflexivity |].
  rewrite IH. apply perm_swap.
Qed.

Lemma sorted_perm (l : list string) : Permutation (Py.sorted l) l.
Proof.
  induction l as [|x r IH]; simpl; [reflexivity |].
  rewrite insert_sorted_perm. now constructor.
Qed.

Lemma sorted_In (l : list string) (x : string) :
  In x (Py.sorted l) <-> In x l.
Proof.
  split; apply Permutation_in;
    [apply sorted_perm | apply Permutation_sym, sorted_perm].
Qed.

Lemma sorted_NoDup (l : list string) : NoDup l -> NoDup (Py.sorted l).
Proof.
  apply Permutation_NoDup, Permutation_sym, sorted_perm.
Qed.

(** ** The manifests *)

Lemma group_file_fold (l : list Entry) (g : Grouped) :
  fold_left group_file l g
  = mkGrouped
      (g_requirements g ++ filter (is_named "requirements.txt") l)
      (g_pyproject g ++ filter (is_named "pyproject.toml") l)
      (g_pipfile g ++ filter (is_named "pipfile") l)
      (g_package_json g ++ filter (is_named "package.json") l)
      (g_pom g ++ filter (is_named "pom.xml") l)
      (g_gradle g
       ++ filter (fun f => is_named "build.gradle" f
                           || is_named "build.gradle.kts" f) l)
      (g_go_mod g ++ filter (is_named "go.mod") l)
      (g_tsconfig g ++ filter (is_named "tsconfig.json") l).
Proof.
  revert g. induction l as [|x r IH]; intros g.
  - destruct g. cbn [fold_left filter]. now rewrite !app_nil_r.
  - cbn [fold_left filter]. rewrite IH. clear IH.
    unfold group_file, is_named, Py.contains. cbn [existsb].
    destruct g as [a1 a2 a3 a4 a5 a6 a7 a8].
    generalize (Py.lower (Path.name (e_parts x))). intros n.
    destruct (String.eqb_spec n "requirements.txt") as [-> | _];
      [cbn; now rewrite <- !app_assoc |].
    destruct (String.eqb_spec n "pyproject.toml") as [-> | _];
      [cbn; now rewrite <- !app_assoc |].
    destruct (String.eqb_spec n "pipfile") as [-> | _];
      [cbn; now rewrite <- !app_assoc |].
    destruct (String.eqb_spec n "package.json") as [-> | _];
      [cbn; now rewrite <- !app_assoc |].
    destruct (String.eqb_spec n "pom.xml") as [-> | _];
      [cbn; now rewrite <- !app_assoc |].
    destruct (String.eqb_spec n "build.gradle") as [-> | _];
      [cbn; now rewrite <- !app_assoc |].
    destruct (String.eqb_spec n "build.gradle.kts") as [-> | _];
      [cbn; now rewrite <- !app_assoc |].
    destruct (String.eqb_spec n "go.mod") as [-> | _];
      [cbn; now rewrite <- !app_assoc |].
    destruct (String.eqb_spec n "tsconfig.json") as [-> | _];
      [cbn; now rewrite <- !app_assoc |].
    reflexivity.
Qed.

(** The groups of [_group_project_files] are the files of each name, in
    the order of the walk. *)
Lemma group_project_files_eq (repo : Repo) :
  _group_project_files repo
  = let files := _iter_files repo in
    mkGrouped
      (filter (is_named "requirements.txt") files)
      (filter (is_named "pyproject.toml") files)
      (filter (is_named "pipfile") files)
      (filter (is_named "package.json") files)
      (filter (is_named "pom.xml") files)
      (filter (fun f => is_named "build.gradle" f
                        || is_named "build.gradle.kts" f) files)
      (filter (is_named "go.mod") files)
      (filter (is_named "tsconfig.json") files).
Proof. unfold _group_project_files. now rewrite group_file_fold. Qed.

(** ** The languages *)

Lemma language_truthy (s lang : string) :
  Dict.get EXT_TO_LANGUAGE s = Some lang -> Py.truthy lang = true.
Proof.
  unfold EXT_TO_LANGUAGE. cbn [Dict.get].
  repeat match goal with
         | |- context [if ?c then _ else _] => destruct c
         end; intros [= <-]; reflexivity.
Qed.

Lemma count_file_get (counts : Dict.t nat) (f : Entry) (lang : string) :
  Dict.get (count_file counts f) lang
  = if has_language lang f
    then Some (match Dict.get counts lang with
               | Some n => n
               | None => 0
               end + 1)
    else Dict.get counts lang.
Proof.
  unfold count_file, has_language.
  destruct (language_of f) as [l |] eqn:E; [| reflexivity].
  rewrite (language_truthy _ E). cbn [negb].
  destruct (String.eqb_spec l lang) as [-> | Hne].
  - apply get_set_eq.
  - now apply get_set_ne.
Qed.

(** The count of a language is the number of its files. *)
Lemma language_counts_get (files : list Entry) (counts : Dict.t nat)
    (lang : string) :
  Dict.get (fold_left count_file files counts) lang
  = match count_language lang files with
    | 0 => Dict.get counts lang
    | S n => Some (match Dict.get counts lang with
                   | Some m => m
                   | None => 0
                   end + S n)
    end.
Proof.
  unfold count_language. revert counts.
  induction files as [|f r IH]; intros counts; [reflexivity |].
  cbn [fold_left filter]. rewrite IH, count_file_get.
  destruct (has_language lang f); cbn [length].
  - destruct (length (filter (has_language lang) r)); f_equal; lia.
  - reflexivity.
Qed.

Lemma detect_languages_count (repo : Repo) (lang : string) :
  Dict.get (snd (_detect_languages repo)) lang
  = match count_language lang (_iter_files repo) with
    | 0 => None
    | S n => Some (S n)
    end.
Proof.
  unfold _detect_languages. cbn [snd]. rewrite language_counts_get.
  reflexivity.
Qed.

Lemma count_file_wf (counts : Dict.t nat) (f : Entry) :
  NoDup (Dict.keys counts) -> NoDup (Dict.keys (count_file counts f)).
Proof.
  intros H. unfold count_file.
  destruct (language_of f) as [l |]; [| exact H].
  destruct (negb (Py.truthy l)); [exact H | now apply wf_set].
Qed.

(** The languages detected are those that have a file, each once. *)
Lemma detect_languages_In (repo : Repo) (lang : string) :
  In lang (fst (_detect_languages repo))
  <-> 0 < count_language lang (_iter_files repo).
Proof.
  pose proof (detect_languages_count repo lang) as H.
  unfold _detect_languages in *. cbn [fst snd] in *.
  rewrite sorted_In, <- mem_In_keys. unfold Dict.mem. rewrite H.
  destruct (count_language lang (_iter_files repo)); split;
    try lia; try discriminate; reflexivity.
Qed.

Lemma detect_languages_NoDup (repo : Repo) :
  NoDup (fst (_detect_languages repo)).
Proof.
  unfold _detect_languages. cbn [fst]. apply sorted_NoDup.
  apply fold_left_inv; [constructor | apply count_file_wf].
Qed.

(** ** The package managers *)

Lemma set_add_In (x y : string) (s : list string) :
  In x (Py.set_add y s) <-> x = y \/ In x s.
Proof.
  unfold Py.set_add. destruct (Py.contains y s) eqn:E.
  - apply contains_In in E. split; [now right |].
    intros [-> | H]; assumption.
  - rewrite in_app_iff. simpl. split; intros H; intuition congruence.
Qed.


Lemma if_set_add_In (c : bool) (x y : string) (s : list string) :
  In x (if c then Py.set_add y s else s)
  <-> In x (if c then [y] else []) \/ In x s.
Proof.
  destruct c; [rewrite set_add_In |]; simpl; intuition congruence.
Qed.

Lemma add_node_pm_eq (repo : Repo) (pm : list string) (pkg : Entry) :
  add_node_pm repo pm pkg = Py.set_add (node_pm_of repo pkg) pm.
Proof.
  unfold add_node_pm, node_pm_of. cbv zeta.
  destruct (path_exists repo _); [reflexivity |].
  destruct (path_exists repo _); [reflexivity |].
  destruct (path_exists repo _); reflexivity.
Qed.

Lemma add_node_pm_fold (repo : Repo) (pkgs : list Entry) (pm : list string)
    (x : string) :
  In x (fold_left (add_node_pm repo) pkgs pm)
  <-> In x (map (node_pm_of repo) pkgs) \/ In x pm.
Proof.
  revert pm. induction pkgs as [|p r IH]; intros pm; cbn [fold_left map].
  - simpl. tauto.
  - rewrite IH, add_node_pm_eq, set_add_In. simpl. intuition congruence.
Qed.

(** The package managers detected are those that the manifests stand
    for. *)
Lemma detect_package_managers_In (repo : Repo) (x : string) :
  In x (_detect_package_managers repo)
  <-> In x (package_manager_signals repo).
Proof.
  unfold _detect_package_managers, package_manager_signals. cbv zeta.
  rewrite sorted_In.
  rewrite !if_set_add_In, add_node_pm_fold, !if_set_add_In, !in_app_iff.
  simpl (In x []). tauto.
Qed.


(** ** The noise filter *)

Lemma remove_first_filter (x : string) (l : list string) :
  NoDup l -> remove_first x l = filter (fun y => negb (String.eqb y x)) l.
Proof.
  induction l as [|y r IH]; intros H; simpl; [reflexivity |].
  inversion H as [|? ? Hy Hr]; subst.
  rewrite (String.eqb_sym y x).
  destruct (String.eqb_spec x y) as [-> | Hne]; simpl.
  - symmetry. apply filter_all. intros z Hz.
    destruct (String.eqb_spec z y) as [-> | _]; [contradiction | reflexivity].
  - f_equal. now apply IH.
Qed.

Lemma noise_step_eq (lang_counts : Dict.t nat) (pms : list string)
    (cur ws : list string) (lang : string) :
  noise_step lang_counts pms (cur, ws) lang
  = if noise_dropped lang_counts pms lang
    then (remove_first lang cur, ws ++ [noise_warning lang])
    else (cur, ws).
Proof.
  unfold noise_step, noise_dropped.
  destruct (Dict.get ECO_PMS lang) as [p |]; [| reflexivity].
  destruct (nonempty p); [| reflexivity]. cbn [negb andb].
  now destruct (Nat.leb _ 1 && negb _).
Qed.

Lemma filter_filter_and (A : Type) (p q : A -> bool) (l : list A) :
  filter p (filter q l) = filter (fun x => q x && p x) l.
Proof.
  induction l as [|x r IH]; simpl; [reflexivity |].
  destruct (q x); simpl; [destruct (p x); now rewrite IH | exact IH].
Qed.

(** The loop of the noise filter removes the languages that are dropped
    and warns about each. *)
Lemma noise_fold (lang_counts : Dict.t nat) (pms : list string)
    (todo cur ws : list string) :
  NoDup cur ->
  fold_left (noise_step lang_counts pms) todo (cur, ws)
  = (filter
       (fun l => negb (noise_dropped lang_counts pms l && Py.contains l todo))
       cur,
     ws ++ map noise_warning (filter (noise_dropped lang_counts pms) todo)).
Proof.
  revert cur ws. induction todo as [|x r IH]; intros cur ws Hnd.
  - cbn [fold_left filter map]. rewrite app_nil_r. f_equal.
    symmetry. apply filter_all. intros y _.
    now rewrite andb_false_r.
  - cbn [fold_left filter]. rewrite noise_step_eq.
    destruct (noise_dropped lang_counts pms x) eqn:Ex.
    + rewrite IH by (rewrite remove_first_filter by assumption;
                     now apply NoDup_filter).
      rewrite remove_first_filter by assumption.
      rewrite filter_filter_and. cbn [map]. rewrite <- app_assoc.
      f_equal. apply filter_ext. intros y. unfold Py.contains.
      cbn [existsb].
      destruct (String.eqb_spec y x) as [-> | Hne]; cbn [negb andb orb].
      * now rewrite Ex.
      * reflexivity.
    + rewrite IH by assumption. f_equal. apply filter_ext. intros y.
      unfold Py.contains. cbn [existsb].
      destruct (String.eqb_spec y x) as [-> | Hne]; cbn [orb];
        [| reflexivity].
      rewrite Ex. reflexivity.
Qed.

Lemma noise_fold_languages (lang_counts : Dict.t nat)
    (pms langs : list string) :
  NoDup langs ->
  fold_left (noise_step lang_counts pms) langs (langs, [])
  = (filter (fun l => negb (noise_dropped lang_counts pms l)) langs,
     map noise_warning (filter (noise_dropped lang_counts pms) langs)).
Proof.
  intros H. rewrite noise_fold by assumption. cbn [app]. f_equal.
  apply filter_ext_in. intros y Hy.
  apply contains_In in Hy. now rewrite Hy, andb_true_r.
Qed.

(** ** [analyze_stack] in closed form *)

Lemma analyze_stack_eq (json_loads : string -> option Json)
    (str_other : Json -> string) (repo : Repo) :
  repo_exists repo = true ->
  analyze_stack json_loads str_other repo
  = let detected := _detect_languages repo in
    let pms := _detect_package_managers repo in
    let dropped := noise_dropped (snd detected) pms in
    let kept := filter (fun l => negb (dropped l)) (fst detected) in
    match _detect_frameworks json_loads repo (fst detected) with
    | None => None
    | Some frameworks =>
        match _detect_dependencies_and_versions json_loads str_other repo
        with
        | None => None
        | Some (deps, lv, fv) =>
            Some
              (mkStackInfo (Py.sorted kept)
                 (Py.sorted (Py.to_set (frameworks ++ Dict.keys fv)))
                 pms
                 (fst (fst (_detect_deploy_artifacts repo)))
                 (snd (fst (_detect_deploy_artifacts repo)))
                 (snd (_detect_deploy_artifacts repo))
                 deps lv fv (_detect_dockerfiles repo),
               map noise_warning (filter dropped (fst detected))
               ++ (if negb (nonempty kept)
                   then [no_language_warning] else []))
        end
    end.
Proof.
  intros He. unfold analyze_stack, bind. rewrite He. cbn [negb].
  pose proof (detect_languages_NoDup repo) as Hnd.
  destruct (_detect_languages repo) as [langs counts]. cbn [fst snd] in *.
  destruct (_detect_frameworks json_loads repo langs); [| reflexivity].
  destruct (_detect_deploy_artifacts repo) as [[hd hc] hk].
  destruct (_detect_dependencies_and_versions json_loads str_other repo)
    as [[[deps lv] fv] |]; [| reflexivity].
  rewrite noise_fold_languages by assumption. cbn [fst snd app].
  destruct (negb (nonempty _)); [reflexivity | now rewrite app_nil_r].
Qed.

Lemma eco_pms_nonempty (lang : string) (pms : list string) :
  Dict.get ECO_PMS lang = Some pms -> nonempty pms = true.
Proof.
  unfold ECO_PMS. cbn [Dict.get].
  repeat match goal with
         | |- context [if ?c then _ else _] => destruct c
         end; intros [= <-]; reflexivity.
Qed.

(** A language with at most one file and none of the package managers of
    its family is dropped. *)
Lemma noise_dropped_true (repo : Repo) (lang : string) (pms : list string) :
  Dict.get ECO_PMS lang = Some pms ->
  count_language lang (_iter_files repo) <= 1 ->
  (forall pm, In pm pms -> ~ In pm (_detect_package_managers repo)) ->
  noise_dropped (snd (_detect_languages repo))
    (_detect_package_managers repo) lang = true.
Proof.
  intros Hp Hc Hpm. unfold noise_dropped.
  rewrite Hp, (eco_pms_nonempty _ Hp), detect_languages_count.
  rewrite existsb_false.
  - destruct (count_language lang (_iter_files repo)) as [|[|n]];
      [reflexivity | reflexivity | lia].
  - intros pm Hin. apply contains_false. intros Hin'.
    exact (Hpm pm Hin' Hin).
Qed.

Lemma node_pm_of_cases (repo : Repo) (pkg : Entry) :
  In (node_pm_of repo pkg) ["yarn"; "pnpm"; "npm"].
Proof.
  unfold node_pm_of. cbv zeta.
  destruct (path_exists repo _); [simpl; tauto |].
  destruct (path_exists repo _); simpl; tauto.
Qed.

(** Without a file named [go.mod], [go-mod] is not detected. *)
Lemma no_go_mod (repo : Repo) :
  (forall f, In f (_iter_files repo) -> is_named "go.mod" f = false) ->
  ~ In "go-mod" (_detect_package_managers repo).
Proof.
  intros Hno Hin. apply detect_package_managers_In in Hin.
  unfold package_manager_signals in Hin. cbv zeta in Hin.
  rewrite group_project_files_eq in Hin. cbv zeta in Hin.
  cbn [g_requirements g_pyproject g_pipfile g_package_json g_pom g_gradle
       g_go_mod] in Hin.
  rewrite (@filter_none _ (is_named "go.mod")) in Hin by assumption.
  rewrite !in_app_iff in Hin.
  destruct Hin as [H | [H | [H | [H | [H | [H | H]]]]]].
  - destruct (nonempty _); simpl in H; intuition discriminate.
  - destruct (nonempty _); simpl in H; intuition discriminate.
  - destruct (nonempty _); simpl in H; intuition discriminate.
  - apply in_map_iff in H. destruct H as [pkg [Heq _]].
    pose proof (node_pm_of_cases repo pkg) as Hc. rewrite Heq in Hc.
    simpl in Hc. intuition discriminate.
  - destruct (nonempty _); simpl in H; intuition discriminate.
  - destruct (nonempty _); simpl in H; intuition discriminate.
  - simpl in H. exact H.
Qed.

(** C7. In the stack that [analyze_stack] returns, a language is kept
    exactly when it is detected and the noise filter does not drop it.  A
    detected language with a family of package managers, at most one file
    and none of the package managers of its family detected is not in the
    languages, and a warning for it is emitted.  So for a tree in which
    the walk meets exactly one [.go] file and no [go.mod], go is not in the
    languages and a warning mentions go. *)
Theorem C7_noise_filter (json_loads : string -> option Json)
    (str_other : Json -> string) (repo : Repo) (stack : StackInfo)
    (ws : list string) :
  repo_exists repo = true ->
  analyze_stack json_loads str_other repo = Some (stack, ws) ->
  (forall lang,
      In lang (languages stack)
      <-> 0 < count_language lang (_iter_files repo)
          /\ noise_dropped (snd (_detect_languages repo))
               (_detect_package_managers repo) lang = false)
  /\ (forall lang pms,
         Dict.get ECO_PMS lang = Some pms ->
         0 < count_language lang (_iter_files repo) ->
         count_language lang (_iter_files repo) <= 1 ->
         (forall pm, In pm pms -> ~ In pm (_detect_package_managers repo)) ->
         ~ In lang (languages stack) /\ In (noise_warning lang) ws)
  /\ (count_language "go" (_iter_files repo) = 1 ->
      (forall f, In f (_iter_files repo) -> is_named "go.mod" f = false) ->
      ~ In "go" (languages stack)
      /\ exists w, In w ws /\ Py.str_contains "go" w = true).
Proof.
  intros He Ha. rewrite analyze_stack_eq in Ha by assumption.
  cbv zeta in Ha.
  destruct (_detect_frameworks json_loads repo _) as [fw |];
    [| discriminate].
  destruct (_detect_dependencies_and_versions json_loads str_other repo)
    as [[[deps lv] fv] |]; [| discriminate].
  apply some_inj in Ha.
  pose proof (f_equal fst Ha) as Hs. cbn [fst] in Hs.
  pose proof (f_equal snd Ha) as Hws. cbn [snd] in Hws. clear Ha.
  assert (Hl : languages stack
               = Py.sorted
                   (filter
                      (fun l =>
                         negb (noise_dropped (snd (_detect_languages repo))
                                 (_detect_package_managers repo) l))
                      (fst (_detect_languages repo))))
    by (now rewrite <- Hs).
  assert (Hw : forall lang,
             In lang (fst (_detect_languages repo)) ->
             noise_dropped (snd (_detect_languages repo))
               (_detect_package_managers repo) lang = true ->
             In (noise_warning lang) ws).
  { intros lang Hin Hd. rewrite <- Hws.
    apply in_or_app. left. apply in_map. apply filter_In. now split. }
  assert (Hgen : forall lang pms,
             Dict.get ECO_PMS lang = Some pms ->
             0 < count_language lang (_iter_files repo) ->
             count_language lang (_iter_files repo) <= 1 ->
             (forall pm, In pm pms ->
                         ~ In pm (_detect_package_managers repo)) ->
             ~ In lang (languages stack) /\ In (noise_warning lang) ws).
  { intros lang pms Hp Hpos Hc Hpm.
    pose proof (noise_dropped_true repo lang Hp Hc Hpm) as Hd. split.
    - rewrite Hl, sorted_In, filter_In, Hd. intros [_ H]. discriminate.
    - apply Hw; [now apply detect_languages_In | exact Hd]. }
  split; [| split].
  - intros lang. rewrite Hl, sorted_In, filter_In, detect_languages_In.
    now rewrite negb_true_iff.
  - exact Hgen.
  - intros Hone Hno.
    destruct (Hgen "go" ["go-mod"] eq_refl) as [H1 H2].
    + lia.
    + lia.
    + intros pm [<- | []]. now apply no_go_mod.
    + split; [exact H1 |]. exists (noise_warning "go").
      split; [exact H2 | reflexivity].
Qed.

Lemma C7_noise_filter_witness :
  let repo :=
    mkRepo ["/"; "work"; "repo"] true
      [ file ["tools"; "gen.go"] "package main";
        file ["README.md"] "docs" ] in
  match analyze_stack (fun _ => None) (fun _ => "") repo with
  | Some (stack, ws) =>
      ~ In "go" (languages stack)
      /\ exists w, In w ws /\ Py.str_contains "go" w = true
  | None => False
  end.
Proof.
  intros repo.
  destruct (analyze_stack (fun _ => None) (fun _ => "") repo)
    as [[stack ws] |] eqn:E.
  - apply (proj2 (proj2 (C7_noise_filter _ _ repo eq_refl E))).
    + reflexivity.
    + intros f Hf. simpl in Hf.
      destruct Hf as [<- | [<- | []]]; reflexivity.
  - vm_compute in E. discriminate E.
Defined.

(** ** Trees without manifests *)

Lemma no_manifest_named (repo : Repo) (n : string) :
  no_manifest repo -> In n MANIFEST_NAMES ->
  forall f, In f (_iter_files repo) -> is_named n f = false.
Proof.
  intros Hno Hn f Hf. unfold is_named.
  destruct (String.eqb_spec (Py.lower (Path.name (e_parts f))) n)
    as [Heq | _]; [| reflexivity].
  specialize (Hno f Hf). apply contains_false in Hno.
  rewrite Heq in Hno. contradiction.
Qed.

Lemma no_manifest_groups (repo : Repo) :
  no_manifest repo ->
  _group_project_files repo = mkGrouped [] [] [] [] [] [] [] [].
Proof.
  intros Hno. rewrite group_project_files_eq. cbv zeta.
  rewrite !(@filter_none _ (is_named _))
    by (apply (no_manifest_named Hno); simpl; tauto).
  rewrite (@filter_none _ (fun f => is_named "build.gradle" f
                                    || is_named "build.gradle.kts" f)).
  - reflexivity.
  - intros f Hf.
    rewrite !(no_manifest_named Hno) by (simpl; tauto || exact Hf).
    reflexivity.
Qed.

Lemma no_manifest_package_managers (repo : Repo) :
  no_manifest repo -> _detect_package_managers repo = [].
Proof.
  intros Hno. unfold _detect_package_managers.
  now rewrite (no_manifest_groups Hno).
Qed.

Lemma no_manifest_frameworks (json_loads : string -> option Json)
    (repo : Repo) (languages : list string) :
  no_manifest repo -> _detect_frameworks json_loads repo languages = Some [].
Proof.
  intros Hno. unfold _detect_frameworks.
  now rewrite (no_manifest_groups Hno).
Qed.

Lemma no_manifest_dependencies (json_loads : string -> option Json)
    (str_other : Json -> string) (repo : Repo) :
  no_manifest repo ->
  exists lv,
    _detect_dependencies_and_versions json_loads str_other repo
    = Some ([], lv, []).
Proof.
  intros Hno. rewrite detect_dependencies_unfold.
  unfold _collect_node, _collect_python, _collect_go, _collect_java_kotlin.
  rewrite (no_manifest_groups Hno).
  generalize (_detect_python_version repo). intros pv.
  cbn [g_requirements g_package_json g_go_mod g_pom g_gradle fold_left
       fold_exc nonempty negb bind Dict.get].
  eexists. reflexivity.
Qed.

(** The languages of the table have a family of package managers. *)
Lemma language_has_family (f : Entry) (lang : string) :
  language_of f = Some lang -> exists pms, Dict.get ECO_PMS lang = Some pms.
Proof.
  unfold language_of, EXT_TO_LANGUAGE. cbn [Dict.get].
  repeat match goal with
         | |- context [if ?c then _ else _] => destruct c
         end; intros [= <-]; eexists; reflexivity.
Qed.

Lemma count_language_pos (lang : string) (files : list Entry) :
  0 < count_language lang files ->
  exists f, In f files /\ language_of f = Some lang.
Proof.
  unfold count_language. intros H.
  destruct (filter (has_language lang) files) as [|f r] eqn:E;
    [simpl in H; lia |].
  assert (Hf : In f (filter (has_language lang) files))
    by (rewrite E; now left).
  apply filter_In in Hf. destruct Hf as [Hin Hl]. exists f. split; [easy |].
  unfold has_language in Hl. destruct (language_of f) as [l |];
    [| discriminate].
  apply String.eqb_eq in Hl. now subst.
Qed.

(** Without manifests, a language with at most one file is dropped. *)
Lemma no_manifest_dropped (repo : Repo) (lang : string) :
  no_manifest repo ->
  In lang (fst (_detect_languages repo)) ->
  count_language lang (_iter_files repo) <= 1 ->
  noise_dropped (snd (_detect_languages repo))
    (_detect_package_managers repo) lang = true.
Proof.
  intros Hno Hin Hc. apply detect_languages_In in Hin.
  destruct (count_language_pos _ _ Hin) as [f [_ Hl]].
  destruct (language_has_family _ Hl) as [pms Hp].
  apply (noise_dropped_true repo lang Hp Hc).
  intros pm _. rewrite (no_manifest_package_managers Hno). simpl. tauto.
Qed.

Lemma startswith_lower (p s : string) :
  Py.startswith p s = true ->
  Py.startswith (Py.lower p) (Py.lower s) = true.
Proof.
  revert s. induction p as [|a p IH]; intros s H; [reflexivity |].
  destruct s as [|b s]; [discriminate |]. simpl in *.
  apply andb_true_iff in H. destruct H as [Hab Hps].
  apply Ascii.eqb_eq in Hab. subst. rewrite Ascii.eqb_refl. simpl.
  now apply IH.
Qed.

Lemma startswith_app (p q s : string) :
  Py.startswith (p +++ q) s = true -> Py.startswith p s = true.
Proof.
  revert s. induction p as [|a p IH]; intros s H; [reflexivity |].
  destruct s as [|b s]; [discriminate |]. simpl in *.
  apply andb_true_iff in H. destruct H as [Hab Hps].
  rewrite Hab. simpl. now apply IH.
Qed.

(** No Dockerfile, whatever the case of its name: no artifact and no
    flag. *)
Lemma no_dockerfile (repo : Repo) :
  (forall e, In e (entries repo) ->
             Py.startswith "dockerfile"
               (Py.lower (Path.name (e_parts e))) = false) ->
  _detect_dockerfiles repo = []
  /\ fst (fst (_detect_deploy_artifacts repo)) = false.
Proof.
  intros Hno. split.
  - unfold _detect_dockerfiles, rglob_Dockerfile.
    rewrite (@filter_none _ _ (entries repo)); [reflexivity |].
    intros e He. specialize (Hno e He).
    destruct (Py.startswith "Dockerfile" (Path.name (e_parts e))) eqn:E;
      [| reflexivity].
    apply startswith_lower in E.
    change (Py.lower "Dockerfile") with "dockerfile" in E. congruence.
  - rewrite deploy_artifacts_flag_eq.
    apply existsb_false. intros f Hf. cbv zeta.
    apply filter_In in Hf. destruct Hf as [Hf _]. specialize (Hno f Hf).
    destruct (String.eqb_spec (Py.lower (Path.name (e_parts f)))
                "dockerfile") as [Heq | _].
    + rewrite Heq in Hno. discriminate.
    + destruct (Py.startswith "dockerfile." _) eqn:E; [| reflexivity].
      apply (startswith_app "dockerfile" ".") in E. congruence.
Qed.

(** ** The fallback pipeline *)

Lemma deploy_only_pipeline (stack : StackInfo) :
  languages stack = [] ->
  frameworks stack = [] ->
  dockerfiles stack = [] ->
  has_dockerfile stack = false ->
  build_pipeline stack
  = (mkPipeline ["deploy"] [deploy_placeholder], [placeholder_warning]).
Proof.
  intros Hl Hf Hd Hh. rewrite build_pipeline_eq.
  unfold requested_stages, emitted_jobs, ecosystem_jobs, docker_stage_jobs,
    emitted_warnings, java_with_maven, _has_node.
  rewrite Hl, Hf, Hd, Hh. reflexivity.
Qed.

(** The deploy stage has the one job [deploy_placeholder]. *)
Lemma deploy_stage_filter (stack : StackInfo) :
  filter (fun j => String.eqb (job_stage j) "deploy") (emitted_jobs stack)
  = [deploy_placeholder].
Proof.
  unfold emitted_jobs. rewrite !filter_app.
  rewrite (@filter_none _ _ (ecosystem_jobs stack)).
  - rewrite (@filter_none _ _ (docker_stage_jobs stack)); [reflexivity |].
    intros j Hj. apply docker_stage_jobs_spec in Hj.
    destruct Hj as [_ [-> _]]. reflexivity.
  - intros j Hj. unfold ecosystem_jobs, java_with_maven in Hj.
    repeat rewrite in_app_iff in Hj.
    destruct (Py.contains "python" (languages stack)),
      (_has_node stack),
      (Py.contains "go" (languages stack)),
      (Py.contains "java" (languages stack)),
      (Py.contains "maven" (package_managers stack));
      simpl in Hj; intuition (subst; reflexivity).
Qed.

(** A language has at most as many files as there are files of a tracked
    language. *)
Lemma count_language_le_tracked (lang : string) (files : list Entry) :
  count_language lang files
  <= length (filter (fun f => match language_of f with
                              | Some _ => true
                              | None => false
                              end) files).
Proof.
  unfold count_language, has_language.
  induction files as [|f r IH]; [apply le_n |]. cbn [filter].
  destruct (language_of f) as [l |]; [| exact IH].
  destruct (String.eqb l lang); cbn [length]; lia.
Qed.

(** C4 (amended). For every tree in which the walk meets no recognized
    manifest and at most one file of each language, and that has no
    Dockerfile, the pipeline has the one stage deploy with the one job
    [deploy_placeholder], and the warnings have the one that no ecosystem
    was detected.  In every pipeline, deploy is a stage and the jobs of the
    deploy stage are the one job [deploy_placeholder]. *)
Theorem C4_total_fallback :
  (forall json_loads str_other repo,
      no_manifest repo ->
      (forall lang, count_language lang (_iter_files repo) <= 1) ->
      (forall e, In e (entries repo) ->
                 Py.startswith "dockerfile"
                   (Py.lower (Path.name (e_parts e))) = false) ->
      exists stack ws,
        create_pipeline json_loads str_other repo
        = Some (stack, mkPipeline ["deploy"] [deploy_placeholder], ws)
        /\ In placeholder_warning ws)
  /\ (forall stack,
         let p := fst (build_pipeline stack) in
         In "deploy" (stages p)
         /\ filter (fun j => String.eqb (job_stage j) "deploy") (jobs p)
            = [deploy_placeholder]).
Proof.
  split.
  - intros json_loads str_other repo Hno Hc Hd. unfold create_pipeline, bind.
    destruct (repo_exists repo) eqn:He.
    + rewrite analyze_stack_eq by assumption. cbv zeta.
      rewrite (no_manifest_frameworks json_loads _ Hno).
      destruct (no_manifest_dependencies json_loads str_other Hno)
        as [lv ->].
      destruct (no_dockerfile repo Hd) as [Hdf Hflag].
      rewrite (@filter_none _ _ (fst (_detect_languages repo))).
      * rewrite deploy_only_pipeline;
          [| reflexivity | reflexivity | exact Hdf | exact Hflag].
        eexists. eexists. split; [reflexivity |].
        apply in_or_app. right. now left.
      * intros lang Hin. rewrite (no_manifest_dropped lang Hno Hin (Hc lang)).
        reflexivity.
    + unfold analyze_stack. rewrite He. cbn [negb].
      eexists. eexists. split; [reflexivity |]. simpl. tauto.
  - intros stack. rewrite build_pipeline_eq. cbn [fst stages jobs]. split.
    + apply canonical_stages_In, fromkeys_In, deploy_requested.
    + apply deploy_stage_filter.
Qed.

Lemma C4_total_fallback_witness :
  let repo :=
    mkRepo ["/"; "work"; "repo"] true
      [ file ["README.md"] "docs"; file ["notes"; "todo.txt"] "later";
        file ["scripts"; "gen.py"] "print(1)" ] in
  exists stack ws,
    create_pipeline (fun _ => None) (fun _ => "") repo
    = Some (stack, mkPipeline ["deploy"] [deploy_placeholder], ws)
    /\ In placeholder_warning ws.
Proof.
  intros repo.
  apply (proj1 C4_total_fallback (fun _ => None) (fun _ => "") repo).
  - intros f Hf. simpl in Hf.
    destruct Hf as [<- | [<- | [<- | []]]]; reflexivity.
  - intros lang.
    apply (Nat.le_trans _ _ _ (count_language_le_tracked lang _)).
    vm_compute. apply le_n.
  - intros e He. simpl in He.
    destruct He as [<- | [<- | [<- | []]]]; reflexivity.
Defined.

(** C4 as stated fails: a tree with two Python files and no manifest
    keeps python, and the pipeline has the stages lint, test and deploy. *)
Lemma C4_counterexample :
  ~ (forall json_loads str_other repo,
        no_manifest repo ->
        forall stack p ws,
          create_pipeline json_loads str_other repo = Some (stack, p, ws) ->
          stages p = ["deploy"]
          /\ jobs p = [deploy_placeholder]
          /\ In placeholder_warning ws).
Proof.
  intros H.
  set (repo := mkRepo ["/"; "work"; "repo"] true
                 [file ["app.py"] "import util"; file ["util.py"] "x = 1"]).
  assert (Hno : no_manifest repo).
  { intros f Hf. simpl in Hf.
    destruct Hf as [<- | [<- | []]]; reflexivity. }
  destruct (create_pipeline (fun _ => None) (fun _ => "") repo)
    as [[[stack p] ws] |] eqn:E; [| vm_compute in E; discriminate E].
  destruct (H _ _ repo Hno stack p ws E) as [Hs _].
  vm_compute in E. injection E as _ Hp _. subst p. discriminate Hs.
Qed.

(** ** The order of [sorted] *)

Lemma ascii_compare_trans (x y z : ascii) :
  Ascii.compare x y <> Gt -> Ascii.compare y z <> Gt ->
  Ascii.compare x z <> Gt
  /\ (Ascii.compare x z = Eq ->
      Ascii.compare x y = Eq /\ Ascii.compare y z = Eq).
Proof.
  unfold Ascii.compare. intros H1 H2.
  change (N_of_ascii x <= N_of_ascii y)%N in H1.
  change (N_of_ascii y <= N_of_ascii z)%N in H2.
  split.
  - change (N_of_ascii x <= N_of_ascii z)%N. lia.
  - rewrite !N.compare_eq_iff. lia.
Qed.

Lemma string_compare_trans (a b c : string) :
  String.compare a b <> Gt -> String.compare b c <> Gt ->
  String.compare a c <> Gt.
Proof.
  revert b c. induction a as [|x a IH]; intros [|y b] [|z c]; simpl;
    try congruence.
  intros H1 H2.
  assert (Hxy : Ascii.compare x y <> Gt)
    by (destruct (Ascii.compare x y); congruence).
  assert (Hyz : Ascii.compare y z <> Gt)
    by (destruct (Ascii.compare y z); congruence).
  destruct (ascii_compare_trans _ _ _ Hxy Hyz) as [Hxz Heq].
  destruct (Ascii.compare x z) eqn:E; [| congruence | congruence].
  destruct (Heq eq_refl) as [E1 E2]. rewrite E1 in H1. rewrite E2 in H2.
  now apply (IH b c).
Qed.

Lemma leb_trans (a b c : string) :
  String.leb a b = true -> String.leb b c = true -> String.leb a c = true.
Proof.
  unfold String.leb. intros H1 H2.
  pose proof (string_compare_trans a b c) as H.
  destruct (String.compare a b); try discriminate;
    destruct (String.compare b c); try discriminate;
    destruct (String.compare a c); try reflexivity;
    exfalso; apply H; congruence.
Qed.

Lemma insert_sorted_sorted (x : string) (l : list string) :
  StronglySorted (fun a b => String.leb a b = true) l ->
  StronglySorted (fun a b => String.leb a b = true) (Py.insert_sorted x l).
Proof.
  induction l as [|y r IH]; intros H; simpl.
  - repeat constructor.
  - apply StronglySorted_inv in H. destruct H as [Hr Hy].
    destruct (String.leb x y) eqn:E.
    + constructor; [now constructor |].
      constructor; [exact E |].
      apply Forall_impl with (P := fun b => String.leb y b = true);
        [| exact Hy].
      intros b Hb. exact (leb_trans _ _ _ E Hb).
    + constructor; [now apply IH |].
      apply Forall_forall. intros b Hb.
      apply (Permutation_in _ (insert_sorted_perm x r)) in Hb.
      destruct Hb as [<- | Hb].
      * destruct (String.leb_total x y) as [H | H]; congruence.
      * rewrite Forall_forall in Hy. now apply Hy.
Qed.

Lemma sorted_sorted (l : list string) :
  StronglySorted (fun a b => String.leb a b = true) (Py.sorted l).
Proof.
  induction l as [|x r IH]; simpl; [constructor |].
  now apply insert_sorted_sorted.
Qed.



(** ** Permutations of the tree *)




(** All three flags of [_detect_deploy_artifacts] are tests on the files
    of the walk. *)
Lemma deploy_artifacts_fold (repo_parts_ : list string) (l : list Entry)
    (a b c : bool) :
  fold_left
    (fun '(has_dockerfile, has_docker_compose, has_k8s) file_path =>
       let name := Py.lower (Path.name (e_parts file_path)) in
       let has_dockerfile :=
         if String.eqb name "dockerfile"
            || Py.startswith "dockerfile." name
         then true else has_dockerfile in
       let has_docker_compose :=
         if Py.contains name ["docker-compose.yml"; "docker-compose.yaml"]
         then true else has_docker_compose in
       let has_k8s :=
         if (Py.endswith ".yml" name || Py.endswith ".yaml" name)
            && existsb
                 (fun part =>
                    Py.contains part ["k8s"; "kubernetes"; "manifests"])
                 (repo_parts_ ++ e_parts file_path)
         then true else has_k8s in
       (has_dockerfile, has_docker_compose, has_k8s))
    l (a, b, c)
  = (a || existsb
            (fun f =>
               let name := Py.lower (Path.name (e_parts f)) in
               String.eqb name "dockerfile"
               || Py.startswith "dockerfile." name)
            l,
     b || existsb
            (fun f =>
               Py.contains (Py.lower (Path.name (e_parts f)))
                 ["docker-compose.yml"; "docker-compose.yaml"])
            l,
     c || existsb
            (fun f =>
               let name := Py.lower (Path.name (e_parts f)) in
               (Py.endswith ".yml" name || Py.endswith ".yaml" name)
               && existsb
                    (fun part =>
                       Py.contains part ["k8s"; "kubernetes"; "manifests"])
                    (repo_parts_ ++ e_parts f))
            l).
Proof.
  revert a b c. induction l as [|f r IH]; intros a b c.
  - cbn [fold_left existsb]. now rewrite !orb_false_r.
  - cbn [fold_left existsb]. rewrite IH. cbv zeta.
    destruct (String.eqb _ "dockerfile" || Py.startswith "dockerfile." _),
      (Py.contains _ ["docker-compose.yml"; "docker-compose.yaml"]),
      ((Py.endswith ".yml" _ || Py.endswith ".yaml" _) && existsb _ _);
      cbn [orb]; rewrite ?orb_true_r; reflexivity.
Qed.

Section PermutationInvariance.

Variable json_loads : string -> option Json.
Variable str_other : Json -> string.
Variables r1 r2 : Repo.
Hypothesis Hparts : repo_parts r1 = repo_parts r2.
Hypothesis Hperm : Permutation (entries r1) (entries r2).












End PermutationInvariance.

(** ** Loops that only add members

    A loop whose body adds to a collection members that depend on the
    element alone gives the same members in whatever order the elements
    come. *)

Lemma fold_left_additive (S A : Type) (proj : S -> list string)
    (step : S -> A -> S) (adds : A -> string -> Prop) :
  (forall s a x, In x (proj (step s a)) <-> In x (proj s) \/ adds a x) ->
  forall l s x,
    In x (proj (fold_left step l s))
    <-> In x (proj s) \/ exists a, In a l /\ adds a x.
Proof.
  intros Hstep. induction l as [|a l IH]; intros s x; cbn [fold_left].
  - split; [auto | intros [H | [a [[] _]]]; exact H].
  - rewrite IH, Hstep. split.
    + intros [[H | H] | [b [Hb H]]]; [now left | right .. ].
      * exists a. split; [now left | exact H].
      * exists b. split; [now right | exact H].
    + intros [H | [b [[<- | Hb] H]]].
      * left. now left.
      * left. now right.
      * right. now exists b.
Qed.


Lemma fold_exc_additive (S A : Type) (proj : S -> list string)
    (step : S -> A -> Exc S) (raises : A -> Prop)
    (adds : A -> string -> Prop) :
  (forall s a, step s a = None <-> raises a) ->
  (forall s a s' x, step s a = Some s' ->
     (In x (proj s') <-> In x (proj s) \/ adds a x)) ->
  forall l s,
    match fold_exc step l s with
    | None => exists a, In a l /\ raises a
    | Some s' =>
        (forall a, In a l -> ~ raises a)
        /\ forall x, In x (proj s')
                     <-> In x (proj s) \/ exists a, In a l /\ adds a x
    end.
Proof.
  intros Hraise Hstep.
  induction l as [|a l IH]; intros s; cbn [fold_exc]; unfold bind.
  - split; [intros a [] |].
    intros x. split; [auto | intros [H | [a [[] _]]]; exact H].
  - destruct (step s a) as [s1 |] eqn:E.
    + specialize (IH s1).
      assert (Hna : ~ raises a).
      { intros Hr. apply Hraise with (s := s) in Hr. congruence. }
      destruct (fold_exc step l s1) as [s' |].
      * destruct IH as [Hno IH]. split.
        -- intros b [<- | Hb]; [exact Hna | now apply Hno].
        -- intros x. rewrite IH, (Hstep _ _ _ x E). split.
           ++ intros [[H | H] | [b [Hb H]]]; [now left | right .. ].
              ** exists a. split; [now left | exact H].
              ** exists b. split; [now right | exact H].
           ++ intros [H | [b [[<- | Hb] H]]].
              ** left. now left.
              ** left. now right.
              ** right. now exists b.
      * destruct IH as [b [Hb H]]. exists b. split; [now right | exact H].
    + exists a. split; [now left |]. now apply (Hraise s).
Qed.


(** ** The frameworks do not depend on the order of the walk *)

Lemma node_frameworks_spec (frameworks : list string) (data : Json) :
  match node_frameworks frameworks data with
  | None => node_frameworks [] data = None
  | Some s' =>
      exists s0, node_frameworks [] data = Some s0
                 /\ forall x, In x s' <-> In x frameworks \/ In x s0
  end.
Proof.
  unfold node_frameworks, bind.
  destruct (JsonPy.get data "dependencies") as [deps0 |]; [| reflexivity].
  destruct (JsonPy.get data "devDependencies") as [dev0 |]; [| reflexivity].
  destruct (JsonPy.items (JsonPy.or_empty deps0)) as [di |]; [| reflexivity].
  destruct (JsonPy.items (JsonPy.or_empty dev0)) as [vi |]; [| reflexivity].
  cbv zeta. eexists. split; [reflexivity |].
  intros x. rewrite !if_set_add_In. cbn [In]. tauto.
Qed.

Lemma python_framework_step_adds (frameworks : list string) (f : Entry)
    (x : string) :
  let step := fun (frameworks : list string) (f : Entry) =>
    match e_text f with
    | None => frameworks
    | Some t =>
        let content := Py.lower t in
        let frameworks :=
          if Py.str_contains "fastapi" content
          then Py.set_add "fastapi" frameworks else frameworks in
        let frameworks :=
          if Py.str_contains "flask" content
          then Py.set_add "flask" frameworks else frameworks in
        if Py.str_contains "django" content
        then Py.set_add "django" frameworks else frameworks
    end in
  In x (step frameworks f) <-> In x frameworks \/ In x (step [] f).
Proof.
  cbv zeta beta. destruct (e_text f) as [t |].
  - rewrite !if_set_add_In. cbn [In]. tauto.
  - cbn [In]. tauto.
Qed.

Lemma spring_step_adds (frameworks : list string) (f : Entry) (x : string) :
  let step := fun (frameworks : list string) (f : Entry) =>
    match e_text f with
    | None => frameworks
    | Some t =>
        if has_spring_marker (Py.lower t)
        then Py.set_add "spring" frameworks else frameworks
    end in
  In x (step frameworks f) <-> In x frameworks \/ In x (step [] f).
Proof.
  cbv zeta beta. destruct (e_text f) as [t |].
  - rewrite !if_set_add_In. cbn [In]. tauto.
  - cbn [In]. tauto.
Qed.

Lemma node_framework_step_raises (json_loads : string -> option Json)
    (frameworks : list string) (pkg : Entry) :
  let step := fun (frameworks : list string) (pkg : Entry) =>
    match load_package_json json_loads pkg with
    | None => Some frameworks
    | Some data => node_frameworks frameworks data
    end in
  step frameworks pkg = None <-> step [] pkg = None.
Proof.
  cbv zeta beta. destruct (load_package_json json_loads pkg) as [data |].
  - pose proof (node_frameworks_spec frameworks data) as H.
    destruct (node_frameworks frameworks data) as [s' |].
    + destruct H as [s0 [H _]]. rewrite H. split; discriminate.
    + rewrite H. tauto.
  - split; discriminate.
Qed.

Lemma node_framework_step_adds (json_loads : string -> option Json)
    (frameworks : list string) (pkg : Entry) (s' : list string)
    (x : string) :
  let step := fun (frameworks : list string) (pkg : Entry) =>
    match load_package_json json_loads pkg with
    | None => Some frameworks
    | Some data => node_frameworks frameworks data
    end in
  step frameworks pkg = Some s' ->
  (In x s' <-> In x frameworks
               \/ exists s0, step [] pkg = Some s0 /\ In x s0).
Proof.
  cbv zeta beta. destruct (load_package_json json_loads pkg) as [data |].
  - pose proof (node_frameworks_spec frameworks data) as H. intros E.
    rewrite E in H. destruct H as [s0 [H0 H]]. rewrite H, H0. split.
    + intros [Hx | Hx]; [now left | right]. now exists s0.
    + intros [Hx | [s1 [Hs Hx]]]; [now left | right].
      apply some_inj in Hs. now subst.
  - intros E. apply some_inj in E. subst s'. split; [now left |].
    intros [Hx | [s0 [Hs Hx]]]; [exact Hx |].
    apply some_inj in Hs. subst. destruct Hx.
Qed.

Section FrameworksInvariance.

Variable json_loads : string -> option Json.
Variables r1 r2 : Repo.
Hypothesis Hperm : Permutation (entries r1) (entries r2).


End FrameworksInvariance.

(** ** The keys of the framework versions do not depend on the order of
    the walk *)

Lemma In_keys_get (V : Type) (d : Dict.t V) (k : string) :
  In k (Dict.keys d) <-> Dict.get d k <> None.
Proof.
  rewrite <- mem_In_keys, mem_get. split.
  - intros [v H]. congruence.
  - destruct (Dict.get d k) as [v |]; [now exists v | congruence].
Qed.

Lemma keys_set_In (V : Type) (d : Dict.t V) (k x : string) (v : V) :
  In x (Dict.keys (Dict.set d k v)) <-> In x (Dict.keys d) \/ x = k.
Proof.
  rewrite keys_set. destruct (Dict.mem k d) eqn:E.
  - apply mem_In_keys in E. split; [now left |].
    intros [H | ->]; assumption.
  - rewrite in_app_iff. cbn [In]. intuition congruence.
Qed.

Lemma keys_set_if_absent_In (V : Type) (d : Dict.t V) (k x : string)
    (v : V) :
  In x (Dict.keys (Dict.set_if_absent d k v)) <-> In x (Dict.keys d) \/ x = k.
Proof.
  unfold Dict.set_if_absent. destruct (Dict.mem k d) eqn:E.
  - apply mem_In_keys in E. split; [now left |].
    intros [H | ->]; assumption.
  - apply keys_set_In.
Qed.

Lemma keys_fold_set_if_absent (V : Type) (c acc : Dict.t V) (x : string) :
  In x (Dict.keys
          (fold_left (fun acc '(k, v) => Dict.set_if_absent acc k v) c acc))
  <-> In x (Dict.keys acc) \/ In x (Dict.keys c).
Proof.
  revert acc. induction c as [|[k v] c IH]; intros acc; cbn [fold_left].
  - cbn [Dict.keys map In]. tauto.
  - rewrite IH, keys_set_if_absent_In. cbn [Dict.keys map fst In].
    intuition congruence.
Qed.




Section CollectorsInvariance.

Variable json_loads : string -> option Json.
Variable str_other : Json -> string.
Variables r1 r2 : Repo.
Hypothesis Hperm : Permutation (entries r1) (entries r2).















Lemma node_section_keys
    (section_deps : list (string * Json)) (node_deps : Dict.t string)
    (x : string) :
  In x (Dict.keys
          (fold_left
             (fun node_deps '(name, ver) =>
                Dict.set_if_absent node_deps (Py.lower name)
                  (json_str str_other ver))
             section_deps node_deps))
  <-> In x (Dict.keys node_deps)
      \/ exists nv, In nv section_deps /\ x = Py.lower (fst nv).
Proof.
  apply (@fold_left_additive (Dict.t string) (string * Json)
           (@Dict.keys string)
           (fun node_deps '(name, ver) =>
              Dict.set_if_absent node_deps (Py.lower name)
                (json_str str_other ver))
           (fun nv x => x = Py.lower (fst nv))).
  intros s [name ver] y. apply keys_set_if_absent_In.
Qed.

Lemma collect_node_file_spec
    (st : Dict.t string * Dict.t string) (data : Json) :
  match collect_node_file str_other st data with
  | None => collect_node_file str_other ([], []) data = None
  | Some st' =>
      exists st0,
        collect_node_file str_other ([], []) data = Some st0
        /\ forall x, In x (Dict.keys (fst st'))
                     <-> In x (Dict.keys (fst st))
                         \/ In x (Dict.keys (fst st0))
  end.
Proof.
  destruct st as [nd lv]. unfold collect_node_file.
  cbn [fold_exc]. unfold bind.
  destruct (JsonPy.get data "dependencies") as [v1 |]; [| reflexivity].
  destruct (JsonPy.items (JsonPy.or_empty v1)) as [sd1 |]; [| reflexivity].
  destruct (JsonPy.get data "devDependencies") as [v2 |]; [| reflexivity].
  destruct (JsonPy.items (JsonPy.or_empty v2)) as [sd2 |]; [| reflexivity].
  destruct (JsonPy.get data "engines") as [e0 |]; [| reflexivity].
  destruct (JsonPy.get (JsonPy.or_empty e0) "node") as [e |];
    [| reflexivity].
  eexists. split; [reflexivity |]. cbn [fst]. intros x.
  rewrite !node_section_keys. cbn [Dict.keys map In]. tauto.
Qed.

Lemma collect_node_step_raises (st : Dict.t string * Dict.t string)
    (pkg : Entry) :
  let step := fun (st : Dict.t string * Dict.t string) (pkg : Entry) =>
    match load_package_json json_loads pkg with
    | None => Some st
    | Some data => collect_node_file str_other st data
    end in
  step st pkg = None <-> step ([], []) pkg = None.
Proof.
  cbv zeta beta. destruct (load_package_json json_loads pkg) as [data |].
  - pose proof (collect_node_file_spec st data) as H.
    destruct (collect_node_file str_other st data) as [s' |].
    + destruct H as [s0 [H _]]. rewrite H. split; discriminate.
    + rewrite H. tauto.
  - split; discriminate.
Qed.

Lemma collect_node_step_adds (st st' : Dict.t string * Dict.t string)
    (pkg : Entry) (x : string) :
  let step := fun (st : Dict.t string * Dict.t string) (pkg : Entry) =>
    match load_package_json json_loads pkg with
    | None => Some st
    | Some data => collect_node_file str_other st data
    end in
  step st pkg = Some st' ->
  (In x (Dict.keys (fst st'))
   <-> In x (Dict.keys (fst st))
       \/ exists s0, step ([], []) pkg = Some s0
                     /\ In x (Dict.keys (fst s0))).
Proof.
  cbv zeta beta. destruct (load_package_json json_loads pkg) as [data |].
  - pose proof (collect_node_file_spec st data) as H. intros E.
    rewrite E in H. destruct H as [s0 [H0 H]]. rewrite H, H0. split.
    + intros [Hx | Hx]; [now left | right]. now exists s0.
    + intros [Hx | [s1 [Hs Hx]]]; [now left | right].
      apply some_inj in Hs. now subst.
  - intros E. apply some_inj in E. subst st'. split; [now left |].
    intros [Hx | [s0 [Hs Hx]]]; [exact Hx |].
    apply some_inj in Hs. subst. destruct Hx.
Qed.




End CollectorsInvariance.

Lemma to_set_In (l : list string) (x : string) :
  In x (Py.to_set l) <-> In x l.
Proof.
  unfold Py.to_set.
  rewrite (@fold_left_additive (list string) string (fun s => s)
             (fun s x => Py.set_add x s) (fun a x => x = a)).
  - cbn [In]. split.
    + intros [[] | [a [Ha ->]]]. exact Ha.
    + intros H. right. now exists x.
  - intros s a y. rewrite set_add_In. tauto.
Qed.


Lemma sorted_set_sorted (l : list string) :
  NoDup l -> sorted_set (Py.sorted l).
Proof.
  intros H. split; [apply sorted_sorted | now apply sorted_NoDup].
Qed.

(** ** What does not depend on the order of the walk *)


(* ===================================================================== *)
(** * More of the pipeline synthesizer                                     *)
(* ===================================================================== *)

(** Every stage that [build_pipeline] asks for is one of the canonical
    order. *)
Lemma requested_stages_canonical (stack : StackInfo) (name : string) :
  In name (requested_stages stack) -> In name canonical_order.
Proof.
  unfold requested_stages, canonical_order.
  destruct (Py.contains "python" (languages stack)), (_has_node stack),
    (Py.contains "go" (languages stack)), (java_with_maven stack),
    (nonempty (dockerfiles stack) || has_dockerfile stack);
    cbn [app orb In]; intuition.
Qed.

Lemma requested_stage_wanted (stack : StackInfo) (name : string) :
  In name canonical_order ->
  Py.contains name (Py.fromkeys (requested_stages stack))
  = stage_wanted stack name.
Proof.
  intros Hin.
  rewrite (contains_ext _ _ (fromkeys_In (requested_stages stack))).
  unfold requested_stages, stage_wanted, canonical_order in *. cbv zeta.
  destruct (Py.contains "python" (languages stack)), (_has_node stack),
    (Py.contains "go" (languages stack)), (java_with_maven stack),
    (nonempty (dockerfiles stack) || has_dockerfile stack);
    cbn [In] in Hin;
    repeat (destruct Hin as [<- | Hin]; [reflexivity |]); destruct Hin.
Qed.

Lemma filter_ext_in_list (A : Type) (p q : A -> bool) (l : list A) :
  (forall x, In x l -> p x = q x) -> filter p l = filter q l.
Proof.
  induction l as [|x r IH]; intros H; cbn [filter]; [reflexivity |].
  rewrite (H x (or_introl eq_refl)), IH; [reflexivity |].
  intros y Hy. apply H. now right.
Qed.

(** The stages of [build_pipeline] in closed form. *)
Lemma stages_of_build_pipeline (stack : StackInfo) :
  stages (fst (build_pipeline stack))
  = filter (stage_wanted stack) canonical_order.
Proof.
  rewrite build_pipeline_eq. cbn [fst stages].
  rewrite canonical_stages_spec.
  rewrite (@filter_none _ _ (Py.fromkeys (Py.fromkeys _))).
  - rewrite app_nil_r. apply filter_ext_in_list.
    intros name Hin. now apply requested_stage_wanted.
  - intros name Hin. rewrite !fromkeys_In in Hin.
    apply requested_stages_canonical in Hin.
    apply contains_In in Hin. now rewrite Hin.
Qed.


(** X2. Every pipeline ends with the deploy stage and with the job
    [deploy_placeholder]: deploy is the last stage and no other stage is
    named deploy; [deploy_placeholder] is the last job and no job before it
    is in the deploy stage. *)
Theorem build_pipeline_ends_with_deploy (stack : StackInfo) :
  let p := fst (build_pipeline stack) in
  (exists before,
      stages p = before ++ ["deploy"] /\ ~ In "deploy" before)
  /\ (exists before,
         jobs p = before ++ [deploy_placeholder]
         /\ forall j, In j before -> job_stage j <> "deploy").
Proof.
  cbv zeta. split.
  - rewrite stages_of_build_pipeline.
    exists (filter (stage_wanted stack)
              ["lint"; "test"; "quality"; "build"; "docker"]).
    split.
    + change canonical_order
        with (["lint"; "test"; "quality"; "build"; "docker"] ++ ["deploy"]).
      now rewrite filter_app.
    + intros Hin. apply filter_In in Hin. destruct Hin as [Hin _].
      cbn [In] in Hin. intuition discriminate.
  - rewrite build_pipeline_eq. cbn [fst jobs].
    exists (ecosystem_jobs stack ++ docker_stage_jobs stack). split.
    + unfold emitted_jobs. now rewrite app_assoc.
    + intros j Hin Hs.
      pose proof (deploy_stage_filter stack) as Hf.
      unfold emitted_jobs in Hf. rewrite app_assoc, filter_app in Hf.
      change (filter (fun j0 => String.eqb (job_stage j0) "deploy")
                [deploy_placeholder]) with [deploy_placeholder] in Hf.
      assert (Hj : In j (filter (fun j0 => String.eqb (job_stage j0) "deploy")
                           (ecosystem_jobs stack ++ docker_stage_jobs stack))).
      { apply filter_In. split; [exact Hin |]. rewrite Hs. reflexivity. }
      destruct (filter _ (ecosystem_jobs stack ++ docker_stage_jobs stack))
        as [|x r]; [destruct Hj |].
      apply (f_equal (@length Job)) in Hf. cbn [length app] in Hf.
      rewrite length_app in Hf. cbn [length] in Hf. lia.
Qed.



Lemma docker_stage_jobs_stage (stack : StackInfo) (j : Job) :
  In j (docker_stage_jobs stack) -> job_stage j = "docker".
Proof.
  unfold docker_stage_jobs. destruct (dockerfiles stack) as [|df dfs].
  - destruct (has_dockerfile stack); [| intros []].
    intros [<- | []]. reflexivity.
  - intros Hin. apply in_map_iff in Hin. destruct Hin as [d [<- _]].
    reflexivity.
Qed.

Lemma docker_stage_jobs_name (stack : StackInfo) (j : Job) :
  In j (docker_stage_jobs stack) ->
  Py.startswith "docker_build" (job_name j) = true.
Proof.
  unfold docker_stage_jobs. destruct (dockerfiles stack) as [|df dfs].
  - destruct (has_dockerfile stack); [| intros []].
    intros [<- | []]. reflexivity.
  - intros Hin. apply in_map_iff in Hin. destruct Hin as [d [<- _]].
    reflexivity.
Qed.

(** X4. The quality stage, its jobs and its warning come together: exactly
    for Java with Maven or a Node stack.  [java_sonar] is emitted for Java
    with Maven, [node_sonar] for a Node stack, in that order, and nothing
    else is in the quality stage. *)
Theorem quality_stage_jobs_warning (stack : StackInfo) :
  let p := fst (build_pipeline stack) in
  let warnings := snd (build_pipeline stack) in
  let wanted := java_with_maven stack || _has_node stack in
  Py.contains "quality" (stages p) = wanted
  /\ filter (fun j => String.eqb (job_stage j) "quality") (jobs p)
     = (if java_with_maven stack then [java_sonar] else [])
       ++ (if _has_node stack then [node_sonar] else [])
  /\ Py.contains quality_warning warnings = wanted.
Proof.
  cbv zeta. split; [| split].
  - rewrite stages_of_build_pipeline. unfold stage_wanted, canonical_order.
    cbv zeta.
    destruct (Py.contains "python" (languages stack)), (_has_node stack),
      (Py.contains "go" (languages stack)), (java_with_maven stack),
      (nonempty (dockerfiles stack) || has_dockerfile stack); reflexivity.
  - rewrite build_pipeline_eq. cbn [fst jobs]. unfold emitted_jobs.
    rewrite !filter_app.
    rewrite (@filter_none _ _ (docker_stage_jobs stack)).
    + unfold ecosystem_jobs.
      destruct (Py.contains "python" (languages stack)), (_has_node stack),
        (Py.contains "go" (languages stack)), (java_with_maven stack);
        reflexivity.
    + intros j Hin. now rewrite (docker_stage_jobs_stage stack j Hin).
  - rewrite build_pipeline_eq. cbn [snd]. unfold emitted_warnings.
    rewrite !contains_app.
    destruct (java_with_maven stack || _has_node stack).
    + reflexivity.
    + destruct (dockerfiles stack), (has_dockerfile stack),
        (negb _); reflexivity.
Qed.

(** X5. The jobs of Node: for a Node stack the four jobs [node_lint],
    [node_tests], [node_build] and [node_sonar], in that order and all for
    the one package manager that [_node_pm] picks, yarn before pnpm before
    npm; for any other stack none. *)
Theorem node_jobs_one_manager (stack : StackInfo) :
  let p := fst (build_pipeline stack) in
  let pm := _node_pm stack in
  filter (fun j => Py.startswith "node_" (job_name j)) (jobs p)
  = (if _has_node stack
     then [node_lint pm; node_tests pm; node_build pm; node_sonar]
     else [])
  /\ pm = (if Py.contains "yarn" (package_managers stack) then "yarn"
           else if Py.contains "pnpm" (package_managers stack) then "pnpm"
           else "npm")
  /\ (forall j,
         In j [node_lint pm; node_tests pm; node_build pm] ->
         hd "" (job_script j) = install_cmd pm).
Proof.
  cbv zeta. split; [| split].
  - rewrite build_pipeline_eq. cbn [fst jobs]. unfold emitted_jobs.
    rewrite !filter_app.
    rewrite (@filter_none _ _ (docker_stage_jobs stack)).
    + unfold ecosystem_jobs.
      destruct (Py.contains "python" (languages stack)), (_has_node stack),
        (Py.contains "go" (languages stack)), (java_with_maven stack);
        reflexivity.
    + intros j Hin. pose proof (docker_stage_jobs_name stack j Hin) as H.
      destruct (job_name j) as [|c s]; [discriminate H |].
      cbn [Py.startswith] in *.
      destruct (Ascii.eqb "n" c) eqn:E; [| reflexivity].
      apply Ascii.eqb_eq in E. subst c. discriminate H.
  - reflexivity.
  - intros j [<- | [<- | [<- | []]]]; reflexivity.
Qed.

(* ===================================================================== *)
(** * The summary of a pipeline                                            *)
(* ===================================================================== *)

Lemma generated_description_not_empty (a b c : string) :
  "Сгенерирован пайплайн из " +++ a +++ " стадий и " +++ b +++ " задач: "
  +++ "стадии " +++ c +++ "." <> empty_pipeline_description.
Proof.
  intros H.
  apply (f_equal (Py.startswith "Пайплайн")) in H.
  vm_compute in H. discriminate H.
Qed.

(** X6. The summary counts what it lists, and its description is the text for
    an empty pipeline exactly when the pipeline has neither a stage nor a
    job: a pipeline with jobs and no stage, or with stages and no job, is
    described by its counts. *)
Theorem summarize_pipeline_empty (p : Pipeline) :
  let s := summarize_pipeline p in
  stages_count s = length (summary_stages s)
  /\ jobs_count s = length (job_names s)
  /\ length (job_names s) = length (jobs p)
  /\ (description s = empty_pipeline_description
      <-> stages p = [] /\ jobs p = []).
Proof.
  cbv zeta. unfold summarize_pipeline.
  cbn [stages_count jobs_count summary_stages job_names description].
  split; [reflexivity |]. split; [reflexivity |].
  split; [apply length_map |].
  rewrite length_map.
  destruct (stages p) as [|st sts], (jobs p) as [|j js];
    cbn [length Nat.eqb andb].
  - split; [intros _; now split | reflexivity].
  - split; [intros H | intros [_ H]; discriminate H].
    now apply generated_description_not_empty in H.
  - split; [intros H | intros [H _]; discriminate H].
    now apply generated_description_not_empty in H.
  - split; [intros H | intros [H _]; discriminate H].
    now apply generated_description_not_empty in H.
Qed.

Lemma last_app_one (A : Type) (l : list A) (x d : A) :
  last (l ++ [x]) d = x.
Proof.
  induction l as [|y r IH]; [reflexivity |].
  cbn [app]. destruct r as [|z r']; [reflexivity |]. exact IH.
Qed.

(** X7. The summary of a pipeline of [build_pipeline] never is the one of an
    empty pipeline: it counts between one and six stages and at least one
    job, its last stage is deploy and its last job name is
    deploy_placeholder. *)
Theorem summarize_built_pipeline (stack : StackInfo) :
  let s := summarize_pipeline (fst (build_pipeline stack)) in
  1 <= stages_count s <= 6
  /\ 1 <= jobs_count s
  /\ description s <> empty_pipeline_description
  /\ last (summary_stages s) "" = "deploy"
  /\ last (job_names s) "" = "deploy_placeholder".
Proof.
  cbv zeta.
  pose proof (stages_of_build_pipeline stack) as Hst.
  assert (Hlast : exists before,
             stages (fst (build_pipeline stack)) = before ++ ["deploy"]).
  { rewrite Hst.
    exists (filter (stage_wanted stack)
              ["lint"; "test"; "quality"; "build"; "docker"]).
    change canonical_order
      with (["lint"; "test"; "quality"; "build"; "docker"] ++ ["deploy"]).
    now rewrite filter_app. }
  assert (Hjobs : exists before,
             jobs (fst (build_pipeline stack))
             = before ++ [deploy_placeholder]).
  { rewrite build_pipeline_eq. cbn [fst jobs]. unfold emitted_jobs.
    exists (ecosystem_jobs stack ++ docker_stage_jobs stack).
    now rewrite app_assoc. }
  destruct Hlast as [sb Hsb], Hjobs as [jb Hjb].
  unfold summarize_pipeline.
  cbn [stages_count jobs_count summary_stages job_names description].
  rewrite length_map.
  split; [split |].
  - rewrite Hsb, length_app. cbn [length]. lia.
  - rewrite Hst. pose proof (filter_length_le (stage_wanted stack)
                               canonical_order) as H.
    exact H.
  - split; [rewrite Hjb, length_app; cbn [length]; lia |].
    split.
    + rewrite Hsb, length_app. cbn [length].
      replace (Nat.eqb (length sb + 1) 0) with false
        by (symmetry; apply Nat.eqb_neq; lia).
      cbn [andb]. apply generated_description_not_empty.
    + split.
      * rewrite Hsb. apply last_app_one.
      * rewrite Hjb, map_app. cbn [map]. apply last_app_one.
Qed.

(* ===================================================================== *)
(** * More of the stack analyzer                                           *)
(* ===================================================================== *)

(** ** When the analysis raises *)

Lemma node_frameworks_raises (frameworks : list string) (data : Json) :
  node_frameworks frameworks data = None -> package_json_ok data = false.
Proof.
  unfold node_frameworks, package_json_ok, dict_or_falsy, bind.
  destruct data as [| b | t z | s | l | d]; try reflexivity.
  cbn [JsonPy.get].
  destruct (JsonPy.or_empty (Dict.get d "dependencies"));
    cbn [JsonPy.items andb]; try reflexivity.
  destruct (JsonPy.or_empty (Dict.get d "devDependencies"));
    cbn [JsonPy.items andb]; try reflexivity.
  cbv zeta. discriminate.
Qed.

Lemma collect_node_file_raises (str_other : Json -> string)
    (st : Dict.t string * Dict.t string) (data : Json) :
  collect_node_file str_other st data = None
  <-> package_json_ok data = false.
Proof.
  destruct st as [nd lv].
  unfold collect_node_file, package_json_ok, dict_or_falsy.
  cbn [fold_exc]. unfold bind.
  destruct data as [| b | t z | s | l | d];
    try (split; reflexivity).
  cbn [JsonPy.get].
  destruct (JsonPy.or_empty (Dict.get d "dependencies"));
    cbn [JsonPy.items andb]; try (split; reflexivity).
  destruct (JsonPy.or_empty (Dict.get d "devDependencies"));
    cbn [JsonPy.items andb]; try (split; reflexivity).
  destruct (JsonPy.or_empty (Dict.get d "engines"));
    cbn [JsonPy.get andb]; try (split; reflexivity).
  split; discriminate.
Qed.

Lemma detect_frameworks_raises (json_loads : string -> option Json)
    (repo : Repo) (languages : list string) :
  _detect_frameworks json_loads repo languages = None ->
  exists pkg data,
    In pkg (filter (is_named "package.json") (_iter_files repo))
    /\ load_package_json json_loads pkg = Some data
    /\ package_json_ok data = false.
Proof.
  unfold _detect_frameworks, bind. rewrite group_project_files_eq.
  cbv zeta. cbn [g_requirements g_pyproject g_package_json g_pom g_gradle].
  match goal with
  | |- match fold_exc ?step ?l ?init with _ => _ end = None -> _ =>
      pose proof
        (@fold_exc_additive (list string) Entry (fun s => s) step
           (fun pkg => step [] pkg = None)
           (fun pkg x => exists s0, step [] pkg = Some s0 /\ In x s0)
           (fun s a => @node_framework_step_raises json_loads s a)
           (fun s a s' x => @node_framework_step_adds json_loads s a s' x)
           l init) as H;
      destruct (fold_exc step l init) as [fw |]; [discriminate |]
  end.
  intros _. destruct H as [pkg [Hin Hr]]. cbv beta in Hr.
  destruct (load_package_json json_loads pkg) as [data |] eqn:El;
    [| discriminate Hr].
  exists pkg, data. split; [exact Hin |]. split; [exact El |].
  now apply node_frameworks_raises in Hr.
Qed.

Lemma collect_node_raises (json_loads : string -> option Json)
    (str_other : Json -> string) (repo : Repo) :
  _collect_node json_loads str_other repo = None
  <-> exists pkg data,
        In pkg (filter (is_named "package.json") (_iter_files repo))
        /\ load_package_json json_loads pkg = Some data
        /\ package_json_ok data = false.
Proof.
  unfold _collect_node, bind. rewrite group_project_files_eq.
  cbv zeta. cbn [g_package_json].
  match goal with
  | |- match fold_exc ?step ?l ?init with _ => _ end = None <-> _ =>
      pose proof
        (@fold_exc_additive (Dict.t string * Dict.t string) Entry
           (fun st => Dict.keys (fst st)) step
           (fun pkg => step init pkg = None)
           (fun pkg x => exists st0, step init pkg = Some st0
                                     /\ In x (Dict.keys (fst st0)))
           (fun st a => @collect_node_step_raises json_loads str_other st a)
           (fun st a st' x =>
              @collect_node_step_adds json_loads str_other st st' a x)
           l init) as H;
      destruct (fold_exc step l init) as [[nd lv] |]
  end.
  - destruct H as [Hno _]. split.
    + destruct (nonempty nd); discriminate.
    + intros [pkg [data [Hin [Hl Hbad]]]]. exfalso.
      apply (Hno pkg Hin). cbv beta. rewrite Hl.
      now apply collect_node_file_raises.
  - split; [intros _ | reflexivity].
    destruct H as [pkg [Hin Hr]]. cbv beta in Hr.
    destruct (load_package_json json_loads pkg) as [data |] eqn:El;
      [| discriminate Hr].
    exists pkg, data. split; [exact Hin |]. split; [exact El |].
    now apply collect_node_file_raises in Hr.
Qed.

(** X8. The analysis raises exactly when the path exists and the walk meets a
    [package.json] that [json.loads] reads into a document that is not an
    object whose [dependencies], [devDependencies] and [engines] are
    missing, falsy or objects: only [json.loads] is under the [try]. *)
Theorem analyze_stack_raises_iff (json_loads : string -> option Json)
    (str_other : Json -> string) (repo : Repo) :
  analyze_stack json_loads str_other repo = None
  <-> repo_exists repo = true
      /\ exists pkg data,
           In pkg (_iter_files repo)
           /\ is_named "package.json" pkg = true
           /\ load_package_json json_loads pkg = Some data
           /\ package_json_ok data = false.
Proof.
  assert (Hbad :
    (exists pkg data,
        In pkg (filter (is_named "package.json") (_iter_files repo))
        /\ load_package_json json_loads pkg = Some data
        /\ package_json_ok data = false)
    <-> exists pkg data,
          In pkg (_iter_files repo)
          /\ is_named "package.json" pkg = true
          /\ load_package_json json_loads pkg = Some data
          /\ package_json_ok data = false).
  { split; intros [pkg [data [Hin H]]]; exists pkg, data.
    - apply filter_In in Hin. tauto.
    - split; [apply filter_In |]; tauto. }
  destruct (repo_exists repo) eqn:E.
  - rewrite analyze_stack_eq by assumption. cbv zeta. rewrite <- Hbad.
    pose proof (@detect_frameworks_raises json_loads repo
                  (fst (_detect_languages repo))) as Hf.
    pose proof (collect_node_raises json_loads str_other repo) as Hn.
    rewrite detect_dependencies_unfold.
    destruct (_detect_frameworks json_loads repo _) as [fw |].
    + destruct (_collect_node json_loads str_other repo) as [c |].
      * destruct (merge_collected _ _) as [[deps lv] fv].
        split; [discriminate |]. intros [_ H]. now apply Hn in H.
      * split; [intros _ | reflexivity]. split; [reflexivity |].
        now apply Hn.
    + split; [intros _ | reflexivity]. split; [reflexivity |].
      now apply Hf.
  - unfold analyze_stack. rewrite E. cbn [negb].
    split; [discriminate | intros [H _]; discriminate H].
Qed.

(** ** The package manager of a [package.json] *)

Lemma node_signal_In (repo : Repo) (x : string) :
  In x ["yarn"; "pnpm"; "npm"] ->
  (In x (_detect_package_managers repo)
   <-> exists pkg,
         In pkg (filter (is_named "package.json") (_iter_files repo))
         /\ node_pm_of repo pkg = x).
Proof.
  intros Hx. rewrite detect_package_managers_In.
  unfold package_manager_signals. rewrite group_project_files_eq.
  cbv zeta.
  cbn [g_requirements g_pyproject g_pipfile g_package_json g_pom g_gradle
       g_go_mod].
  rewrite !in_app_iff, in_map_iff.
  assert (Hother : forall (c : bool) (y : string),
             In y ["pip"; "poetry"; "pipenv"; "maven"; "gradle"; "go-mod"] ->
             ~ In x (if c then [y] else [])).
  { intros c y Hy Hin. destruct c; [| destruct Hin].
    destruct Hin as [<- | []]. cbn [In] in Hx, Hy.
    intuition (subst; discriminate). }
  split.
  - intros [H | [H | [H | [H | [H | [H | H]]]]]];
      try (exfalso; revert H; apply Hother; cbn [In]; tauto).
    destruct H as [pkg [Heq Hin]]. now exists pkg.
  - intros [pkg [Hin Heq]]. right. right. right. left. now exists pkg.
Qed.

(** X9. The Node package managers.  yarn is detected when a [package.json]
    of the walk has a [yarn.lock] beside it; pnpm when one has a
    [pnpm-lock.yaml] and no [yarn.lock] beside it; npm when one has
    neither: whether there is a [package-lock.json] changes nothing. *)
Theorem node_package_manager_rule (repo : Repo) :
  let pms := _detect_package_managers repo in
  let beside (lock : string) (pkg : Entry) :=
    path_exists repo (Path.parent (e_parts pkg) ++ [lock]) in
  let met (pkg : Entry) :=
    In pkg (_iter_files repo) /\ is_named "package.json" pkg = true in
  (In "yarn" pms <-> exists pkg, met pkg /\ beside "yarn.lock" pkg = true)
  /\ (In "pnpm" pms
      <-> exists pkg,
            met pkg /\ beside "yarn.lock" pkg = false
            /\ beside "pnpm-lock.yaml" pkg = true)
  /\ (In "npm" pms
      <-> exists pkg,
            met pkg /\ beside "yarn.lock" pkg = false
            /\ beside "pnpm-lock.yaml" pkg = false).
Proof.
  cbv zeta.
  assert (Hy : forall pkg,
             node_pm_of repo pkg = "yarn"
             <-> path_exists repo (Path.parent (e_parts pkg) ++ ["yarn.lock"])
                 = true).
  { intros pkg. unfold node_pm_of. cbv zeta.
    destruct (path_exists repo (Path.parent (e_parts pkg) ++ ["yarn.lock"]));
      destruct (path_exists repo
                  (Path.parent (e_parts pkg) ++ ["pnpm-lock.yaml"]));
      split; intros H; try reflexivity; discriminate H. }
  assert (Hp : forall pkg,
             node_pm_of repo pkg = "pnpm"
             <-> path_exists repo (Path.parent (e_parts pkg) ++ ["yarn.lock"])
                 = false
                 /\ path_exists repo
                      (Path.parent (e_parts pkg) ++ ["pnpm-lock.yaml"])
                    = true).
  { intros pkg. unfold node_pm_of. cbv zeta.
    destruct (path_exists repo (Path.parent (e_parts pkg) ++ ["yarn.lock"]));
      destruct (path_exists repo
                  (Path.parent (e_parts pkg) ++ ["pnpm-lock.yaml"]));
      split; intros H; try (now split); try discriminate H;
      destruct H as [H1 H2]; discriminate. }
  assert (Hn : forall pkg,
             node_pm_of repo pkg = "npm"
             <-> path_exists repo (Path.parent (e_parts pkg) ++ ["yarn.lock"])
                 = false
                 /\ path_exists repo
                      (Path.parent (e_parts pkg) ++ ["pnpm-lock.yaml"])
                    = false).
  { intros pkg. unfold node_pm_of. cbv zeta.
    destruct (path_exists repo (Path.parent (e_parts pkg) ++ ["yarn.lock"]));
      destruct (path_exists repo
                  (Path.parent (e_parts pkg) ++ ["pnpm-lock.yaml"]));
      split; intros H; try (now split); try discriminate H;
      destruct H as [H1 H2]; discriminate. }
  split; [| split].
  - rewrite node_signal_In by (cbn [In]; tauto).
    split; intros [pkg [Hin H]]; exists pkg.
    + apply filter_In in Hin. split; [exact Hin | now apply Hy].
    + split; [now apply filter_In | now apply Hy].
  - rewrite node_signal_In by (cbn [In]; tauto).
    split; intros [pkg [Hin H]]; exists pkg.
    + apply filter_In in Hin. split; [exact Hin | now apply Hp].
    + split; [now apply filter_In | now apply Hp].
  - rewrite node_signal_In by (cbn [In]; tauto).
    split; intros [pkg [Hin H]]; exists pkg.
    + apply filter_In in Hin. split; [exact Hin | now apply Hn].
    + split; [now apply filter_In | now apply Hn].
Qed.

(** ** The Kubernetes flag *)

Lemma existsb_ext_all (A : Type) (p q : A -> bool) (l : list A) :
  (forall x, p x = q x) -> existsb p l = existsb q l.
Proof.
  intros H. induction l as [|x r IH]; [reflexivity |].
  cbn [existsb]. now rewrite H, IH.
Qed.

(** X10. The Kubernetes flag is raised by a YAML file of the walk one of whose
    path components is k8s, kubernetes or manifests, and the components
    are those of the whole path, [repo_path] included.  So when the path
    of the repository itself has such a component, any YAML file of the
    walk raises the flag. *)
Theorem k8s_flag_reads_whole_path (repo : Repo) :
  let yaml (f : Entry) :=
    Py.endswith ".yml" (Py.lower (Path.name (e_parts f)))
    || Py.endswith ".yaml" (Py.lower (Path.name (e_parts f))) in
  let marked (part : string) :=
    Py.contains part ["k8s"; "kubernetes"; "manifests"] in
  snd (_detect_deploy_artifacts repo)
  = existsb
      (fun f => yaml f && existsb marked (repo_parts repo ++ e_parts f))
      (_iter_files repo)
  /\ (existsb marked (repo_parts repo) = true ->
      snd (_detect_deploy_artifacts repo) = existsb yaml (_iter_files repo)).
Proof.
  cbv zeta.
  assert (H : snd (_detect_deploy_artifacts repo)
              = existsb
                  (fun f =>
                     (Py.endswith ".yml" (Py.lower (Path.name (e_parts f)))
                      || Py.endswith ".yaml"
                           (Py.lower (Path.name (e_parts f))))
                     && existsb
                          (fun part =>
                             Py.contains part
                               ["k8s"; "kubernetes"; "manifests"])
                          (repo_parts repo ++ e_parts f))
                  (_iter_files repo)).
  { unfold _detect_deploy_artifacts. rewrite deploy_artifacts_fold.
    reflexivity. }
  split; [exact H |].
  intros Hm. rewrite H. apply existsb_ext_all. intros f.
  rewrite existsb_app, Hm. cbn [orb]. apply andb_true_r.
Qed.

Lemma k8s_flag_reads_whole_path_witness :
  let repo :=
    mkRepo ["/"; "srv"; "manifests"; "repo_x1"; "repo"] true
      [ file ["docker-compose.yml"] "services: {}";
        file ["app.py"] "print(1)" ] in
  snd (_detect_deploy_artifacts repo) = true.
Proof.
  intros repo.
  rewrite (proj2 (k8s_flag_reads_whole_path repo)); reflexivity.
Defined.

(** ** The fields of an analyzed stack *)

Lemma analyze_stack_inv (json_loads : string -> option Json)
    (str_other : Json -> string) (repo : Repo) (stack : StackInfo)
    (ws : list string) :
  repo_exists repo = true ->
  analyze_stack json_loads str_other repo = Some (stack, ws) ->
  exists fw deps lv fv,
    _detect_frameworks json_loads repo (fst (_detect_languages repo))
    = Some fw
    /\ _detect_dependencies_and_versions json_loads str_other repo
       = Some (deps, lv, fv)
    /\ stack
       = mkStackInfo
           (Py.sorted
              (filter
                 (fun l =>
                    negb (noise_dropped (snd (_detect_languages repo))
                            (_detect_package_managers repo) l))
                 (fst (_detect_languages repo))))
           (Py.sorted (Py.to_set (fw ++ Dict.keys fv)))
           (_detect_package_managers repo)
           (fst (fst (_detect_deploy_artifacts repo)))
           (snd (fst (_detect_deploy_artifacts repo)))
           (snd (_detect_deploy_artifacts repo))
           deps lv fv (_detect_dockerfiles repo).
Proof.
  intros He Ha. rewrite analyze_stack_eq in Ha by assumption.
  cbv zeta in Ha.
  destruct (_detect_frameworks json_loads repo _) as [fw |];
    [| discriminate].
  destruct (_detect_dependencies_and_versions json_loads str_other repo)
    as [[[deps lv] fv] |]; [| discriminate].
  apply some_inj in Ha.
  pose proof (f_equal fst Ha) as Hs. cbn [fst] in Hs.
  exists fw, deps, lv, fv. split; [reflexivity |].
  split; [reflexivity |]. now symmetry.
Qed.

Lemma analyze_stack_missing (json_loads : string -> option Json)
    (str_other : Json -> string) (repo : Repo) (stack : StackInfo)
    (ws : list string) :
  repo_exists repo = false ->
  analyze_stack json_loads str_other repo = Some (stack, ws) ->
  stack = StackInfo_default.
Proof.
  intros He Ha. unfold analyze_stack in Ha. rewrite He in Ha.
  cbn [negb] in Ha. apply some_inj in Ha.
  pose proof (f_equal fst Ha) as Hs. cbn [fst] in Hs. now symmetry.
Qed.

Lemma known_language (f : Entry) (lang : string) :
  language_of f = Some lang ->
  In lang ["go"; "java"; "javascript"; "python"].
Proof.
  unfold language_of. generalize (Py.lower (Path.suffix (e_parts f))).
  intros s. unfold EXT_TO_LANGUAGE. cbn [Dict.get].
  repeat match goal with
         | |- (if ?c then _ else _) = _ -> _ => destruct c
         end;
    intros H; try discriminate H; apply some_inj in H; subst lang;
    cbn [In]; tauto.
Qed.

(** X11. The languages of an analyzed stack are among go, java, javascript and
    python, each of them the language of a file of the walk: a [.ts] or
    [.tsx] file counts for javascript and a [.kt] file for java, and
    typescript never is a language of an analyzed stack. *)
Theorem analyzed_languages_known (json_loads : string -> option Json)
    (str_other : Json -> string) (repo : Repo) (stack : StackInfo)
    (ws : list string) :
  analyze_stack json_loads str_other repo = Some (stack, ws) ->
  (forall lang,
      In lang (languages stack) ->
      In lang ["go"; "java"; "javascript"; "python"]
      /\ exists f, In f (_iter_files repo) /\ language_of f = Some lang)
  /\ ~ In "typescript" (languages stack).
Proof.
  intros Ha.
  assert (H : forall lang,
             In lang (languages stack) ->
             In lang ["go"; "java"; "javascript"; "python"]
             /\ exists f,
                  In f (_iter_files repo) /\ language_of f = Some lang).
  { intros lang Hin. destruct (repo_exists repo) eqn:He.
    - destruct (analyze_stack_inv _ _ _ He Ha)
        as [fw [deps [lv [fv [_ [_ Hs]]]]]].
      subst stack. cbn [languages] in Hin.
      apply sorted_In, filter_In in Hin. destruct Hin as [Hin _].
      apply detect_languages_In, count_language_pos in Hin.
      destruct Hin as [f [Hf Hl]]. split; [| now exists f].
      now apply (known_language f).
    - rewrite (analyze_stack_missing _ _ _ He Ha) in Hin. destruct Hin. }
  split; [exact H |].
  intros Hin. apply H in Hin. destruct Hin as [Hin _].
  cbn [In] in Hin. intuition discriminate.
Qed.

Lemma analyzed_languages_known_witness :
  let repo :=
    mkRepo ["/"; "work"; "repo"] true
      [ file ["src"; "a.ts"] "export {}"; file ["src"; "b.tsx"] "export {}";
        file ["Main.kt"] "fun main() {}"; file ["Util.kt"] "val x = 1" ] in
  match analyze_stack (fun _ => None) (fun _ => "") repo with
  | Some (stack, _) => ~ In "typescript" (languages stack)
  | None => False
  end.
Proof.
  intros repo.
  destruct (analyze_stack (fun _ => None) (fun _ => "") repo)
    as [[stack ws] |] eqn:E.
  - apply (proj2 (analyzed_languages_known _ _ repo E)).
  - vm_compute in E. discriminate E.
Defined.

(** X12. Every framework that has a version is listed: the keys of
    [framework_versions] are among [frameworks], also for a framework
    that only the collectors of the dependencies see, such as junit, ktor,
    gin or typescript. *)
Theorem framework_versions_listed (json_loads : string -> option Json)
    (str_other : Json -> string) (repo : Repo) (stack : StackInfo)
    (ws : list string) :
  analyze_stack json_loads str_other repo = Some (stack, ws) ->
  forall fw version,
    Dict.get (framework_versions stack) fw = Some version ->
    In fw (frameworks stack).
Proof.
  intros Ha fw version Hget.
  assert (Hk : In fw (Dict.keys (framework_versions stack))).
  { apply In_keys_get. congruence. }
  destruct (repo_exists repo) eqn:He.
  - destruct (analyze_stack_inv _ _ _ He Ha)
      as [fws [deps [lv [fv [_ [_ Hs]]]]]].
    subst stack. cbn [frameworks framework_versions] in *.
    apply sorted_In, to_set_In, in_or_app. now right.
  - rewrite (analyze_stack_missing _ _ _ He Ha) in Hk. destruct Hk.
Qed.

Lemma framework_versions_listed_witness :
  let repo :=
    mkRepo ["/"; "work"; "repo"] true
      [ file ["go.mod"] "module example
go 1.22
require github.com/gin-gonic/gin v1.9.1
";
        file ["main.go"] "package main" ] in
  match analyze_stack (fun _ => None) (fun _ => "") repo with
  | Some (stack, _) => In "gin" (frameworks stack)
  | None => False
  end.
Proof.
  intros repo.
  destruct (analyze_stack (fun _ => None) (fun _ => "") repo)
    as [[stack ws] |] eqn:E.
  - apply (framework_versions_listed _ _ repo E "gin" (version := "v1.9.1")).
    vm_compute in E. apply some_inj in E.
    pose proof (f_equal fst E) as Hs. cbn [fst] in Hs. subst stack.
    reflexivity.
  - vm_compute in E. discriminate E.
Defined.

(** ** The logical names of the Dockerfiles *)

Lemma or_else_nonempty (a b : string) : b <> "" -> Py.or_else a b <> "".
Proof.
  intros Hb. unfold Py.or_else.
  destruct a as [|c a']; cbn [Py.truthy]; [exact Hb | discriminate].
Qed.

(** X13. The logical name of a Dockerfile never is empty.  A variant whose
    suffix is made of the separators [.], [_] and [-] only, such as
    [Dockerfile.] or [Dockerfile-_], is named like a plain [Dockerfile]:
    after its directory, and [app] at the root.  So every Dockerfile that
    the analyzer reports has a name, and the name of its job is longer
    than [docker_build_]. *)
Theorem dockerfile_name_never_empty :
  (forall rel, dockerfile_name rel <> "")
  /\ (forall ctx sfx,
         Py.lstrip_chars "._-" sfx = "" ->
         dockerfile_name (ctx ++ ["Dockerfile" +++ sfx])
         = Py.or_else (Path.name ctx) "app")
  /\ (forall repo df,
         In df (_detect_dockerfiles repo) ->
         df_name df <> "" /\ docker_job_name df <> "docker_build_").
Proof.
  assert (H1 : forall rel, dockerfile_name rel <> "").
  { intros rel. unfold dockerfile_name. cbv zeta.
    destruct (String.eqb (Path.name rel) "Dockerfile").
    - apply or_else_nonempty. discriminate.
    - apply or_else_nonempty, or_else_nonempty. discriminate. }
  split; [exact H1 |]. split.
  - intros ctx sfx Hs. destruct sfx as [|c sfx'].
    + apply dockerfile_name_plain.
    + unfold dockerfile_name. rewrite parent_snoc, name_snoc.
      simpl. rewrite Hs. reflexivity.
  - intros repo df Hin. unfold _detect_dockerfiles in Hin.
    apply in_map_iff in Hin. destruct Hin as [p [<- _]].
    unfold dockerfile_info, docker_job_name. cbn [df_name].
    split; [apply H1 |].
    pose proof (H1 (e_parts p)) as Hn.
    destruct (dockerfile_name (e_parts p)) as [|c s]; [now destruct Hn |].
    cbn. discriminate.
Qed.

Lemma dockerfile_name_never_empty_witness :
  dockerfile_name (["services"; "api"] ++ ["Dockerfile" +++ "._-"]) = "api".
Proof.
  rewrite (proj1 (proj2 dockerfile_name_never_empty)); reflexivity.
Defined.

(** ** From the files to the jobs *)

Lemma In_if_singleton (c : bool) (x y : string) :
  In x (if c then [y] else []) <-> c = true /\ x = y.
Proof.
  destruct c; cbn [In]; intuition congruence.
Qed.

Lemma nonempty_filter (A : Type) (p : A -> bool) (l : list A) :
  nonempty (filter p l) = true <-> exists x, In x l /\ p x = true.
Proof.
  split.
  - destruct (filter p l) as [|x r] eqn:E; [discriminate |]. intros _.
    exists x. apply filter_In. rewrite E. now left.
  - intros [x Hx]. apply filter_In in Hx.
    destruct (filter p l); [destruct Hx | reflexivity].
Qed.

(** The manifests behind the package managers that are not those of
    Node. *)
Lemma manifest_signal_In (repo : Repo) (x : string) :
  ~ In x ["yarn"; "pnpm"; "npm"] ->
  (In x (_detect_package_managers repo)
   <-> exists n f,
         In (x, n)
           [ ("pip", "requirements.txt"); ("poetry", "pyproject.toml");
             ("pipenv", "pipfile"); ("maven", "pom.xml");
             ("gradle", "build.gradle"); ("gradle", "build.gradle.kts");
             ("go-mod", "go.mod") ]
         /\ In f (_iter_files repo) /\ is_named n f = true).
Proof.
  intros Hx. rewrite detect_package_managers_In.
  unfold package_manager_signals. rewrite group_project_files_eq.
  cbv zeta.
  cbn [g_requirements g_pyproject g_pipfile g_package_json g_pom g_gradle
       g_go_mod].
  rewrite !in_app_iff, !In_if_singleton, !nonempty_filter, in_map_iff.
  split.
  - intros [[[f Hf] ->] | [[[f Hf] ->] | [[[f Hf] ->] | [H | [[[f Hf] ->]
             | [[[f Hf] ->] | [[f Hf] ->]]]]]]].
    + exists "requirements.txt", f. cbn [In]. tauto.
    + exists "pyproject.toml", f. cbn [In]. tauto.
    + exists "pipfile", f. cbn [In]. tauto.
    + destruct H as [pkg [<- _]]. destruct Hx. apply node_pm_of_cases.
    + exists "pom.xml", f. cbn [In]. tauto.
    + destruct Hf as [Hin Hn]. apply orb_true_iff in Hn.
      destruct Hn as [Hn | Hn].
      * exists "build.gradle", f. cbn [In]. tauto.
      * exists "build.gradle.kts", f. cbn [In]. tauto.
    + exists "go.mod", f. cbn [In]. tauto.
  - intros [n [f [Hin [Hf Hn]]]]. cbn [In] in Hin.
    destruct Hin as [E | [E | [E | [E | [E | [E | [E | []]]]]]]];
      injection E as <- <-.
    + left. split; [now exists f | reflexivity].
    + right. left. split; [now exists f | reflexivity].
    + right. right. left. split; [now exists f | reflexivity].
    + do 4 right. left. split; [now exists f | reflexivity].
    + do 5 right. left. split; [| reflexivity].
      exists f. split; [exact Hf |]. now rewrite Hn.
    + do 5 right. left. split; [| reflexivity].
      exists f. split; [exact Hf |]. rewrite Hn. apply orb_true_r.
    + do 6 right. split; [now exists f | reflexivity].
Qed.

(** A language with a family of package managers is kept by the noise
    filter when it has two files, or one file and a package manager of
    its family. *)
Lemma language_kept (json_loads : string -> option Json)
    (str_other : Json -> string) (repo : Repo) (stack : StackInfo)
    (ws : list string) (lang : string) (pms : list string) :
  repo_exists repo = true ->
  analyze_stack json_loads str_other repo = Some (stack, ws) ->
  Dict.get ECO_PMS lang = Some pms ->
  (In lang (languages stack)
   <-> 0 < count_language lang (_iter_files repo)
       /\ (2 <= count_language lang (_iter_files repo)
           \/ exists pm, In pm pms
                         /\ In pm (_detect_package_managers repo))).
Proof.
  intros He Ha Hp.
  destruct (analyze_stack_inv _ _ _ He Ha)
    as [fw [deps [lv [fv [_ [_ Hs]]]]]].
  subst stack. cbn [languages].
  rewrite sorted_In, filter_In, detect_languages_In.
  unfold noise_dropped.
  rewrite Hp, (eco_pms_nonempty _ Hp), detect_languages_count.
  assert (Hex : existsb (fun pm => Py.contains pm pms)
                  (_detect_package_managers repo) = true
                <-> exists pm, In pm pms
                               /\ In pm (_detect_package_managers repo)).
  { rewrite existsb_exists. split; intros [pm [H1 H2]]; exists pm.
    - apply contains_In in H2. tauto.
    - split; [exact H2 | now apply contains_In]. }
  destruct (count_language lang (_iter_files repo)) as [|[|n]].
  - split; intros [H _]; lia.
  - cbn [Nat.leb andb]. rewrite negb_involutive, Hex.
    split; [intros [_ H]; split; [lia | now right] |].
    intros [_ [H | H]]; [lia | split; [lia | exact H]].
  - cbn [Nat.leb andb negb]. split; intros _; split; try lia; auto.
Qed.

Lemma In_by_name (j : Job) (l : list Job) :
  In j l ->
  existsb (fun j' => String.eqb (job_name j') (job_name j)) l = true.
Proof.
  intros H. apply existsb_exists. exists j. split; [exact H |].
  apply String.eqb_refl.
Qed.

Lemma docker_stage_jobs_not_named (stack : StackInfo) (name : string) :
  Py.startswith "docker_build" name = false ->
  existsb (fun j => String.eqb (job_name j) name) (docker_stage_jobs stack)
  = false.
Proof.
  intros Hn. apply existsb_false. intros j Hin.
  pose proof (docker_stage_jobs_name stack j Hin) as H.
  destruct (String.eqb (job_name j) name) eqn:E; [| reflexivity].
  apply String.eqb_eq in E. congruence.
Qed.

Lemma python_go_jobs_emitted (stack : StackInfo) :
  (In python_tests (emitted_jobs stack)
   <-> Py.contains "python" (languages stack) = true)
  /\ (In python_lint (emitted_jobs stack)
      <-> Py.contains "python" (languages stack) = true)
  /\ (In go_tests (emitted_jobs stack)
      <-> Py.contains "go" (languages stack) = true)
  /\ (In go_build (emitted_jobs stack)
      <-> Py.contains "go" (languages stack) = true).
Proof.
  assert (Hname : forall j,
             Py.startswith "docker_build" (job_name j) = false ->
             job_name j <> "deploy_placeholder" ->
             existsb (fun j' => String.eqb (job_name j') (job_name j))
               (emitted_jobs stack)
             = existsb (fun j' => String.eqb (job_name j') (job_name j))
                 (ecosystem_jobs stack)).
  { intros j Hd Hp. unfold emitted_jobs. rewrite !existsb_app.
    rewrite (docker_stage_jobs_not_named stack _ Hd).
    cbn [existsb]. apply String.eqb_neq in Hp.
    rewrite String.eqb_sym in Hp. cbn [job_name deploy_placeholder Job_].
    rewrite Hp. now rewrite !orb_false_r. }
  assert (Hin : forall j (c : bool),
             Py.startswith "docker_build" (job_name j) = false ->
             job_name j <> "deploy_placeholder" ->
             existsb (fun j' => String.eqb (job_name j') (job_name j))
               (ecosystem_jobs stack) = c ->
             (c = true -> In j (ecosystem_jobs stack)) ->
             (In j (emitted_jobs stack) <-> c = true)).
  { intros j c Hd Hp Hc Hback. split.
    - intros H. apply In_by_name in H. rewrite Hname in H by assumption.
      congruence.
    - intros H. unfold emitted_jobs. apply in_or_app. left. now apply Hback. }
  repeat split;
    try (apply Hin; [reflexivity | discriminate | |];
         unfold ecosystem_jobs;
         destruct (Py.contains "python" (languages stack)),
           (_has_node stack), (Py.contains "go" (languages stack)),
           (java_with_maven stack);
         try reflexivity; try discriminate;
         intros _; cbn [app In]; tauto).
Qed.

(** X14. From the files to the jobs.  For a path that exists, the jobs
    [python_tests] and [python_lint] are generated exactly when the walk
    meets a [.py] file and either a second one or one of
    [requirements.txt], [pyproject.toml] and [Pipfile]; the jobs
    [go_tests] and [go_build] exactly when it meets a [.go] file and
    either a second one or a [go.mod].  The names of the manifests are
    compared in lower case. *)
Theorem python_go_jobs_from_files (json_loads : string -> option Json)
    (str_other : Json -> string) (repo : Repo) (stack : StackInfo)
    (p : Pipeline) (ws : list string) :
  repo_exists repo = true ->
  create_pipeline json_loads str_other repo = Some (stack, p, ws) ->
  let files := _iter_files repo in
  let met (n : string) :=
    exists f, In f files /\ is_named n f = true in
  let python_wanted :=
    0 < count_language "python" files
    /\ (2 <= count_language "python" files
        \/ met "requirements.txt" \/ met "pyproject.toml" \/ met "pipfile")
  in
  let go_wanted :=
    0 < count_language "go" files
    /\ (2 <= count_language "go" files \/ met "go.mod") in
  (In python_tests (jobs p) <-> python_wanted)
  /\ (In python_lint (jobs p) <-> python_wanted)
  /\ (In go_tests (jobs p) <-> go_wanted)
  /\ (In go_build (jobs p) <-> go_wanted).
Proof.
  intros He Hc. cbv zeta. unfold create_pipeline, bind in Hc.
  destruct (analyze_stack json_loads str_other repo) as [[stack' aw] |] eqn:Ha;
    [| discriminate].
  rewrite build_pipeline_eq in Hc. apply some_inj in Hc.
  pose proof (f_equal (fun x => fst (fst x)) Hc) as Hs.
  pose proof (f_equal (fun x => snd (fst x)) Hc) as Hp.
  cbn [fst snd] in Hs, Hp. subst stack' p. cbn [jobs]. clear Hc.
  pose proof (@language_kept json_loads str_other repo stack aw "python"
                ["pip"; "poetry"; "pipenv"] He Ha eq_refl) as Hpy.
  pose proof (@language_kept json_loads str_other repo stack aw "go"
                ["go-mod"] He Ha eq_refl) as Hgo.
  assert (Hpm : (exists pm, In pm ["pip"; "poetry"; "pipenv"]
                            /\ In pm (_detect_package_managers repo))
                <-> (exists f, In f (_iter_files repo)
                               /\ is_named "requirements.txt" f = true)
                    \/ (exists f, In f (_iter_files repo)
                                  /\ is_named "pyproject.toml" f = true)
                    \/ (exists f, In f (_iter_files repo)
                                  /\ is_named "pipfile" f = true)).
  { split.
    - intros [pm [Hin Hd]].
      apply manifest_signal_In in Hd;
        [| cbn [In] in *; intuition (subst; discriminate)].
      destruct Hd as [n [f [Hn Hf]]]. cbn [In] in Hin, Hn.
      destruct Hin as [<- | [<- | [<- | []]]];
        destruct Hn as [E | [E | [E | [E | [E | [E | [E | []]]]]]]];
        try discriminate E; injection E as <-.
      + left. now exists f.
      + right. left. now exists f.
      + right. right. now exists f.
    - intros [[f Hf] | [[f Hf] | [f Hf]]].
      + exists "pip". split; [cbn [In]; tauto |].
        apply manifest_signal_In; [cbn [In]; intuition discriminate |].
        exists "requirements.txt", f. cbn [In]. tauto.
      + exists "poetry". split; [cbn [In]; tauto |].
        apply manifest_signal_In; [cbn [In]; intuition discriminate |].
        exists "pyproject.toml", f. cbn [In]. tauto.
      + exists "pipenv". split; [cbn [In]; tauto |].
        apply manifest_signal_In; [cbn [In]; intuition discriminate |].
        exists "pipfile", f. cbn [In]. tauto. }
  assert (Hgm : (exists pm, In pm ["go-mod"]
                            /\ In pm (_detect_package_managers repo))
                <-> exists f, In f (_iter_files repo)
                              /\ is_named "go.mod" f = true).
  { split.
    - intros [pm [Hin Hd]]. destruct Hin as [<- | []].
      apply manifest_signal_In in Hd;
        [| cbn [In]; intuition discriminate].
      destruct Hd as [n [f [Hn Hf]]]. cbn [In] in Hn.
      destruct Hn as [E | [E | [E | [E | [E | [E | [E | []]]]]]]];
        try discriminate E; injection E as <-. now exists f.
    - intros [f Hf]. exists "go-mod". split; [now left |].
      apply manifest_signal_In; [cbn [In]; intuition discriminate |].
      exists "go.mod", f. cbn [In]. tauto. }
  rewrite Hpm in Hpy. rewrite Hgm in Hgo.
  destruct (python_go_jobs_emitted stack) as [H1 [H2 [H3 H4]]].
  rewrite H1, H2, H3, H4, !contains_In. tauto.
Qed.

Lemma python_go_jobs_from_files_witness :
  let repo :=
    mkRepo ["/"; "work"; "repo"] true
      [ file ["setup.py"] "print(1)"; file ["Pipfile"] "[packages]";
        file ["tools"; "gen.go"] "package main" ] in
  match create_pipeline (fun _ => None) (fun _ => "") repo with
  | Some (_, p, _) => In python_tests (jobs p) /\ ~ In go_tests (jobs p)
  | None => False
  end.
Proof.
  intros repo.
  destruct (create_pipeline (fun _ => None) (fun _ => "") repo)
    as [[[stack p] ws] |] eqn:E; [| vm_compute in E; discriminate E].
  destruct (python_go_jobs_from_files _ _ repo eq_refl E)
    as [Hpy [_ [Hgo _]]].
  split.
  - apply Hpy. split; [vm_compute; lia |]. right. right. right.
    exists (file ["Pipfile"] "[packages]"). split; [| reflexivity].
    vm_compute. tauto.
  - intros H. apply Hgo in H. destruct H as [_ [H | [f [Hf Hn]]]].
    + vm_compute in H. lia.
    + vm_compute in Hf. destruct Hf as [<- | [<- | [<- | []]]];
        vm_compute in Hn; discriminate Hn.
Defined.

(* ===================================================================== *)
(** * The script generators                                                *)
(* ===================================================================== *)

(** The cases of a kind or of a manager that the generators compare with
    constants. *)
Ltac split_on x :=
  repeat match goal with
         | |- context [String.eqb x ?s] =>
             let E := fresh "E" in
             destruct (String.eqb x s) eqn:E;
             [ apply String.eqb_eq in E; subst x
             | apply String.eqb_neq in E ]
         end.

Ltac close_kind :=
  first
    [ solve [vm_compute; split; [auto 10 | reflexivity]]
    | solve [split; [cbn [In]; intuition congruence | reflexivity]] ].

(** X21. The kinds that the generators of Node, Java and Go take.  Each
    returns its commands for its kinds, [tests] and [test] alike, and
    raises [ValueError] with the kind in the message for any other
    string: Java has no lint and Go no sonar. *)
Theorem generators_supported_kinds (kind : string) :
  match make_node_script kind with
  | Commands cmds =>
      In kind ["lint"; "tests"; "test"; "build"; "sonar"] /\ length cmds = 4
  | ValueError msg =>
      ~ In kind ["lint"; "tests"; "test"; "build"; "sonar"]
      /\ msg = "Unsupported node job kind: " +++ kind
  end
  /\ match make_java_script kind with
     | Commands cmds =>
         In kind ["tests"; "test"; "build"; "sonar"] /\ length cmds = 3
     | ValueError msg =>
         ~ In kind ["tests"; "test"; "build"; "sonar"]
         /\ msg = "Unsupported java job kind: " +++ kind
     end
  /\ match make_go_script kind with
     | Commands cmds =>
         In kind ["lint"; "tests"; "test"; "build"] /\ length cmds = 2
     | ValueError msg =>
         ~ In kind ["lint"; "tests"; "test"; "build"]
         /\ msg = "Unsupported go job kind: " +++ kind
     end.
Proof.
  split; [| split].
  - unfold make_node_script, _normalize_kind. cbv zeta.
    split_on kind; close_kind.
  - unfold make_java_script, java_goal, _normalize_kind. cbv zeta.
    split_on kind; close_kind.
  - unfold make_go_script, _normalize_kind. cbv zeta.
    split_on kind; close_kind.
Qed.

(** X22. The generator of Python looks at the manager first: for a manager
    other than pip, poetry and pipenv it raises [ValueError] for the
    manager, whatever the kind is; for one of the three it raises for a
    kind other than lint, tests, test and build, and else returns four
    commands for pip and three for poetry and pipenv. *)
Theorem python_script_manager_first (kind manager : string) :
  match make_python_script kind manager with
  | Commands cmds =>
      In manager ["pip"; "poetry"; "pipenv"]
      /\ In kind ["lint"; "tests"; "test"; "build"]
      /\ length cmds = (if String.eqb manager "pip" then 4 else 3)
  | ValueError msg =>
      (~ In manager ["pip"; "poetry"; "pipenv"]
       /\ msg = "Unsupported python manager: " +++ manager)
      \/ (In manager ["pip"; "poetry"; "pipenv"]
          /\ ~ In kind ["lint"; "tests"; "test"; "build"]
          /\ msg = "Unsupported python job kind: " +++ kind)
  end.
Proof.
  unfold make_python_script, _normalize_kind. cbv zeta.
  split_on manager.
  - split_on kind;
      first
        [ solve [vm_compute; split; [auto 10 | split; [auto 10 | reflexivity]]]
        | solve [right; split; [cbn [In]; auto |];
                 split; [cbn [In]; intuition congruence | reflexivity]] ].
  - split_on kind;
      first
        [ solve [vm_compute; split; [auto 10 | split; [auto 10 | reflexivity]]]
        | solve [right; split; [cbn [In]; auto |];
                 split; [cbn [In]; intuition congruence | reflexivity]] ].
  - split_on kind;
      first
        [ solve [vm_compute; split; [auto 10 | split; [auto 10 | reflexivity]]]
        | solve [right; split; [cbn [In]; auto |];
                 split; [cbn [In]; intuition congruence | reflexivity]] ].
  - left. split; [cbn [In]; intuition congruence | reflexivity].
Qed.

Lemma normalize_kind_idempotent (kind : string) :
  _normalize_kind (_normalize_kind kind) = _normalize_kind kind.
Proof.
  unfold _normalize_kind.
  destruct (String.eqb kind "tests") eqn:E; [reflexivity |]. now rewrite E.
Qed.

(** X23. The name of the job in the first command is made from the kind as it
    is given, the commands after it from the normalized kind: the scripts
    for [tests] and for [test] differ in their first command only, which
    says [node_tests] for the one and [node_test] for the other, and so
    for the four generators. *)
Theorem script_header_keeps_kind (kind manager : string) :
  let same (prefix : string) (given normal : Script) :=
    match given, normal with
    | Commands cmds, Commands cmds' =>
        hd "" cmds = "echo 'Job: " +++ prefix +++ kind +++ "'"
        /\ hd "" cmds'
           = "echo 'Job: " +++ prefix +++ _normalize_kind kind +++ "'"
        /\ tl cmds = tl cmds'
    | ValueError _, ValueError _ => True
    | _, _ => False
    end in
  same "node_" (make_node_script kind)
    (make_node_script (_normalize_kind kind))
  /\ same "java_" (make_java_script kind)
       (make_java_script (_normalize_kind kind))
  /\ same "python_" (make_python_script kind manager)
       (make_python_script (_normalize_kind kind) manager)
  /\ same "go_" (make_go_script kind)
       (make_go_script (_normalize_kind kind)).
Proof.
  cbv zeta.
  unfold make_node_script, make_java_script, java_goal, make_python_script,
    make_go_script.
  cbv zeta. rewrite !normalize_kind_idempotent. unfold _normalize_kind.
  destruct (String.eqb kind "tests") eqn:E0.
  - apply String.eqb_eq in E0. subst kind.
    repeat split; try reflexivity.
    destruct (String.eqb manager "pip"); [repeat split; reflexivity |].
    destruct (String.eqb manager "poetry"); [repeat split; reflexivity |].
    destruct (String.eqb manager "pipenv"); [repeat split; reflexivity |].
    exact I.
  - repeat split;
      repeat match goal with
             | |- context [if String.eqb ?x ?s then _ else _] =>
                 destruct (String.eqb x s)
             end;
      repeat split; try reflexivity; exact I.
Qed.

(** ** The jobs of Java, from the files *)

Lemma java_jobs_In (stack : StackInfo) :
  (In java_tests (emitted_jobs stack) <-> java_with_maven stack = true)
  /\ (In java_build (emitted_jobs stack) <-> java_with_maven stack = true)
  /\ (In java_sonar (emitted_jobs stack) <-> java_with_maven stack = true).
Proof.
  assert (Hin : forall j,
             Py.startswith "docker_build" (job_name j) = false ->
             job_name j <> "deploy_placeholder" ->
             existsb (fun j' => String.eqb (job_name j') (job_name j))
               (ecosystem_jobs stack) = java_with_maven stack ->
             (java_with_maven stack = true -> In j (ecosystem_jobs stack)) ->
             (In j (emitted_jobs stack) <-> java_with_maven stack = true)).
  { intros j Hd Hp Hc Hback. split.
    - intros H. apply In_by_name in H. unfold emitted_jobs in H.
      rewrite !existsb_app in H.
      rewrite (docker_stage_jobs_not_named stack _ Hd) in H.
      cbn [existsb] in H. apply String.eqb_neq in Hp.
      rewrite String.eqb_sym in Hp.
      cbn [job_name deploy_placeholder Job_] in H. rewrite Hp in H.
      rewrite !orb_false_r in H. congruence.
    - intros H. unfold emitted_jobs. apply in_or_app. left. now apply Hback. }
  repeat split;
    try (apply Hin; [reflexivity | discriminate | |];
         unfold ecosystem_jobs;
         destruct (Py.contains "python" (languages stack)),
           (_has_node stack), (Py.contains "go" (languages stack)),
           (java_with_maven stack);
         try reflexivity; try discriminate;
         intros _; cbn [app In]; tauto).
Qed.

(** X15. The jobs of Java, from the files.  For a path that exists,
    [java_tests], [java_build] and [java_sonar] are generated exactly when
    the walk meets a [.java] or [.kt] file and a [pom.xml]: a project with
    Gradle files only gets none of them, however many sources it has. *)
Theorem java_jobs_from_files (json_loads : string -> option Json)
    (str_other : Json -> string) (repo : Repo) (stack : StackInfo)
    (p : Pipeline) (ws : list string) :
  repo_exists repo = true ->
  create_pipeline json_loads str_other repo = Some (stack, p, ws) ->
  let wanted :=
    0 < count_language "java" (_iter_files repo)
    /\ exists f, In f (_iter_files repo) /\ is_named "pom.xml" f = true in
  (In java_tests (jobs p) <-> wanted)
  /\ (In java_build (jobs p) <-> wanted)
  /\ (In java_sonar (jobs p) <-> wanted).
Proof.
  intros He Hc. cbv zeta. unfold create_pipeline, bind in Hc.
  destruct (analyze_stack json_loads str_other repo) as [[stack' aw] |] eqn:Ha;
    [| discriminate].
  rewrite build_pipeline_eq in Hc. apply some_inj in Hc.
  pose proof (f_equal (fun x => fst (fst x)) Hc) as Hs.
  pose proof (f_equal (fun x => snd (fst x)) Hc) as Hp.
  cbn [fst snd] in Hs, Hp. subst stack' p. cbn [jobs]. clear Hc.
  pose proof (@language_kept json_loads str_other repo stack aw "java"
                ["maven"; "gradle"] He Ha eq_refl) as Hj.
  assert (Hpms : package_managers stack = _detect_package_managers repo).
  { destruct (analyze_stack_inv _ _ _ He Ha)
      as [fw [deps [lv [fv [_ [_ Hs]]]]]].
    now subst stack. }
  assert (Hm : In "maven" (_detect_package_managers repo)
               <-> exists f, In f (_iter_files repo)
                             /\ is_named "pom.xml" f = true).
  { rewrite manifest_signal_In by (cbn [In]; intuition discriminate).
    split.
    - intros [n [f [Hn Hf]]]. cbn [In] in Hn.
      destruct Hn as [E | [E | [E | [E | [E | [E | [E | []]]]]]]];
        try discriminate E; injection E as <-. now exists f.
    - intros [f Hf]. exists "pom.xml", f. cbn [In]. tauto. }
  assert (Hw : java_with_maven stack = true
               <-> 0 < count_language "java" (_iter_files repo)
                   /\ exists f, In f (_iter_files repo)
                                /\ is_named "pom.xml" f = true).
  { unfold java_with_maven.
    rewrite andb_true_iff, !contains_In, Hpms, Hj, <- Hm. split.
    - intros [[H0 _] H]. now split.
    - intros [H0 H]. split; [| exact H]. split; [exact H0 |].
      right. exists "maven". split; [now left | exact H]. }
  destruct (java_jobs_In stack) as [H1 [H2 H3]].
  rewrite H1, H2, H3. now rewrite Hw.
Qed.

Lemma java_jobs_from_files_witness :
  let repo :=
    mkRepo ["/"; "work"; "repo"] true
      [ file ["build.gradle"] "plugins { id 'java' }";
        file ["src"; "A.java"] "class A {}";
        file ["src"; "B.java"] "class B {}" ] in
  match create_pipeline (fun _ => None) (fun _ => "") repo with
  | Some (stack, p, _) =>
      In "java" (languages stack) /\ ~ In java_tests (jobs p)
  | None => False
  end.
Proof.
  intros repo.
  destruct (create_pipeline (fun _ => None) (fun _ => "") repo)
    as [[[stack p] ws] |] eqn:E; [| vm_compute in E; discriminate E].
  split.
  - vm_compute in E. apply some_inj in E.
    pose proof (f_equal (fun x => fst (fst x)) E) as Hs.
    cbn [fst] in Hs. subst stack. now left.
  - intros H.
    apply (proj1 (java_jobs_from_files _ _ repo eq_refl E)) in H.
    destruct H as [_ [f [Hf Hn]]].
    vm_compute in Hf. destruct Hf as [<- | [<- | [<- | []]]];
      vm_compute in Hn; discriminate Hn.
Defined.

(* ===================================================================== *)
(** * What is below the ignored directories                                *)
(* ===================================================================== *)

Lemma negb_existsb (A : Type) (p : A -> bool) (l : list A) :
  negb (existsb p l) = forallb (fun x => negb (p x)) l.
Proof.
  induction l as [|x r IH]; [reflexivity |].
  cbn [existsb forallb]. now rewrite negb_orb, IH.
Qed.

Lemma filter_filter_implied (A : Type) (p q : A -> bool) (l : list A) :
  (forall x, p x = true -> q x = true) ->
  filter p (filter q l) = filter p l.
Proof.
  intros H. induction l as [|x r IH]; [reflexivity |]. cbn [filter].
  destruct (q x) eqn:Eq; cbn [filter].
  - now rewrite IH.
  - destruct (p x) eqn:Ep; [| exact IH].
    apply H in Ep. congruence.
Qed.

Lemma existsb_filter_implied (A : Type) (p q : A -> bool) (l : list A) :
  (forall x, p x = true -> q x = true) ->
  existsb p (filter q l) = existsb p l.
Proof.
  intros H. induction l as [|x r IH]; [reflexivity |]. cbn [filter existsb].
  destruct (q x) eqn:Eq; cbn [existsb].
  - now rewrite IH.
  - destruct (p x) eqn:Ep; [| exact IH].
    apply H in Ep. congruence.
Qed.

Lemma find_filter_implied (A : Type) (p q : A -> bool) (l : list A) :
  (forall x, p x = true -> q x = true) ->
  find p (filter q l) = find p l.
Proof.
  intros H. induction l as [|x r IH]; [reflexivity |]. cbn [filter find].
  destruct (q x) eqn:Eq; cbn [find].
  - now rewrite IH.
  - destruct (p x) eqn:Ep; [| exact IH].
    apply H in Ep. congruence.
Qed.

Lemma fold_left_ext_In (S A : Type) (f g : S -> A -> S) (l : list A) :
  (forall s x, In x l -> f s x = g s x) ->
  forall s, fold_left f l s = fold_left g l s.
Proof.
  induction l as [|x r IH]; intros H s; [reflexivity |].
  cbn [fold_left]. rewrite (H s x (or_introl eq_refl)).
  apply IH. intros s' y Hy. apply H. now right.
Qed.

Section Pruned.

Variable json_loads : string -> option Json.
Variable str_other : Json -> string.
Variable repo : Repo.

Lemma iter_files_pruned : _iter_files (pruned repo) = _iter_files repo.
Proof.
  unfold _iter_files, pruned. cbn [entries].
  apply filter_filter_implied. intros e He.
  apply andb_true_iff in He. destruct He as [_ He].
  unfold below_ignored. now rewrite negb_existsb.
Qed.

Lemma path_exists_pruned (parts : list string) :
  forallb (fun d => negb (Py.contains d IGNORED_DIRS)) (Path.parent parts)
  = true ->
  path_exists (pruned repo) parts = path_exists repo parts.
Proof.
  intros H. unfold path_exists, pruned. cbn [entries].
  apply existsb_filter_implied. intros e He.
  destruct (list_eq_dec string_dec (e_parts e) parts) as [Heq |];
    [| discriminate He].
  unfold below_ignored. now rewrite negb_existsb, Heq.
Qed.

Lemma group_project_files_pruned :
  _group_project_files (pruned repo) = _group_project_files repo.
Proof. unfold _group_project_files. now rewrite iter_files_pruned. Qed.

Lemma detect_languages_pruned :
  _detect_languages (pruned repo) = _detect_languages repo.
Proof. unfold _detect_languages. now rewrite iter_files_pruned. Qed.

Lemma detect_package_managers_pruned :
  _detect_package_managers (pruned repo) = _detect_package_managers repo.
Proof.
  assert (Hfold : forall pm,
             fold_left (add_node_pm (pruned repo))
               (g_package_json (_group_project_files repo)) pm
             = fold_left (add_node_pm repo)
                 (g_package_json (_group_project_files repo)) pm).
  { apply fold_left_ext_In. intros pm pkg Hin.
    rewrite group_project_files_eq in Hin. cbn [g_package_json] in Hin.
    apply filter_In in Hin. destruct Hin as [Hin _].
    unfold _iter_files in Hin. apply filter_In in Hin.
    destruct Hin as [_ Hok]. apply andb_true_iff in Hok.
    destruct Hok as [_ Hok].
    unfold add_node_pm. cbv zeta.
    rewrite !path_exists_pruned by (now rewrite parent_snoc).
    reflexivity. }
  unfold _detect_package_managers. rewrite group_project_files_pruned.
  cbv zeta. rewrite !Hfold. reflexivity.
Qed.

Lemma detect_frameworks_pruned (languages : list string) :
  _detect_frameworks json_loads (pruned repo) languages
  = _detect_frameworks json_loads repo languages.
Proof. unfold _detect_frameworks. now rewrite group_project_files_pruned. Qed.

Lemma detect_deploy_artifacts_pruned :
  _detect_deploy_artifacts (pruned repo) = _detect_deploy_artifacts repo.
Proof.
  unfold _detect_deploy_artifacts. rewrite iter_files_pruned. reflexivity.
Qed.

Lemma detect_python_version_pruned :
  _detect_python_version (pruned repo) = _detect_python_version repo.
Proof.
  unfold _detect_python_version.
  rewrite group_project_files_pruned, iter_files_pruned.
  unfold pruned at 1. cbn [entries].
  rewrite find_filter_implied; [reflexivity |].
  intros e He.
  destruct (list_eq_dec string_dec (e_parts e) [".python-version"])
    as [Heq |]; [| discriminate He].
  unfold below_ignored. now rewrite Heq.
Qed.

Lemma detect_dependencies_pruned :
  _detect_dependencies_and_versions json_loads str_other (pruned repo)
  = _detect_dependencies_and_versions json_loads str_other repo.
Proof.
  rewrite !detect_dependencies_unfold.
  assert (Hpy : _collect_python (pruned repo) = _collect_python repo).
  { unfold _collect_python.
    now rewrite group_project_files_pruned, detect_python_version_pruned. }
  assert (Hn : _collect_node json_loads str_other (pruned repo)
               = _collect_node json_loads str_other repo).
  { unfold _collect_node. now rewrite group_project_files_pruned. }
  assert (Hgo : _collect_go (pruned repo) = _collect_go repo).
  { unfold _collect_go. now rewrite group_project_files_pruned. }
  assert (Hj : _collect_java_kotlin (pruned repo)
               = _collect_java_kotlin repo).
  { unfold _collect_java_kotlin. now rewrite group_project_files_pruned. }
  now rewrite Hpy, Hn, Hgo, Hj.
Qed.

End Pruned.

(** X16. Apart from the list of the Dockerfiles, the analysis does not read
    what is below the directories of [IGNORED_DIRS] ([.git],
    [node_modules], [venv], [dist], [build], [target] and so on): without
    these entries it raises or returns as with them, with the same
    warnings and the same stack but for the Dockerfiles, which are those
    of the tree that is left. *)
Theorem analysis_ignores_pruned_entries
    (json_loads : string -> option Json) (str_other : Json -> string)
    (repo : Repo) :
  match analyze_stack json_loads str_other repo,
        analyze_stack json_loads str_other (pruned repo) with
  | Some (s, w), Some (s', w') =>
      s' = with_dockerfiles s (dockerfiles s')
      /\ (repo_exists repo = true ->
          dockerfiles s = _detect_dockerfiles repo
          /\ dockerfiles s' = _detect_dockerfiles (pruned repo))
      /\ w' = w
  | None, None => True
  | _, _ => False
  end.
Proof.
  destruct (repo_exists repo) eqn:He.
  - rewrite !analyze_stack_eq by assumption. cbv zeta.
    rewrite detect_languages_pruned, detect_package_managers_pruned,
      detect_frameworks_pruned, detect_deploy_artifacts_pruned,
      (detect_dependencies_pruned json_loads str_other).
    destruct (_detect_frameworks json_loads repo _) as [fw |]; [| exact I].
    destruct (_detect_dependencies_and_versions json_loads str_other repo)
      as [[[deps lv] fv] |]; [| exact I].
    split; [reflexivity |]. split; [now split | reflexivity].
  - unfold analyze_stack. cbn [pruned repo_exists]. rewrite He.
    cbn [negb]. split; [reflexivity |]. split; [discriminate | reflexivity].
Qed.

Lemma analysis_ignores_pruned_entries_witness :
  let repo :=
    mkRepo ["/"; "work"; "repo"] true
      [ file ["app.py"] "import flask"; file ["util.py"] "x = 1";
        file ["node_modules"; "pkg"; "package.json"] "[]";
        file ["node_modules"; "pkg"; "index.js"] "module.exports = {}";
        file ["node_modules"; "pkg"; "Dockerfile"] "FROM node:20" ] in
  match analyze_stack (fun _ => Some (JArr [])) (fun _ => "") repo,
        analyze_stack (fun _ => Some (JArr [])) (fun _ => "") (pruned repo)
  with
  | Some (s, w), Some (s', w') =>
      languages s = ["python"] /\ languages s' = languages s
      /\ length (dockerfiles s) = 1 /\ dockerfiles s' = []
  | _, _ => False
  end.
Proof.
  intros repo.
  pose proof (analysis_ignores_pruned_entries (fun _ => Some (JArr []))
                (fun _ => "") repo) as H.
  destruct (analyze_stack (fun _ => Some (JArr [])) (fun _ => "") repo)
    as [[s w] |] eqn:E; [| vm_compute in E; discriminate E].
  destruct (analyze_stack (fun _ => Some (JArr [])) (fun _ => "")
              (pruned repo)) as [[s' w'] |]; [| destruct H].
  destruct H as [Hs [Hd _]]. destruct (Hd eq_refl) as [Hd1 Hd2].
  vm_compute in E. apply some_inj in E.
  pose proof (f_equal fst E) as E1. cbn [fst] in E1. subst s.
  split; [reflexivity |]. split; [now rewrite Hs |].
  split; [reflexivity |]. rewrite Hd2. reflexivity.
Defined.

(* ===================================================================== *)
(** * The shape of the dependencies                                        *)
(* ===================================================================== *)

(** What a collector reports for its ecosystem is never an empty dict. *)
Lemma ecosystem_dict_nonempty (e eco : string) (d pkgs : Dict.t string) :
  Dict.get (if nonempty d then Dict.set [] e d else []) eco = Some pkgs ->
  pkgs <> [].
Proof.
  destruct d as [|kv d]; cbn [nonempty Dict.set Dict.get];
    [discriminate |].
  destruct (String.eqb eco e); [| discriminate].
  intros H. apply some_inj in H. subst pkgs. discriminate.
Qed.

Lemma collect_python_nonempty (repo : Repo) (eco : string)
    (pkgs : Dict.t string) :
  Dict.get (fst (fst (_collect_python repo))) eco = Some pkgs -> pkgs <> [].
Proof.
  unfold _collect_python. cbv zeta. cbn [fst].
  apply ecosystem_dict_nonempty.
Qed.

Lemma collect_node_nonempty (json_loads : string -> option Json)
    (str_other : Json -> string) (repo : Repo) (c : Collected)
    (eco : string) (pkgs : Dict.t string) :
  _collect_node json_loads str_other repo = Some c ->
  Dict.get (fst (fst c)) eco = Some pkgs -> pkgs <> [].
Proof.
  unfold _collect_node. cbv zeta. unfold bind.
  destruct (fold_exc _ _ _) as [[nd lv] |]; [| discriminate].
  destruct (nonempty nd) eqn:E; intros H; apply some_inj in H; subst c;
    cbn [fst].
  - intros H. apply (@ecosystem_dict_nonempty "node" eco nd).
    now rewrite E.
  - discriminate.
Qed.

Lemma collect_go_nonempty (repo : Repo) (eco : string)
    (pkgs : Dict.t string) :
  Dict.get (fst (fst (_collect_go repo))) eco = Some pkgs -> pkgs <> [].
Proof.
  unfold _collect_go. cbv zeta.
  destruct (negb (nonempty (g_go_mod (_group_project_files repo))));
    [discriminate |].
  destruct (fold_left _ _ _) as [lv d].
  destruct (nonempty d) eqn:E; cbn [fst]; [| discriminate].
  intros H. apply (@ecosystem_dict_nonempty "go" eco d). now rewrite E.
Qed.

Lemma collect_java_nonempty (repo : Repo) (eco : string)
    (pkgs : Dict.t string) :
  Dict.get (fst (fst (_collect_java_kotlin repo))) eco = Some pkgs ->
  pkgs <> [].
Proof.
  unfold _collect_java_kotlin. cbv zeta.
  destruct (fold_left _ _ (fold_left _ _ _)) as [[jd lv] fv]. cbn [fst].
  apply ecosystem_dict_nonempty.
Qed.

Lemma one_ecosystem_found (eco e : string) (deps : Dict.t (Dict.t string))
    (pkgs : Dict.t string) :
  one_ecosystem eco deps ->
  Dict.get deps e = Some pkgs ->
  e = eco /\ NoDup (Dict.keys pkgs).
Proof.
  intros [-> | [d [-> Hd]]]; cbn [Dict.get]; [discriminate |].
  destruct (String.eqb e eco) eqn:E; [| discriminate].
  intros H. apply some_inj in H. subst d.
  split; [now apply String.eqb_eq | exact Hd].
Qed.

(** The merged dependencies of an ecosystem are those of the first
    collector that reports it. *)
Lemma merged_dependencies_get (json_loads : string -> option Json)
    (str_other : Json -> string) (repo : Repo) (c_node all : Collected)
    (eco : string) :
  _collect_node json_loads str_other repo = Some c_node ->
  _detect_dependencies_and_versions json_loads str_other repo = Some all ->
  Dict.get (fst (fst all)) eco
  = match Dict.get (fst (fst (_collect_python repo))) eco with
    | Some v => Some v
    | None =>
        match Dict.get (fst (fst c_node)) eco with
        | Some v => Some v
        | None =>
            match Dict.get (fst (fst (_collect_go repo))) eco with
            | Some v => Some v
            | None => Dict.get (fst (fst (_collect_java_kotlin repo))) eco
            end
        end
    end.
Proof.
  intros En H. rewrite detect_dependencies_unfold, En in H.
  apply some_inj in H. subst all.
  pose proof (collect_python_eco repo) as Hp.
  pose proof (collect_node_eco _ _ _ En) as Hn.
  pose proof (collect_go_eco repo) as Hg.
  pose proof (collect_java_eco repo) as Hj.
  set (cp := _collect_python repo) in *.
  set (cg := _collect_go repo) in *.
  set (cj := _collect_java_kotlin repo) in *.
  set (a0 := (([], [], []) : Collected)).
  set (a1 := merge_collected a0 cp).
  set (a2 := merge_collected a1 c_node).
  set (a3 := merge_collected a2 cg).
  assert (H1 : forall e, Dict.get (fst (fst a1)) e
                         = Dict.get (fst (fst cp)) e).
  { intros e. unfold a1.
    now rewrite (@merge_dependencies "python" a0 cp e Hp eq_refl). }
  assert (H2 : forall e, Dict.get (fst (fst a2)) e
               = match Dict.get (fst (fst cp)) e with
                 | Some v => Some v
                 | None => Dict.get (fst (fst c_node)) e
                 end).
  { intros e. unfold a2.
    rewrite (@merge_dependencies "node" a1 c_node e Hn).
    - now rewrite H1.
    - rewrite H1. apply (one_ecosystem_get Hp). discriminate. }
  assert (H3 : forall e, Dict.get (fst (fst a3)) e
               = match Dict.get (fst (fst cp)) e with
                 | Some v => Some v
                 | None =>
                     match Dict.get (fst (fst c_node)) e with
                     | Some v => Some v
                     | None => Dict.get (fst (fst cg)) e
                     end
                 end).
  { intros e. unfold a3. rewrite (@merge_dependencies "go" a2 cg e Hg).
    - rewrite H2. now destruct (Dict.get (fst (fst cp)) e).
    - rewrite H2, (one_ecosystem_get Hp), (one_ecosystem_get Hn);
        [reflexivity | discriminate | discriminate]. }
  rewrite (@merge_dependencies "java" a3 cj eco Hj).
  - rewrite H3.
    destruct (Dict.get (fst (fst cp)) eco); [reflexivity |].
    now destruct (Dict.get (fst (fst c_node)) eco).
  - rewrite H3, (one_ecosystem_get Hp), (one_ecosystem_get Hn),
      (one_ecosystem_get Hg);
      [reflexivity | discriminate | discriminate | discriminate].
Qed.

(** X17. The dependencies of an analyzed stack have at most the four keys
    python, node, go and java, and each of them stands for a dict that is
    not empty and has each package once: an ecosystem without a package is
    not a key. *)
Theorem dependencies_shape (json_loads : string -> option Json)
    (str_other : Json -> string) (repo : Repo) (stack : StackInfo)
    (ws : list string) :
  analyze_stack json_loads str_other repo = Some (stack, ws) ->
  forall eco pkgs,
    Dict.get (dependencies stack) eco = Some pkgs ->
    In eco ["python"; "node"; "go"; "java"]
    /\ pkgs <> []
    /\ NoDup (Dict.keys pkgs).
Proof.
  intros Ha eco pkgs Hget.
  destruct (repo_exists repo) eqn:He.
  - destruct (analyze_stack_inv _ _ _ He Ha)
      as [fw [deps [lv [fv [_ [Hd Hs]]]]]].
    subst stack. cbn [dependencies] in Hget.
    pose proof Hd as Hd'. rewrite detect_dependencies_unfold in Hd'.
    destruct (_collect_node json_loads str_other repo) as [cn |] eqn:En;
      [| discriminate].
    pose proof (@merged_dependencies_get json_loads str_other repo cn
                  (deps, lv, fv) eco En Hd) as Hm.
    cbn [fst] in Hm. rewrite Hget in Hm.
    destruct (Dict.get (fst (fst (_collect_python repo))) eco) as [v |] eqn:E1.
    { apply some_inj in Hm. subst v.
      destruct (@one_ecosystem_found _ _ _ _ (collect_python_eco repo) E1) as [-> Hn].
      split; [cbn [In]; tauto |].
      split; [exact (@collect_python_nonempty repo _ _ E1) | exact Hn]. }
    destruct (Dict.get (fst (fst cn)) eco) as [v |] eqn:E2.
    { apply some_inj in Hm. subst v.
      destruct (@one_ecosystem_found _ _ _ _
                  (@collect_node_eco json_loads str_other repo cn En) E2)
        as [-> Hn].
      split; [cbn [In]; tauto |].
      split; [exact (@collect_node_nonempty _ _ _ _ _ _ En E2) | exact Hn]. }
    destruct (Dict.get (fst (fst (_collect_go repo))) eco) as [v |] eqn:E3.
    { apply some_inj in Hm. subst v.
      destruct (@one_ecosystem_found _ _ _ _ (collect_go_eco repo) E3) as [-> Hn].
      split; [cbn [In]; tauto |].
      split; [exact (@collect_go_nonempty repo _ _ E3) | exact Hn]. }
    symmetry in Hm.
    destruct (@one_ecosystem_found _ _ _ _ (collect_java_eco repo) Hm) as [-> Hn].
    split; [cbn [In]; tauto |].
    split; [exact (@collect_java_nonempty repo _ _ Hm) | exact Hn].
  - rewrite (analyze_stack_missing _ _ _ He Ha) in Hget. discriminate Hget.
Qed.

Lemma dependencies_shape_witness :
  let repo :=
    mkRepo ["/"; "work"; "repo"] true
      [ file ["requirements.txt"] "flask==2.0.1";
        file ["go.mod"] "module example";
        file ["main.go"] "package main" ] in
  match analyze_stack (fun _ => None) (fun _ => "") repo with
  | Some (stack, _) =>
      forall eco pkgs,
        Dict.get (dependencies stack) eco = Some pkgs -> pkgs <> []
  | None => False
  end.
Proof.
  intros repo.
  destruct (analyze_stack (fun _ => None) (fun _ => "") repo)
    as [[stack ws] |] eqn:E; [| vm_compute in E; discriminate E].
  intros eco pkgs H.
  exact (proj1 (proj2 (@dependencies_shape _ _ repo stack ws E eco pkgs H))).
Defined.

(* ===================================================================== *)
(** * The versions of the languages                                        *)
(* ===================================================================== *)

Lemma incl_keys_set (V : Type) (d : Dict.t V) (k : string) (v : V)
    (allowed : list string) :
  incl (Dict.keys d) allowed -> In k allowed ->
  incl (Dict.keys (Dict.set d k v)) allowed.
Proof.
  intros Hd Hk x Hx. apply keys_set_In in Hx.
  destruct Hx as [Hx | ->]; [now apply Hd | exact Hk].
Qed.

Lemma collect_node_file_lv (str_other : Json -> string)
    (st st' : Dict.t string * Dict.t string) (data : Json) :
  incl (Dict.keys (snd st)) ["node"] ->
  collect_node_file str_other st data = Some st' ->
  incl (Dict.keys (snd st')) ["node"].
Proof.
  destruct st as [d lv]. unfold collect_node_file. cbn [snd].
  intros Hlv H. unfold bind at 1 in H.
  match type of H with
  | match fold_exc ?f ?l ?s with _ => _ end = _ =>
      destruct (fold_exc f l s) as [d1 |]; [| discriminate]
  end.
  unfold bind in H.
  destruct (JsonPy.get data "engines") as [e0 |]; [| discriminate].
  destruct (JsonPy.get (JsonPy.or_empty e0) "node") as [e |];
    [| discriminate].
  injection H as <-. cbn [snd].
  destruct e as [e |]; [| exact Hlv].
  destruct (JsonPy.truthy e && negb (Dict.mem "node" lv)); [| exact Hlv].
  apply incl_keys_set; [exact Hlv | now left].
Qed.

Lemma collect_node_lv (json_loads : string -> option Json)
    (str_other : Json -> string) (repo : Repo) (c : Collected) :
  _collect_node json_loads str_other repo = Some c ->
  incl (Dict.keys (snd (fst c))) ["node"].
Proof.
  unfold _collect_node. cbv zeta. unfold bind. intros H.
  match type of H with
  | match fold_exc ?f ?l ?s with _ => _ end = _ =>
      destruct (fold_exc f l s) as [[d lv] |] eqn:E; [| discriminate]
  end.
  assert (Hlv : incl (Dict.keys lv) ["node"]).
  { change lv with (snd (d, lv)). revert E.
    apply fold_exc_inv with
      (P := fun st : Dict.t string * Dict.t string =>
              incl (Dict.keys (snd st)) ["node"]); [intros x [] |].
    intros s pkg s' Hs Hx.
    destruct (load_package_json json_loads pkg) as [data |].
    - eapply collect_node_file_lv; eassumption.
    - now injection Hx as <-. }
  destruct (nonempty d); injection H as <-; exact Hlv.
Qed.

Lemma go_line_step_lv (st : Dict.t string * Dict.t string * bool)
    (line : string) :
  incl (Dict.keys (fst (fst st))) ["go"] ->
  incl (Dict.keys (fst (fst (go_line_step st line)))) ["go"].
Proof.
  destruct st as [[lv d] b]. unfold go_line_step. cbv zeta. cbn [fst snd].
  intros H.
  repeat match goal with
         | |- context [if ?c then _ else _] => destruct c
         end; cbn [fst snd]; try exact H.
  apply incl_keys_set; [exact H | now left].
Qed.

Lemma collect_go_lv (repo : Repo) :
  incl (Dict.keys (snd (fst (_collect_go repo)))) ["go"].
Proof.
  unfold _collect_go. cbv zeta.
  destruct (negb (nonempty (g_go_mod (_group_project_files repo))));
    [intros x [] |].
  match goal with
  | |- context [fold_left ?f ?l ?s] =>
      assert (Hlv : incl (Dict.keys (fst (fold_left f l s))) ["go"])
  end.
  { apply fold_left_inv; [intros x [] |].
    intros [lv d] gm Hd. cbn [fst] in *.
    destruct (read_lines gm) as [lines |]; [| exact Hd].
    pose proof (@fold_left_inv _ _
      (fun st => incl (Dict.keys (fst (fst st))) ["go"])
      go_line_step lines (lv, d, false) Hd go_line_step_lv) as H.
    destruct (fold_left go_line_step lines (lv, d, false)) as [[lv' d'] b'].
    exact H. }
  destruct (fold_left _ _ _) as [lv d]. cbn [fst] in Hlv.
  destruct (nonempty d); exact Hlv.
Qed.

Lemma pom_dependency_step_lv (st : JavaState) (m : Re.found) :
  incl (Dict.keys (snd (fst st))) ["java"; "kotlin"] ->
  incl (Dict.keys (snd (fst (pom_dependency_step st m))))
    ["java"; "kotlin"].
Proof.
  destruct st as [[d lv] fv]. unfold pom_dependency_step. cbv zeta.
  cbn [fst snd]. intros H.
  repeat match goal with
         | |- context [if ?c then _ else _] => destruct c
         end; try exact H.
  all: apply incl_keys_set; [exact H | cbn [In]; tauto].
Qed.

Lemma gradle_dependency_step_lv (st : JavaState) (m : Re.found) :
  incl (Dict.keys (snd (fst st))) ["java"; "kotlin"] ->
  incl (Dict.keys (snd (fst (gradle_dependency_step st m))))
    ["java"; "kotlin"].
Proof.
  intros H. unfold gradle_dependency_step.
  pose proof (pom_dependency_step_lv st m H) as Hp.
  destruct (pom_dependency_step st m) as [[d lv] fv]. exact Hp.
Qed.

Lemma java_file_step_lv (source_re dependency_re : Re.re)
    (dep_step : JavaState -> Re.found -> JavaState) :
  (forall st m,
      incl (Dict.keys (snd (fst st))) ["java"; "kotlin"] ->
      incl (Dict.keys (snd (fst (dep_step st m)))) ["java"; "kotlin"]) ->
  forall st f,
    incl (Dict.keys (snd (fst st))) ["java"; "kotlin"] ->
    incl (Dict.keys
            (snd (fst (java_file_step source_re dependency_re dep_step
                         st f))))
      ["java"; "kotlin"].
Proof.
  intros Hstep st f H. unfold java_file_step.
  destruct (e_text f) as [content |]; [| exact H].
  destruct st as [[d lv] fv]. cbn [fst snd] in H.
  apply fold_left_inv
    with (P := fun st => incl (Dict.keys (snd (fst st))) ["java"; "kotlin"]);
    [| exact Hstep].
  cbn [fst snd].
  destruct (Re.search false source_re content) as [m |]; [| exact H].
  destruct (negb (Dict.mem "java" lv)); [| exact H].
  apply incl_keys_set; [exact H | now left].
Qed.

Lemma collect_java_lv (repo : Repo) :
  incl (Dict.keys (snd (fst (_collect_java_kotlin repo))))
    ["java"; "kotlin"].
Proof.
  unfold _collect_java_kotlin. cbv zeta.
  match goal with
  | |- context [fold_left ?f ?l (fold_left ?g ?k ?s)] =>
      assert (Hlv : incl (Dict.keys
                            (snd (fst (fold_left f l (fold_left g k s)))))
                      ["java"; "kotlin"])
  end.
  { apply fold_left_inv.
    - apply fold_left_inv; [intros x [] |].
      apply java_file_step_lv, pom_dependency_step_lv.
    - apply java_file_step_lv, gradle_dependency_step_lv. }
  destruct (fold_left _ _ (fold_left _ _ _)) as [[jd lv] fv]. exact Hlv.
Qed.

Lemma collect_python_lv (repo : Repo) :
  snd (fst (_collect_python repo))
  = match _detect_python_version repo with
    | Some v => if Py.truthy v then [("python", v)] else []
    | None => []
    end.
Proof.
  unfold _collect_python. cbv zeta. cbn [fst snd].
  destruct (_detect_python_version repo) as [v |]; [| reflexivity].
  now destruct (Py.truthy v).
Qed.

Lemma get_outside (d : Dict.t string) (k : string) (allowed : list string) :
  incl (Dict.keys d) allowed -> ~ In k allowed -> Dict.get d k = None.
Proof.
  intros Hd Hk. destruct (Dict.get d k) as [v |] eqn:E; [| reflexivity].
  destruct Hk. apply Hd, In_keys_get. congruence.
Qed.

(** X18. The versions of the languages.  Their keys are among python, node, go,
    java and kotlin.  The version of python is the one that
    [_detect_python_version] finds, when it is not empty, and no other
    collector gives one; a [.python-version] at the root whose text is not
    blank decides it, whatever [pyproject.toml] and the Dockerfiles
    say. *)
Theorem language_versions_sources (json_loads : string -> option Json)
    (str_other : Json -> string) (repo : Repo) (stack : StackInfo)
    (ws : list string) :
  analyze_stack json_loads str_other repo = Some (stack, ws) ->
  (forall k v,
      Dict.get (language_versions stack) k = Some v ->
      In k ["python"; "node"; "go"; "java"; "kotlin"])
  /\ (repo_exists repo = true ->
      Dict.get (language_versions stack) "python"
      = match _detect_python_version repo with
        | Some v => if Py.truthy v then Some v else None
        | None => None
        end)
  /\ (forall f t,
         find (fun e => if list_eq_dec string_dec (e_parts e)
                             [".python-version"] then true else false)
           (entries repo) = Some f ->
         e_text f = Some t ->
         Py.strip t <> "" ->
         _detect_python_version repo = Some (Py.strip t)).
Proof.
  intros Ha.
  assert (Hget : repo_exists repo = true ->
            exists cn,
              _collect_node json_loads str_other repo = Some cn
              /\ forall k,
                   Dict.get (language_versions stack) k
                   = match Dict.get (snd (fst (_collect_python repo))) k with
                     | Some v => Some v
                     | None =>
                         match Dict.get (snd (fst cn)) k with
                         | Some v => Some v
                         | None =>
                             match Dict.get (snd (fst (_collect_go repo))) k
                             with
                             | Some v => Some v
                             | None =>
                                 Dict.get
                                   (snd (fst (_collect_java_kotlin repo))) k
                             end
                         end
                     end).
  { intros He.
    destruct (analyze_stack_inv _ _ _ He Ha)
      as [fw [deps [lv [fv [_ [Hd Hs]]]]]].
    subst stack. cbn [language_versions].
    rewrite detect_dependencies_unfold in Hd.
    destruct (_collect_node json_loads str_other repo) as [cn |];
      [| discriminate].
    exists cn. split; [reflexivity |]. intros k.
    apply some_inj in Hd.
    assert (Hl : lv = snd (fst (merge_collected
                   (merge_collected
                      (merge_collected
                         (merge_collected ([], [], [])
                            (_collect_python repo)) cn)
                      (_collect_go repo))
                   (_collect_java_kotlin repo)))) by now rewrite Hd.
    rewrite Hl, !merge_language_versions. cbn [fst snd Dict.get].
    destruct (Dict.get (snd (fst (_collect_python repo))) k);
      [reflexivity |].
    destruct (Dict.get (snd (fst cn)) k); [reflexivity |].
    now destruct (Dict.get (snd (fst (_collect_go repo))) k). }
  split; [| split].
  - intros k v Hk. destruct (repo_exists repo) eqn:He.
    + destruct (Hget eq_refl) as [cn [En Hg]]. rewrite Hg in Hk.
      pose proof (collect_python_lv repo) as Hpy.
      pose proof (collect_node_lv _ _ _ En) as Hn.
      pose proof (collect_go_lv repo) as Hgo.
      pose proof (collect_java_lv repo) as Hj.
      destruct (Dict.get (snd (fst (_collect_python repo))) k) eqn:E1.
      { rewrite Hpy in E1.
        destruct (_detect_python_version repo) as [pv |];
          [| discriminate E1].
        destruct (Py.truthy pv); [| discriminate E1].
        cbn [Dict.get] in E1.
        destruct (String.eqb k "python") eqn:Ek; [| discriminate E1].
        apply String.eqb_eq in Ek. subst k. now left. }
      destruct (Dict.get (snd (fst cn)) k) eqn:E2.
      { assert (Hin : In k ["node"]).
        { apply Hn, In_keys_get. congruence. }
        cbn [In] in *. intuition. }
      destruct (Dict.get (snd (fst (_collect_go repo))) k) eqn:E3.
      { assert (Hin : In k ["go"]).
        { apply Hgo, In_keys_get. congruence. }
        cbn [In] in *. intuition. }
      assert (Hin : In k ["java"; "kotlin"]).
      { apply Hj, In_keys_get. congruence. }
      cbn [In] in *. intuition.
    + rewrite (analyze_stack_missing _ _ _ He Ha) in Hk. discriminate Hk.
  - intros He. destruct (Hget He) as [cn [En Hg]]. rewrite Hg.
    rewrite (@get_outside _ "python" _ (collect_node_lv _ _ _ En))
      by (cbn [In]; intuition discriminate).
    rewrite (@get_outside _ "python" _ (collect_go_lv repo))
      by (cbn [In]; intuition discriminate).
    rewrite (@get_outside _ "python" _ (collect_java_lv repo))
      by (cbn [In]; intuition discriminate).
    rewrite collect_python_lv.
    destruct (_detect_python_version repo) as [pv |]; [| reflexivity].
    now destruct (Py.truthy pv).
  - intros f t Hf Ht Hs. unfold _detect_python_version.
    rewrite Hf, Ht. cbv zeta.
    destruct (Py.strip t) as [|c s]; [now destruct Hs | reflexivity].
Qed.

Lemma language_versions_sources_witness :
  let repo :=
    mkRepo ["/"; "work"; "repo"] true
      [ file ["pyproject.toml"] "requires-python = '>=3.9'";
        file [".python-version"] "3.12.1
";
        file ["Dockerfile"] "FROM python:3.8-slim" ] in
  _detect_python_version repo = Some "3.12.1".
Proof.
  intros repo.
  destruct (analyze_stack (fun _ => None) (fun _ => "") repo)
    as [[stack ws] |] eqn:E; [| vm_compute in E; discriminate E].
  apply (proj2 (proj2 (language_versions_sources _ _ repo E))
           (file [".python-version"] "3.12.1
") "3.12.1
"); [reflexivity | reflexivity | vm_compute; discriminate].
Defined.

(* ===================================================================== *)
(** * Frameworks found in the text of the manifests                        *)
(* ===================================================================== *)

Lemma fold_left_additive_keeps (S A : Type) (proj : S -> list string)
    (step : S -> A -> S) (adds : A -> string -> Prop) (l : list A) (s : S)
    (x : string) :
  (forall s a x, In x (proj (step s a)) <-> In x (proj s) \/ adds a x) ->
  In x (proj s) -> In x (proj (fold_left step l s)).
Proof.
  intros Hstep Hx.
  apply (fold_left_additive proj step adds Hstep). now left.
Qed.

Lemma detect_frameworks_python (json_loads : string -> option Json)
    (repo : Repo) (languages fw : list string) (f : Entry) (t name : string) :
  _detect_frameworks json_loads repo languages = Some fw ->
  In f (_iter_files repo) ->
  is_named "requirements.txt" f || is_named "pyproject.toml" f = true ->
  e_text f = Some t ->
  In name ["fastapi"; "flask"; "django"] ->
  Py.str_contains name (Py.lower t) = true ->
  In name fw.
Proof.
  intros Hd Hf Hn Ht Hname Hc. revert Hd.
  unfold _detect_frameworks, bind. rewrite group_project_files_eq.
  cbv zeta. cbn [g_requirements g_pyproject g_package_json g_pom g_gradle].
  match goal with
  | |- match fold_exc ?nstep ?nl (fold_left ?pstep ?pl []) with _ => _ end
       = _ -> _ =>
      pose proof
        (@fold_exc_additive (list string) Entry (fun s => s) nstep
           (fun pkg => nstep [] pkg = None)
           (fun pkg x => exists s0, nstep [] pkg = Some s0 /\ In x s0)
           (fun s a => @node_framework_step_raises json_loads s a)
           (fun s a s' x => @node_framework_step_adds json_loads s a s' x)
           nl (fold_left pstep pl [])) as Hnode;
      assert (Hpy : In name (fold_left pstep pl []));
      [| destruct (fold_exc nstep nl (fold_left pstep pl [])) as [fw0 |];
         [| discriminate] ]
  end.
  - match goal with
    | |- In name (fold_left ?pstep ?pl []) =>
        apply (@fold_left_additive (list string) Entry (fun s => s) pstep
                 (fun f x => In x (pstep [] f))
                 (fun s a x => @python_framework_step_adds s a x))
    end.
    right. exists f. split.
    + apply in_or_app. apply orb_true_iff in Hn.
      destruct Hn as [Hn | Hn]; [left | right]; apply filter_In; now split.
    + cbv beta. rewrite Ht. rewrite !if_set_add_In. cbn [In] in Hname.
      destruct Hname as [<- | [<- | [<- | []]]]; rewrite Hc; cbn [In]; tauto.
  - intros H. apply some_inj in H. subst fw. apply sorted_In.
    destruct Hnode as [_ Hnode].
    apply (@fold_left_additive_keeps (list string) Entry (fun s => s) _
             (fun f x => In x (_ [] f)) _ _ name
             (fun s a x => @spring_step_adds s a x)).
    apply (@fold_left_additive_keeps (list string) Entry (fun s => s) _
             (fun f x => In x (_ [] f)) _ _ name
             (fun s a x => @spring_step_adds s a x)).
    apply Hnode. now left.
Qed.

(** X19. The frameworks of Python are found by looking for their names in the
    text of the manifests: when the text of a [requirements.txt] or
    [pyproject.toml] of the walk has fastapi, flask or django in it, in
    any case and anywhere, be it in a comment or in the name of another
    package, the framework is among the frameworks of the stack. *)
Theorem python_frameworks_by_substring (json_loads : string -> option Json)
    (str_other : Json -> string) (repo : Repo) (stack : StackInfo)
    (ws : list string) :
  repo_exists repo = true ->
  analyze_stack json_loads str_other repo = Some (stack, ws) ->
  forall f t name,
    In f (_iter_files repo) ->
    is_named "requirements.txt" f || is_named "pyproject.toml" f = true ->
    e_text f = Some t ->
    In name ["fastapi"; "flask"; "django"] ->
    Py.str_contains name (Py.lower t) = true ->
    In name (frameworks stack).
Proof.
  intros He Ha f t name Hf Hn Ht Hname Hc.
  destruct (analyze_stack_inv _ _ _ He Ha)
    as [fw [deps [lv [fv [Hd [_ Hs]]]]]].
  subst stack. cbn [frameworks].
  apply sorted_In, to_set_In, in_or_app. left.
  exact (@detect_frameworks_python json_loads repo _ fw f t name
           Hd Hf Hn Ht Hname Hc).
Qed.

Lemma python_frameworks_by_substring_witness :
  let repo :=
    mkRepo ["/"; "work"; "repo"] true
      [ file ["requirements.txt"] "# no Django here
Flask-Cors>=3.0" ] in
  match analyze_stack (fun _ => None) (fun _ => "") repo with
  | Some (stack, _) =>
      In "flask" (frameworks stack) /\ In "django" (frameworks stack)
  | None => False
  end.
Proof.
  intros repo.
  destruct (analyze_stack (fun _ => None) (fun _ => "") repo)
    as [[stack ws] |] eqn:E; [| vm_compute in E; discriminate E].
  split.
  - apply (@python_frameworks_by_substring _ _ repo stack ws eq_refl E
             (file ["requirements.txt"] "# no Django here
Flask-Cors>=3.0") "# no Django here
Flask-Cors>=3.0" "flask");
      [vm_compute; tauto | reflexivity | reflexivity | cbn [In]; tauto
      | reflexivity].
  - apply (@python_frameworks_by_substring _ _ repo stack ws eq_refl E
             (file ["requirements.txt"] "# no Django here
Flask-Cors>=3.0") "# no Django here
Flask-Cors>=3.0" "django");
      [vm_compute; tauto | reflexivity | reflexivity | cbn [In]; tauto
      | reflexivity].
Defined.

(* ===================================================================== *)
(** * The names of the packages are in lower case                          *)
(* ===================================================================== *)

Lemma lower_char_idempotent (c : ascii) :
  Py.lower_char (Py.lower_char c) = Py.lower_char c.
Proof.
  destruct c as [b0 b1 b2 b3 b4 b5 b6 b7].
  destruct b0, b1, b2, b3, b4, b5, b6, b7; reflexivity.
Qed.

Lemma lower_idempotent (s : string) : Py.lower (Py.lower s) = Py.lower s.
Proof.
  induction s as [|c s IH]; [reflexivity |].
  cbn [Py.lower]. now rewrite lower_char_idempotent, IH.
Qed.

Lemma parse_requirement_lower (line name op ver : string) :
  parse_requirement line = Some (name, op, ver) -> Py.lower name = name.
Proof.
  unfold parse_requirement. cbv zeta.
  destruct (negb (Py.truthy (Py.strip line))
            || Py.startswith "#" (Py.strip line)); [discriminate |].
  destruct (Re.match_ false requirement_re _) as [m |]; [| discriminate].
  destruct (Re.group_of 1 m) as [n |]; [| discriminate].
  destruct (Re.group_of 2 m) as [o |]; [| discriminate].
  destruct (Re.group_of 3 m) as [v |]; [| discriminate].
  intros H. apply some_inj in H.
  pose proof (f_equal (fun x => fst (fst x)) H) as Hn. cbn [fst] in Hn.
  subst name. apply lower_idempotent.
Qed.

Lemma parse_requirements_file_lower (path : Entry) (k : string) :
  In k (Dict.keys (_parse_python_requirements_file path)) ->
  Py.lower k = k.
Proof.
  unfold _parse_python_requirements_file, parse_requirement_lines.
  destruct (read_lines path) as [lines |]; [| intros []].
  revert k.
  apply fold_left_inv
    with (P := fun d : Dict.t string =>
                 forall k, In k (Dict.keys d) -> Py.lower k = k);
    [intros k [] |].
  intros d line Hd k. unfold requirement_step.
  destruct (parse_requirement line) as [[[name op] ver] |] eqn:E;
    [| apply Hd].
  destruct (String.eqb op "==" || negb (Dict.mem name d)); [| apply Hd].
  rewrite keys_set_In. intros [H | ->]; [now apply Hd |].
  exact (parse_requirement_lower _ E).
Qed.

Lemma collect_python_lower (repo : Repo) (eco : string)
    (pkgs : Dict.t string) (k : string) :
  Dict.get (fst (fst (_collect_python repo))) eco = Some pkgs ->
  In k (Dict.keys pkgs) -> Py.lower k = k.
Proof.
  unfold _collect_python. cbv zeta. cbn [fst].
  match goal with
  | |- Dict.get (if nonempty ?d then _ else _) _ = _ -> _ =>
      assert (Hd : forall k, In k (Dict.keys d) -> Py.lower k = k);
      [| destruct d as [|kv d'];
         cbn [nonempty Dict.set Dict.get]; [discriminate |];
         destruct (String.eqb eco "python"); [| discriminate];
         intros H; apply some_inj in H; subst pkgs; apply Hd ]
  end.
  apply fold_left_inv
    with (P := fun d : Dict.t string =>
                 forall k, In k (Dict.keys d) -> Py.lower k = k);
    [intros k' [] |].
  intros d f Hd k'. rewrite keys_fold_set_if_absent.
  intros [H | H]; [now apply Hd |].
  exact (parse_requirements_file_lower f k' H).
Qed.

Lemma collect_node_file_lower (str_other : Json -> string)
    (st st' : Dict.t string * Dict.t string) (data : Json) :
  (forall k, In k (Dict.keys (fst st)) -> Py.lower k = k) ->
  collect_node_file str_other st data = Some st' ->
  forall k, In k (Dict.keys (fst st')) -> Py.lower k = k.
Proof.
  destruct st as [d lv]. unfold collect_node_file. cbn [fst].
  intros Hd H. unfold bind at 1 in H.
  match type of H with
  | match fold_exc ?f ?l ?s with _ => _ end = _ =>
      destruct (fold_exc f l s) as [d1 |] eqn:E; [| discriminate]
  end.
  assert (Hd1 : forall k, In k (Dict.keys d1) -> Py.lower k = k).
  { refine (@fold_exc_inv _ _
              (fun s : Dict.t string =>
                 forall k, In k (Dict.keys s) -> Py.lower k = k)
              _ _ _ _ Hd _ E).
    intros s x s' Hs Hx. unfold bind in Hx.
    destruct (JsonPy.get data x) as [v |]; [| discriminate].
    destruct (JsonPy.items (JsonPy.or_empty v)) as [items |];
      [| discriminate].
    injection Hx as <-. intros k.
    rewrite (@node_section_keys str_other items s k).
    intros [Hk | [nv [_ ->]]]; [now apply Hs | apply lower_idempotent]. }
  unfold bind in H.
  destruct (JsonPy.get data "engines") as [e0 |]; [| discriminate].
  destruct (JsonPy.get (JsonPy.or_empty e0) "node") as [e |];
    [| discriminate].
  injection H as <-. exact Hd1.
Qed.

Lemma collect_node_lower (json_loads : string -> option Json)
    (str_other : Json -> string) (repo : Repo) (c : Collected)
    (eco : string) (pkgs : Dict.t string) (k : string) :
  _collect_node json_loads str_other repo = Some c ->
  Dict.get (fst (fst c)) eco = Some pkgs ->
  In k (Dict.keys pkgs) -> Py.lower k = k.
Proof.
  unfold _collect_node. cbv zeta. unfold bind. intros H.
  match type of H with
  | match fold_exc ?f ?l ?s with _ => _ end = _ =>
      destruct (fold_exc f l s) as [[d lv] |] eqn:E; [| discriminate]
  end.
  assert (Hd : forall k, In k (Dict.keys d) -> Py.lower k = k).
  { change d with (fst (d, lv)).
    refine (@fold_exc_inv _ _
              (fun st : Dict.t string * Dict.t string =>
                 forall k, In k (Dict.keys (fst st)) -> Py.lower k = k)
              _ _ _ _ _ _ E); [intros k' [] |].
    intros s pkg s' Hs Hx.
    destruct (load_package_json json_loads pkg) as [data |].
    - eapply collect_node_file_lower; eassumption.
    - now injection Hx as <-. }
  destruct d as [|kv d']; cbn [nonempty] in H; injection H as <-;
    cbn [fst Dict.set Dict.get]; [discriminate |].
  destruct (String.eqb eco "node"); [| discriminate].
  intros H. apply some_inj in H. subst pkgs. apply Hd.
Qed.

(** X20. The names of the packages of Python and of Node are in lower case:
    a name is a key of the dependencies of python or of node only as its
    own lower case, so a package that a manifest writes [Flask] is found
    under [flask]. *)
Theorem dependency_names_lower_case (json_loads : string -> option Json)
    (str_other : Json -> string) (repo : Repo) (stack : StackInfo)
    (ws : list string) :
  analyze_stack json_loads str_other repo = Some (stack, ws) ->
  forall eco pkgs name,
    In eco ["python"; "node"] ->
    Dict.get (dependencies stack) eco = Some pkgs ->
    In name (Dict.keys pkgs) ->
    Py.lower name = name.
Proof.
  intros Ha eco pkgs name Heco Hget Hin.
  destruct (repo_exists repo) eqn:He.
  - destruct (analyze_stack_inv _ _ _ He Ha)
      as [fw [deps [lv [fv [_ [Hd Hs]]]]]].
    subst stack. cbn [dependencies] in Hget.
    pose proof Hd as Hd'. rewrite detect_dependencies_unfold in Hd'.
    destruct (_collect_node json_loads str_other repo) as [cn |] eqn:En;
      [| discriminate].
    pose proof (@merged_dependencies_get json_loads str_other repo cn
                  (deps, lv, fv) eco En Hd) as Hm.
    cbn [fst] in Hm. rewrite Hget in Hm.
    destruct (Dict.get (fst (fst (_collect_python repo))) eco) as [v |] eqn:E1.
    { apply some_inj in Hm. subst v.
      exact (@collect_python_lower repo eco pkgs name E1 Hin). }
    destruct (Dict.get (fst (fst cn)) eco) as [v |] eqn:E2.
    { apply some_inj in Hm. subst v.
      exact (@collect_node_lower json_loads str_other repo cn eco pkgs name
               En E2 Hin). }
    exfalso.
    destruct (Dict.get (fst (fst (_collect_go repo))) eco) as [v |] eqn:E3.
    { destruct (@one_ecosystem_found _ _ _ _ (collect_go_eco repo) E3)
        as [-> _].
      cbn [In] in Heco. intuition discriminate. }
    symmetry in Hm.
    destruct (@one_ecosystem_found _ _ _ _ (collect_java_eco repo) Hm)
      as [-> _].
    cbn [In] in Heco. intuition discriminate.
  - rewrite (analyze_stack_missing _ _ _ He Ha) in Hget. discriminate Hget.
Qed.

Lemma dependency_names_lower_case_witness :
  let repo :=
    mkRepo ["/"; "work"; "repo"] true
      [ file ["requirements.txt"] "Flask==2.0.1" ] in
  match analyze_stack (fun _ => None) (fun _ => "") repo with
  | Some (stack, _) =>
      dep_version (dependencies stack) "python" "flask" = Some "2.0.1"
      /\ forall pkgs name,
           Dict.get (dependencies stack) "python" = Some pkgs ->
           In name (Dict.keys pkgs) -> Py.lower name = name
  | None => False
  end.
Proof.
  intros repo.
  destruct (analyze_stack (fun _ => None) (fun _ => "") repo)
    as [[stack ws] |] eqn:E; [| vm_compute in E; discriminate E].
  split.
  - vm_compute in E. apply some_inj in E.
    pose proof (f_equal fst E) as Hs. cbn [fst] in Hs. subst stack.
    reflexivity.
  - intros pkgs name Hg Hin.
    apply (@dependency_names_lower_case _ _ repo stack ws E "python" pkgs
             name); [now left | exact Hg | exact Hin].
Defined.

(* ===================================================================== *)
(** * The merge of the collectors, whatever the collectors are            *)
(* ===================================================================== *)










(** ** The keys that each collector reports *)



















(* ===================================================================== *)
(** * Requirements, from the lines to the stack                            *)
(* ===================================================================== *)










(* ===================================================================== *)
(** * The analysis and the order of the walk                              *)
(* ===================================================================== *)





